(** * ESP32 Smart Presence Lamp: state arbitration and rendering

    A shallow embedding of [ESP32_PresenceSmartHub_clean.ino]: the global
    lighting state, the WebSocket command handler [onWsEvent], the geofence
    feed ingestion, the button logic, the special-date calendar and the
    priority arbiter at the end of [loop], together with the animation
    kernels the arbiter dispatches to.

    Conventions.
    - [int] and [unsigned long] are 32 bits wide on the ESP32.  Timestamps
      are kept as [Z] and every unsigned subtraction is reduced modulo
      [2^32] ([elapsed]); narrowing casts to [uint8_t]/[uint16_t] are
      written out with [u8]/[u16].
    - Every procedure is a state transformer that also produces the list of
      observable events of the call ([M]).
    - Whatever a loop iteration obtains from outside the sketch (clock
      readings, the button level, feed messages, wall-clock date, random
      numbers, the weather fetch) is an explicit input ([TickInput]). *)

From stdpp Require Import base list strings pretty.
From Stdlib Require Import ZArith QArith Lia Ascii.

Open Scope Z_scope.

(** ** Machine arithmetic *)

Definition u8 (z : Z) : Z := z mod 2 ^ 8.
Definition u16 (z : Z) : Z := z mod 2 ^ 16.
Definition u32 (z : Z) : Z := z mod 2 ^ 32.

(** [int] arithmetic, wrapping as the compiled code does. *)
Definition int32 (z : Z) : Z := (z + 2 ^ 31) mod 2 ^ 32 - 2 ^ 31.

(** [now - last] on [unsigned long]. *)
Definition elapsed (now last : Z) : Z := u32 (now - last).

(** ** Hardware and timing constants *)

Definition NUM_LEDS : Z := 19.
Definition WEATHER_CHECK_INTERVAL : Z := 900000.
Definition DATE_CHECK_INTERVAL : Z := 60000.
Definition DAY_START_HOUR : Z := 7.
Definition NIGHT_START_HOUR : Z := 21.
Definition HIGH : Z := 1.
Definition LOW : Z := 0.

(** ** State enums *)

Inductive Effect : Type :=
  | EFFECT_BREATH
  | EFFECT_FAVORITE
  | EFFECT_NIGHT
  | EFFECT_WEATHER
  | EFFECT_STATIC
  | EFFECT_PRIVATE_PULSE.

Inductive GeoState : Type :=
  | GEO_NONE
  | GEO_ARRIVED
  | GEO_SETTLED
  | GEO_LEAVE
  | GEO_DRIVING.

Global Instance Effect_eq_dec : EqDecision Effect.
Proof. solve_decision. Defined.

Global Instance GeoState_eq_dec : EqDecision GeoState.
Proof. solve_decision. Defined.

Definition Effect_to_Z (e : Effect) : Z :=
  match e with
  | EFFECT_BREATH => 0
  | EFFECT_FAVORITE => 1
  | EFFECT_NIGHT => 2
  | EFFECT_WEATHER => 3
  | EFFECT_STATIC => 4
  | EFFECT_PRIVATE_PULSE => 5
  end.

(** [static_cast<Effect>(n)], used by the button rotation on [0..3]. *)
Definition Effect_of_Z (n : Z) : Effect :=
  match n with
  | 0 => EFFECT_BREATH
  | 1 => EFFECT_FAVORITE
  | 2 => EFFECT_NIGHT
  | 3 => EFFECT_WEATHER
  | 4 => EFFECT_STATIC
  | _ => EFFECT_PRIVATE_PULSE
  end.

(** ** Frame buffer *)

(** Modelled from the spec: the [Adafruit_NeoPixel] object [strip] belongs to
    a library outside the sketch.  Following section 2 of the specification
    it is the logical frame buffer, an ordered sequence of RGB pixel values
    (as [0xRRGGBB]) plus a global brightness scalar; the brightness does not
    alter the stored pixel values. *)
Record Strip : Type := mkStrip {
  pixels : list Z;
  stripBrightness : Z
}.

Definition Color (r g b : Z) : Z :=
  Z.lor (Z.shiftl (u8 r) 16) (Z.lor (Z.shiftl (u8 g) 8) (u8 b)).

Definition numPixels (st : Strip) : Z := NUM_LEDS.

Definition setPixelColor (n c : Z) (st : Strip) : Strip :=
  if u16 n <? NUM_LEDS
  then mkStrip (<[Z.to_nat (u16 n) := Z.land c 16777215]> (pixels st))
               (stripBrightness st)
  else st.

Definition getPixelColor (n : Z) (st : Strip) : Z :=
  if u16 n <? NUM_LEDS
  then default 0 (pixels st !! Z.to_nat (u16 n))
  else 0.

(** [for (i = first; i < first + count; i++) setPixelColor(i, c)]. *)
Fixpoint setPixels (first : Z) (count : nat) (c : Z) (st : Strip) : Strip :=
  match count with
  | O => st
  | S k => setPixels (first + 1) k c (setPixelColor first c st)
  end.

(** [strip.fill(c, first, count)]; [count = 0] means up to the end. *)
Definition fill (c first count : Z) (st : Strip) : Strip :=
  if NUM_LEDS <=? u16 first then st
  else
    let last := if u16 count =? 0 then NUM_LEDS
                else Z.min (u16 first + u16 count) NUM_LEDS in
    setPixels (u16 first) (Z.to_nat (last - u16 first)) c st.

Definition clear (st : Strip) : Strip :=
  mkStrip (replicate (length (pixels st)) 0) (stripBrightness st).

Definition setBrightness (b : Z) (st : Strip) : Strip :=
  mkStrip (pixels st) (u8 b).

Definition getBrightness (st : Strip) : Z := stripBrightness st.

(** ** Observable events *)

(** Who owns the frame buffer in a tick. *)
Inductive Driver : Type :=
  | DSpecial
  | DGeo (g : GeoState)
  | DPulse
  | DBaseline (e : Effect).

Inductive Event : Type :=
  | EvShow (frame : Strip)          (* strip.show() *)
  | EvBroadcast (json : string)     (* ws.textAll(json) *)
  | EvClientText (json : string)    (* client->text(json) *)
  | EvKernel (d : Driver)           (* loop() calls the kernel of d *)
  | EvSpecialStart (index : Z)      (* startSpecialEvent(index) takes effect *)
  | EvWifiReconnect                 (* WiFi.disconnect(); WiFi.reconnect() *)
  | EvDelay (ms : Z)                (* delay(ms) *)
  | EvDelayMicroseconds (us : Z).   (* delayMicroseconds(us) *)

(** ** Global variables of the sketch *)

Record State : Type := mkState {
  currentEffect : Effect;
  currentGeoState : GeoState;
  currentWeatherCondition : string;
  currentTemperature : Q;
  lastWeatherCheck : Z;
  lastDateCheck : Z;
  lastAnimMillis : Z;
  currentStateStart : Z;
  lastColorUpdate : Z;
  lastFavColorUpdate : Z;
  lastNightModeUpdate : Z;
  lastPulseUpdate : Z;
  lastArriveUpdate : Z;
  lastLeaveUpdate : Z;
  lastDrivingUpdate : Z;
  lastWeatherAnimUpdate : Z;
  animPos : Z;
  animBrightness : Z;
  animStep : Z;
  pulseStep : Z;
  brightnessStep : Z;
  brightness : Z;
  stateDuration : Z;
  lastButtonState : Z;
  effectDelay : Z;
  staticColorBrightness : Z;
  lastPlayedDay : list Z;
  dateActive : bool;
  activeEventIndex : Z;
  strip : Strip;
  lastWifiCheck : Z;
  drivingOn : bool
}.

Definition set_currentEffect (v : Effect) (s : State) : State :=
  mkState v (currentGeoState s) (currentWeatherCondition s)
    (currentTemperature s) (lastWeatherCheck s) (lastDateCheck s)
    (lastAnimMillis s) (currentStateStart s) (lastColorUpdate s)
    (lastFavColorUpdate s) (lastNightModeUpdate s) (lastPulseUpdate s)
    (lastArriveUpdate s) (lastLeaveUpdate s) (lastDrivingUpdate s)
    (lastWeatherAnimUpdate s) (animPos s) (animBrightness s) (animStep s)
    (pulseStep s) (brightnessStep s) (brightness s) (stateDuration s)
    (lastButtonState s) (effectDelay s) (staticColorBrightness s)
    (lastPlayedDay s) (dateActive s) (activeEventIndex s) (strip s)
    (lastWifiCheck s) (drivingOn s).

Definition set_currentGeoState (v : GeoState) (s : State) : State :=
  mkState (currentEffect s) v (currentWeatherCondition s)
    (currentTemperature s) (lastWeatherCheck s) (lastDateCheck s)
    (lastAnimMillis s) (currentStateStart s) (lastColorUpdate s)
    (lastFavColorUpdate s) (lastNightModeUpdate s) (lastPulseUpdate s)
    (lastArriveUpdate s) (lastLeaveUpdate s) (lastDrivingUpdate s)
    (lastWeatherAnimUpdate s) (animPos s) (animBrightness s) (animStep s)
    (pulseStep s) (brightnessStep s) (brightness s) (stateDuration s)
    (lastButtonState s) (effectDelay s) (staticColorBrightness s)
    (lastPlayedDay s) (dateActive s) (activeEventIndex s) (strip s)
    (lastWifiCheck s) (drivingOn s).

Definition set_currentWeatherCondition (v : string) (s : State) : State :=
  mkState (currentEffect s) (currentGeoState s) v (currentTemperature s)
    (lastWeatherCheck s) (lastDateCheck s) (lastAnimMillis s)
    (currentStateStart s) (lastColorUpdate s) (lastFavColorUpdate s)
    (lastNightModeUpdate s) (lastPulseUpdate s) (lastArriveUpdate s)
    (lastLeaveUpdate s) (lastDrivingUpdate s) (lastWeatherAnimUpdate s)
    (animPos s) (animBrightness s) (animStep s) (pulseStep s)
    (brightnessStep s) (brightness s) (stateDuration s) (lastButtonState s)
    (effectDelay s) (staticColorBrightness s) (lastPlayedDay s) (dateActive s)
    (activeEventIndex s) (strip s) (lastWifiCheck s) (drivingOn s).

Definition set_currentTemperature (v : Q) (s : State) : State :=
  mkState (currentEffect s) (currentGeoState s) (currentWeatherCondition s) v
    (lastWeatherCheck s) (lastDateCheck s) (lastAnimMillis s)
    (currentStateStart s) (lastColorUpdate s) (lastFavColorUpdate s)
    (lastNightModeUpdate s) (lastPulseUpdate s) (lastArriveUpdate s)
    (lastLeaveUpdate s) (lastDrivingUpdate s) (lastWeatherAnimUpdate s)
    (animPos s) (animBrightness s) (animStep s) (pulseStep s)
    (brightnessStep s) (brightness s) (stateDuration s) (lastButtonState s)
    (effectDelay s) (staticColorBrightness s) (lastPlayedDay s) (dateActive s)
    (activeEventIndex s) (strip s) (lastWifiCheck s) (drivingOn s).

Definition set_lastWeatherCheck (v : Z) (s : State) : State :=
  mkState (currentEffect s) (currentGeoState s) (currentWeatherCondition s)
    (currentTemperature s) v (lastDateCheck s) (lastAnimMillis s)
    (currentStateStart s) (lastColorUpdate s) (lastFavColorUpdate s)
    (lastNightModeUpdate s) (lastPulseUpdate s) (lastArriveUpdate s)
    (lastLeaveUpdate s) (lastDrivingUpdate s) (lastWeatherAnimUpdate s)
    (animPos s) (animBrightness s) (animStep s) (pulseStep s)
    (brightnessStep s) (brightness s) (stateDuration s) (lastButtonState s)
    (effectDelay s) (staticColorBrightness s) (lastPlayedDay s) (dateActive s)
    (activeEventIndex s) (strip s) (lastWifiCheck s) (drivingOn s).

Definition set_lastDateCheck (v : Z) (s : State) : State :=
  mkState (currentEffect s) (currentGeoState s) (currentWeatherCondition s)
    (currentTemperature s) (lastWeatherCheck s) v (lastAnimMillis s)
    (currentStateStart s) (lastColorUpdate s) (lastFavColorUpdate s)
    (lastNightModeUpdate s) (lastPulseUpdate s) (lastArriveUpdate s)
    (lastLeaveUpdate s) (lastDrivingUpdate s) (lastWeatherAnimUpdate s)
    (animPos s) (animBrightness s) (animStep s) (pulseStep s)
    (brightnessStep s) (brightness s) (stateDuration s) (lastButtonState s)
    (effectDelay s) (staticColorBrightness s) (lastPlayedDay s) (dateActive s)
    (activeEventIndex s) (strip s) (lastWifiCheck s) (drivingOn s).

Definition set_lastAnimMillis (v : Z) (s : State) : State :=
  mkState (currentEffect s) (currentGeoState s) (currentWeatherCondition s)
    (currentTemperature s) (lastWeatherCheck s) (lastDateCheck s) v
    (currentStateStart s) (lastColorUpdate s) (lastFavColorUpdate s)
    (lastNightModeUpdate s) (lastPulseUpdate s) (lastArriveUpdate s)
    (lastLeaveUpdate s) (lastDrivingUpdate s) (lastWeatherAnimUpdate s)
    (animPos s) (animBrightness s) (animStep s) (pulseStep s)
    (brightnessStep s) (brightness s) (stateDuration s) (lastButtonState s)
    (effectDelay s) (staticColorBrightness s) (lastPlayedDay s) (dateActive s)
    (activeEventIndex s) (strip s) (lastWifiCheck s) (drivingOn s).

Definition set_currentStateStart (v : Z) (s : State) : State :=
  mkState (currentEffect s) (currentGeoState s) (currentWeatherCondition s)
    (currentTemperature s) (lastWeatherCheck s) (lastDateCheck s)
    (lastAnimMillis s) v (lastColorUpdate s) (lastFavColorUpdate s)
    (lastNightModeUpdate s) (lastPulseUpdate s) (lastArriveUpdate s)
    (lastLeaveUpdate s) (lastDrivingUpdate s) (lastWeatherAnimUpdate s)
    (animPos s) (animBrightness s) (animStep s) (pulseStep s)
    (brightnessStep s) (brightness s) (stateDuration s) (lastButtonState s)
    (effectDelay s) (staticColorBrightness s) (lastPlayedDay s) (dateActive s)
    (activeEventIndex s) (strip s) (lastWifiCheck s) (drivingOn s).

Definition set_lastColorUpdate (v : Z) (s : State) : State :=
  mkState (currentEffect s) (currentGeoState s) (currentWeatherCondition s)
    (currentTemperature s) (lastWeatherCheck s) (lastDateCheck s)
    (lastAnimMillis s) (currentStateStart s) v (lastFavColorUpdate s)
    (lastNightModeUpdate s) (lastPulseUpdate s) (lastArriveUpdate s)
    (lastLeaveUpdate s) (lastDrivingUpdate s) (lastWeatherAnimUpdate s)
    (animPos s) (animBrightness s) (animStep s) (pulseStep s)
    (brightnessStep s) (brightness s) (stateDuration s) (lastButtonState s)
    (effectDelay s) (staticColorBrightness s) (lastPlayedDay s) (dateActive s)
    (activeEventIndex s) (strip s) (lastWifiCheck s) (drivingOn s).

Definition set_lastFavColorUpdate (v : Z) (s : State) : State :=
  mkState (currentEffect s) (currentGeoState s) (currentWeatherCondition s)
    (currentTemperature s) (lastWeatherCheck s) (lastDateCheck s)
    (lastAnimMillis s) (currentStateStart s) (lastColorUpdate s) v
    (lastNightModeUpdate s) (lastPulseUpdate s) (lastArriveUpdate s)
    (lastLeaveUpdate s) (lastDrivingUpdate s) (lastWeatherAnimUpdate s)
    (animPos s) (animBrightness s) (animStep s) (pulseStep s)
    (brightnessStep s) (brightness s) (stateDuration s) (lastButtonState s)
    (effectDelay s) (staticColorBrightness s) (lastPlayedDay s) (dateActive s)
    (activeEventIndex s) (strip s) (lastWifiCheck s) (drivingOn s).

Definition set_lastNightModeUpdate (v : Z) (s : State) : State :=
  mkState (currentEffect s) (currentGeoState s) (currentWeatherCondition s)
    (currentTemperature s) (lastWeatherCheck s) (lastDateCheck s)
    (lastAnimMillis s) (currentStateStart s) (lastColorUpdate s)
    (lastFavColorUpdate s) v (lastPulseUpdate s) (lastArriveUpdate s)
    (lastLeaveUpdate s) (lastDrivingUpdate s) (lastWeatherAnimUpdate s)
    (animPos s) (animBrightness s) (animStep s) (pulseStep s)
    (brightnessStep s) (brightness s) (stateDuration s) (lastButtonState s)
    (effectDelay s) (staticColorBrightness s) (lastPlayedDay s) (dateActive s)
    (activeEventIndex s) (strip s) (lastWifiCheck s) (drivingOn s).

Definition set_lastPulseUpdate (v : Z) (s : State) : State :=
  mkState (currentEffect s) (currentGeoState s) (currentWeatherCondition s)
    (currentTemperature s) (lastWeatherCheck s) (lastDateCheck s)
    (lastAnimMillis s) (currentStateStart s) (lastColorUpdate s)
    (lastFavColorUpdate s) (lastNightModeUpdate s) v (lastArriveUpdate s)
    (lastLeaveUpdate s) (lastDrivingUpdate s) (lastWeatherAnimUpdate s)
    (animPos s) (animBrightness s) (animStep s) (pulseStep s)
    (brightnessStep s) (brightness s) (stateDuration s) (lastButtonState s)
    (effectDelay s) (staticColorBrightness s) (lastPlayedDay s) (dateActive s)
    (activeEventIndex s) (strip s) (lastWifiCheck s) (drivingOn s).

Definition set_lastArriveUpdate (v : Z) (s : State) : State :=
  mkState (currentEffect s) (currentGeoState s) (currentWeatherCondition s)
    (currentTemperature s) (lastWeatherCheck s) (lastDateCheck s)
    (lastAnimMillis s) (currentStateStart s) (lastColorUpdate s)
    (lastFavColorUpdate s) (lastNightModeUpdate s) (lastPulseUpdate s) v
    (lastLeaveUpdate s) (lastDrivingUpdate s) (lastWeatherAnimUpdate s)
    (animPos s) (animBrightness s) (animStep s) (pulseStep s)
    (brightnessStep s) (brightness s) (stateDuration s) (lastButtonState s)
    (effectDelay s) (staticColorBrightness s) (lastPlayedDay s) (dateActive s)
    (activeEventIndex s) (strip s) (lastWifiCheck s) (drivingOn s).

Definition set_lastLeaveUpdate (v : Z) (s : State) : State :=
  mkState (currentEffect s) (currentGeoState s) (currentWeatherCondition s)
    (currentTemperature s) (lastWeatherCheck s) (lastDateCheck s)
    (lastAnimMillis s) (currentStateStart s) (lastColorUpdate s)
    (lastFavColorUpdate s) (lastNightModeUpdate s) (lastPulseUpdate s)
    (lastArriveUpdate s) v (lastDrivingUpdate s) (lastWeatherAnimUpdate s)
    (animPos s) (animBrightness s) (animStep s) (pulseStep s)
    (brightnessStep s) (brightness s) (stateDuration s) (lastButtonState s)
    (effectDelay s) (staticColorBrightness s) (lastPlayedDay s) (dateActive s)
    (activeEventIndex s) (strip s) (lastWifiCheck s) (drivingOn s).

Definition set_lastDrivingUpdate (v : Z) (s : State) : State :=
  mkState (currentEffect s) (currentGeoState s) (currentWeatherCondition s)
    (currentTemperature s) (lastWeatherCheck s) (lastDateCheck s)
    (lastAnimMillis s) (currentStateStart s) (lastColorUpdate s)
    (lastFavColorUpdate s) (lastNightModeUpdate s) (lastPulseUpdate s)
    (lastArriveUpdate s) (lastLeaveUpdate s) v (lastWeatherAnimUpdate s)
    (animPos s) (animBrightness s) (animStep s) (pulseStep s)
    (brightnessStep s) (brightness s) (stateDuration s) (lastButtonState s)
    (effectDelay s) (staticColorBrightness s) (lastPlayedDay s) (dateActive s)
    (activeEventIndex s) (strip s) (lastWifiCheck s) (drivingOn s).

Definition set_lastWeatherAnimUpdate (v : Z) (s : State) : State :=
  mkState (currentEffect s) (currentGeoState s) (currentWeatherCondition s)
    (currentTemperature s) (lastWeatherCheck s) (lastDateCheck s)
    (lastAnimMillis s) (currentStateStart s) (lastColorUpdate s)
    (lastFavColorUpdate s) (lastNightModeUpdate s) (lastPulseUpdate s)
    (lastArriveUpdate s) (lastLeaveUpdate s) (lastDrivingUpdate s) v
    (animPos s) (animBrightness s) (animStep s) (pulseStep s)
    (brightnessStep s) (brightness s) (stateDuration s) (lastButtonState s)
    (effectDelay s) (staticColorBrightness s) (lastPlayedDay s) (dateActive s)
    (activeEventIndex s) (strip s) (lastWifiCheck s) (drivingOn s).

Definition set_animPos (v : Z) (s : State) : State :=
  mkState (currentEffect s) (currentGeoState s) (currentWeatherCondition s)
    (currentTemperature s) (lastWeatherCheck s) (lastDateCheck s)
    (lastAnimMillis s) (currentStateStart s) (lastColorUpdate s)
    (lastFavColorUpdate s) (lastNightModeUpdate s) (lastPulseUpdate s)
    (lastArriveUpdate s) (lastLeaveUpdate s) (lastDrivingUpdate s)
    (lastWeatherAnimUpdate s) v (animBrightness s) (animStep s) (pulseStep s)
    (brightnessStep s) (brightness s) (stateDuration s) (lastButtonState s)
    (effectDelay s) (staticColorBrightness s) (lastPlayedDay s) (dateActive s)
    (activeEventIndex s) (strip s) (lastWifiCheck s) (drivingOn s).

Definition set_animBrightness (v : Z) (s : State) : State :=
  mkState (currentEffect s) (currentGeoState s) (currentWeatherCondition s)
    (currentTemperature s) (lastWeatherCheck s) (lastDateCheck s)
    (lastAnimMillis s) (currentStateStart s) (lastColorUpdate s)
    (lastFavColorUpdate s) (lastNightModeUpdate s) (lastPulseUpdate s)
    (lastArriveUpdate s) (lastLeaveUpdate s) (lastDrivingUpdate s)
    (lastWeatherAnimUpdate s) (animPos s) v (animStep s) (pulseStep s)
    (brightnessStep s) (brightness s) (stateDuration s) (lastButtonState s)
    (effectDelay s) (staticColorBrightness s) (lastPlayedDay s) (dateActive s)
    (activeEventIndex s) (strip s) (lastWifiCheck s) (drivingOn s).

Definition set_animStep (v : Z) (s : State) : State :=
  mkState (currentEffect s) (currentGeoState s) (currentWeatherCondition s)
    (currentTemperature s) (lastWeatherCheck s) (lastDateCheck s)
    (lastAnimMillis s) (currentStateStart s) (lastColorUpdate s)
    (lastFavColorUpdate s) (lastNightModeUpdate s) (lastPulseUpdate s)
    (lastArriveUpdate s) (lastLeaveUpdate s) (lastDrivingUpdate s)
    (lastWeatherAnimUpdate s) (animPos s) (animBrightness s) v (pulseStep s)
    (brightnessStep s) (brightness s) (stateDuration s) (lastButtonState s)
    (effectDelay s) (staticColorBrightness s) (lastPlayedDay s) (dateActive s)
    (activeEventIndex s) (strip s) (lastWifiCheck s) (drivingOn s).

Definition set_pulseStep (v : Z) (s : State) : State :=
  mkState (currentEffect s) (currentGeoState s) (currentWeatherCondition s)
    (currentTemperature s) (lastWeatherCheck s) (lastDateCheck s)
    (lastAnimMillis s) (currentStateStart s) (lastColorUpdate s)
    (lastFavColorUpdate s) (lastNightModeUpdate s) (lastPulseUpdate s)
    (lastArriveUpdate s) (lastLeaveUpdate s) (lastDrivingUpdate s)
    (lastWeatherAnimUpdate s) (animPos s) (animBrightness s) (animStep s) v
    (brightnessStep s) (brightness s) (stateDuration s) (lastButtonState s)
    (effectDelay s) (staticColorBrightness s) (lastPlayedDay s) (dateActive s)
    (activeEventIndex s) (strip s) (lastWifiCheck s) (drivingOn s).

Definition set_brightnessStep (v : Z) (s : State) : State :=
  mkState (currentEffect s) (currentGeoState s) (currentWeatherCondition s)
    (currentTemperature s) (lastWeatherCheck s) (lastDateCheck s)
    (lastAnimMillis s) (currentStateStart s) (lastColorUpdate s)
    (lastFavColorUpdate s) (lastNightModeUpdate s) (lastPulseUpdate s)
    (lastArriveUpdate s) (lastLeaveUpdate s) (lastDrivingUpdate s)
    (lastWeatherAnimUpdate s) (animPos s) (animBrightness s) (animStep s)
    (pulseStep s) v (brightness s) (stateDuration s) (lastButtonState s)
    (effectDelay s) (staticColorBrightness s) (lastPlayedDay s) (dateActive s)
    (activeEventIndex s) (strip s) (lastWifiCheck s) (drivingOn s).

Definition set_brightness (v : Z) (s : State) : State :=
  mkState (currentEffect s) (currentGeoState s) (currentWeatherCondition s)
    (currentTemperature s) (lastWeatherCheck s) (lastDateCheck s)
    (lastAnimMillis s) (currentStateStart s) (lastColorUpdate s)
    (lastFavColorUpdate s) (lastNightModeUpdate s) (lastPulseUpdate s)
    (lastArriveUpdate s) (lastLeaveUpdate s) (lastDrivingUpdate s)
    (lastWeatherAnimUpdate s) (animPos s) (animBrightness s) (animStep s)
    (pulseStep s) (brightnessStep s) v (stateDuration s) (lastButtonState s)
    (effectDelay s) (staticColorBrightness s) (lastPlayedDay s) (dateActive s)
    (activeEventIndex s) (strip s) (lastWifiCheck s) (drivingOn s).

Definition set_stateDuration (v : Z) (s : State) : State :=
  mkState (currentEffect s) (currentGeoState s) (currentWeatherCondition s)
    (currentTemperature s) (lastWeatherCheck s) (lastDateCheck s)
    (lastAnimMillis s) (currentStateStart s) (lastColorUpdate s)
    (lastFavColorUpdate s) (lastNightModeUpdate s) (lastPulseUpdate s)
    (lastArriveUpdate s) (lastLeaveUpdate s) (lastDrivingUpdate s)
    (lastWeatherAnimUpdate s) (animPos s) (animBrightness s) (animStep s)
    (pulseStep s) (brightnessStep s) (brightness s) v (lastButtonState s)
    (effectDelay s) (staticColorBrightness s) (lastPlayedDay s) (dateActive s)
    (activeEventIndex s) (strip s) (lastWifiCheck s) (drivingOn s).

Definition set_lastButtonState (v : Z) (s : State) : State :=
  mkState (currentEffect s) (currentGeoState s) (currentWeatherCondition s)
    (currentTemperature s) (lastWeatherCheck s) (lastDateCheck s)
    (lastAnimMillis s) (currentStateStart s) (lastColorUpdate s)
    (lastFavColorUpdate s) (lastNightModeUpdate s) (lastPulseUpdate s)
    (lastArriveUpdate s) (lastLeaveUpdate s) (lastDrivingUpdate s)
    (lastWeatherAnimUpdate s) (animPos s) (animBrightness s) (animStep s)
    (pulseStep s) (brightnessStep s) (brightness s) (stateDuration s) v
    (effectDelay s) (staticColorBrightness s) (lastPlayedDay s) (dateActive s)
    (activeEventIndex s) (strip s) (lastWifiCheck s) (drivingOn s).

Definition set_staticColorBrightness (v : Z) (s : State) : State :=
  mkState (currentEffect s) (currentGeoState s) (currentWeatherCondition s)
    (currentTemperature s) (lastWeatherCheck s) (lastDateCheck s)
    (lastAnimMillis s) (currentStateStart s) (lastColorUpdate s)
    (lastFavColorUpdate s) (lastNightModeUpdate s) (lastPulseUpdate s)
    (lastArriveUpdate s) (lastLeaveUpdate s) (lastDrivingUpdate s)
    (lastWeatherAnimUpdate s) (animPos s) (animBrightness s) (animStep s)
    (pulseStep s) (brightnessStep s) (brightness s) (stateDuration s)
    (lastButtonState s) (effectDelay s) v (lastPlayedDay s) (dateActive s)
    (activeEventIndex s) (strip s) (lastWifiCheck s) (drivingOn s).

Definition set_lastPlayedDay (v : list Z) (s : State) : State :=
  mkState (currentEffect s) (currentGeoState s) (currentWeatherCondition s)
    (currentTemperature s) (lastWeatherCheck s) (lastDateCheck s)
    (lastAnimMillis s) (currentStateStart s) (lastColorUpdate s)
    (lastFavColorUpdate s) (lastNightModeUpdate s) (lastPulseUpdate s)
    (lastArriveUpdate s) (lastLeaveUpdate s) (lastDrivingUpdate s)
    (lastWeatherAnimUpdate s) (animPos s) (animBrightness s) (animStep s)
    (pulseStep s) (brightnessStep s) (brightness s) (stateDuration s)
    (lastButtonState s) (effectDelay s) (staticColorBrightness s) v
    (dateActive s) (activeEventIndex s) (strip s) (lastWifiCheck s)
    (drivingOn s).

Definition set_dateActive (v : bool) (s : State) : State :=
  mkState (currentEffect s) (currentGeoState s) (currentWeatherCondition s)
    (currentTemperature s) (lastWeatherCheck s) (lastDateCheck s)
    (lastAnimMillis s) (currentStateStart s) (lastColorUpdate s)
    (lastFavColorUpdate s) (lastNightModeUpdate s) (lastPulseUpdate s)
    (lastArriveUpdate s) (lastLeaveUpdate s) (lastDrivingUpdate s)
    (lastWeatherAnimUpdate s) (animPos s) (animBrightness s) (animStep s)
    (pulseStep s) (brightnessStep s) (brightness s) (stateDuration s)
    (lastButtonState s) (effectDelay s) (staticColorBrightness s)
    (lastPlayedDay s) v (activeEventIndex s) (strip s) (lastWifiCheck s)
    (drivingOn s).

Definition set_activeEventIndex (v : Z) (s : State) : State :=
  mkState (currentEffect s) (currentGeoState s) (currentWeatherCondition s)
    (currentTemperature s) (lastWeatherCheck s) (lastDateCheck s)
    (lastAnimMillis s) (currentStateStart s) (lastColorUpdate s)
    (lastFavColorUpdate s) (lastNightModeUpdate s) (lastPulseUpdate s)
    (lastArriveUpdate s) (lastLeaveUpdate s) (lastDrivingUpdate s)
    (lastWeatherAnimUpdate s) (animPos s) (animBrightness s) (animStep s)
    (pulseStep s) (brightnessStep s) (brightness s) (stateDuration s)
    (lastButtonState s) (effectDelay s) (staticColorBrightness s)
    (lastPlayedDay s) (dateActive s) v (strip s) (lastWifiCheck s)
    (drivingOn s).

Definition set_strip (v : Strip) (s : State) : State :=
  mkState (currentEffect s) (currentGeoState s) (currentWeatherCondition s)
    (currentTemperature s) (lastWeatherCheck s) (lastDateCheck s)
    (lastAnimMillis s) (currentStateStart s) (lastColorUpdate s)
    (lastFavColorUpdate s) (lastNightModeUpdate s) (lastPulseUpdate s)
    (lastArriveUpdate s) (lastLeaveUpdate s) (lastDrivingUpdate s)
    (lastWeatherAnimUpdate s) (animPos s) (animBrightness s) (animStep s)
    (pulseStep s) (brightnessStep s) (brightness s) (stateDuration s)
    (lastButtonState s) (effectDelay s) (staticColorBrightness s)
    (lastPlayedDay s) (dateActive s) (activeEventIndex s) v (lastWifiCheck s)
    (drivingOn s).

Definition set_lastWifiCheck (v : Z) (s : State) : State :=
  mkState (currentEffect s) (currentGeoState s) (currentWeatherCondition s)
    (currentTemperature s) (lastWeatherCheck s) (lastDateCheck s)
    (lastAnimMillis s) (currentStateStart s) (lastColorUpdate s)
    (lastFavColorUpdate s) (lastNightModeUpdate s) (lastPulseUpdate s)
    (lastArriveUpdate s) (lastLeaveUpdate s) (lastDrivingUpdate s)
    (lastWeatherAnimUpdate s) (animPos s) (animBrightness s) (animStep s)
    (pulseStep s) (brightnessStep s) (brightness s) (stateDuration s)
    (lastButtonState s) (effectDelay s) (staticColorBrightness s)
    (lastPlayedDay s) (dateActive s) (activeEventIndex s) (strip s) v
    (drivingOn s).

Definition set_drivingOn (v : bool) (s : State) : State :=
  mkState (currentEffect s) (currentGeoState s) (currentWeatherCondition s)
    (currentTemperature s) (lastWeatherCheck s) (lastDateCheck s)
    (lastAnimMillis s) (currentStateStart s) (lastColorUpdate s)
    (lastFavColorUpdate s) (lastNightModeUpdate s) (lastPulseUpdate s)
    (lastArriveUpdate s) (lastLeaveUpdate s) (lastDrivingUpdate s)
    (lastWeatherAnimUpdate s) (animPos s) (animBrightness s) (animStep s)
    (pulseStep s) (brightnessStep s) (brightness s) (stateDuration s)
    (lastButtonState s) (effectDelay s) (staticColorBrightness s)
    (lastPlayedDay s) (dateActive s) (activeEventIndex s) (strip s)
    (lastWifiCheck s) v.

(** The globals as [loop] first finds them: the initializers of the
    sketch, with [lastPlayedDay] filled with [-1] by [setup]. *)
Definition initialStrip : Strip := mkStrip (replicate (Z.to_nat NUM_LEDS) 0) 255.

Definition initialState : State :=
  mkState EFFECT_BREATH GEO_NONE "Unknown" 0%Q
    0 0 0 0 0 0 0 0 0 0 0 0
    0 0 8 0 5 50 0 HIGH 30
    255 (replicate 6 (-1)) false (-1)
    initialStrip 0 false.

(** ** Special dates configuration *)

Record SpecialEvent : Type := mkSpecialEvent {
  month : Z;
  day : Z;
  name : string
}.

Definition dates : list SpecialEvent :=
  [ mkSpecialEvent 1 1 "NewYear";
    mkSpecialEvent 2 14 "Valentines";
    mkSpecialEvent 2 22 "HerBirthday";
    mkSpecialEvent 5 3 "HisBirthday";
    mkSpecialEvent 8 7 "Anniversary";
    mkSpecialEvent 12 25 "Christmas" ].

Definition numDates : Z := Z.of_nat (length dates).

(** ** Procedures: state transformers with an event trace *)

Definition M (A : Type) : Type := State -> A * State * list Event.

Definition ret {A : Type} (a : A) : M A := fun s => (a, s, []).

Definition bind {A B : Type} (m : M A) (k : A -> M B) : M B :=
  fun s =>
    let r1 := m s in
    let r2 := k (fst (fst r1)) (snd (fst r1)) in
    (fst (fst r2), snd (fst r2), snd r1 ++ snd r2).

Definition get : M State := fun s => (s, s, []).
Definition modify (f : State -> State) : M unit := fun s => (tt, f s, []).
Definition emit (e : Event) : M unit := fun s => (tt, s, [e]).

Declare Scope proc_scope.
Delimit Scope proc_scope with proc.
Bind Scope proc_scope with M.

Notation "x <- m ;; k" := (bind m (fun x => k))
  (at level 100, m at next level, k at level 200, right associativity)
  : proc_scope.
Notation "m ;; k" := (bind m (fun _ => k))
  (at level 100, k at level 200, right associativity) : proc_scope.

Open Scope proc_scope.

(** Final state and trace of a procedure call. *)
Definition exec {A : Type} (m : M A) (s : State) : State := snd (fst (m s)).
Definition trace {A : Type} (m : M A) (s : State) : list Event := snd (m s).

Definition when (b : bool) (m : M unit) : M unit := if b then m else ret tt.

(** Strip method calls on the global [strip]. *)
Definition onStrip (f : Strip -> Strip) : M unit :=
  modify (fun s => set_strip (f (strip s)) s).

Definition show : M unit := s <- get ;; emit (EvShow (strip s)).

(** ** Strings *)

Definition tolower (c : ascii) : ascii :=
  let n := N_of_ascii c in
  if ((65 <=? n) && (n <=? 90))%N then ascii_of_N (n + 32) else c.

(** [String::toLowerCase]. *)
Fixpoint toLowerCase (s : string) : string :=
  match s with
  | EmptyString => EmptyString
  | String c r => String (tolower c) (toLowerCase r)
  end.

Definition isspace (c : ascii) : bool :=
  let n := N_of_ascii c in ((n =? 32) || ((9 <=? n) && (n <=? 13)))%N.

Definition hexval (c : ascii) : option Z :=
  let n := Z.of_N (N_of_ascii c) in
  if (48 <=? n) && (n <=? 57) then Some (n - 48)
  else if (65 <=? n) && (n <=? 70) then Some (n - 55)
  else if (97 <=? n) && (n <=? 102) then Some (n - 87)
  else None.

Fixpoint hexdigits (acc : Z) (s : string) : Z :=
  match s with
  | EmptyString => acc
  | String c r =>
      match hexval c with
      | Some d => hexdigits (16 * acc + d) r
      | None => acc
      end
  end.

Fixpoint skipspace (s : string) : string :=
  match s with
  | String c r => if isspace c then skipspace r else s
  | EmptyString => s
  end.

Definition skip0x (s : string) : string :=
  match s with
  | String "0" (String "x" r) => r
  | String "0" (String "X" r) => r
  | _ => s
  end.

(** [strtol(s, NULL, 16)]: blanks, an optional sign, an optional [0x], then
    hexadecimal digits up to the first other character.  The handler only
    calls it on six characters, far below the range of [long]. *)
Definition strtol16 (s : string) : Z :=
  match skipspace s with
  | String "-" r => - hexdigits 0 (skip0x r)
  | String "+" r => hexdigits 0 (skip0x r)
  | r => hexdigits 0 (skip0x r)
  end.

Definition hexdigit (n : Z) : ascii :=
  ascii_of_N (Z.to_N (if n <? 10 then 48 + n else 55 + n)).

(** [snprintf(buf, 8, "#%06X", c)] for [0 <= c < 2^24]. *)
Definition hexColor (c : Z) : string :=
  String "#"
    (String (hexdigit (Z.land (Z.shiftr c 20) 15))
    (String (hexdigit (Z.land (Z.shiftr c 16) 15))
    (String (hexdigit (Z.land (Z.shiftr c 12) 15))
    (String (hexdigit (Z.land (Z.shiftr c 8) 15))
    (String (hexdigit (Z.land (Z.shiftr c 4) 15))
    (String (hexdigit (Z.land c 15)) EmptyString)))))).

(** ** JSON documents *)

(** Parsing bytes into a document is the JSON library's work; the sketch
    only sees the decoded document: the members of the root object in
    order (none when the root is not an object). *)
Inductive JsonValue : Type :=
  | JNull
  | JBool (b : bool)
  | JInt (z : Z)
  | JFloat (q : Q)
  | JStr (s : string)
  | JNested.                        (* an array or an object *)

Definition JsonDocument : Type := list (string * JsonValue).

(** [doc[key]]. *)
Fixpoint member (key : string) (doc : JsonDocument) : option JsonValue :=
  match doc with
  | [] => None
  | (k, v) :: r => if String.eqb k key then Some v else member key r
  end.

(** [const char* p = doc[key]]: [None] is the null pointer. *)
Definition cstr (key : string) (doc : JsonDocument) : option string :=
  match member key doc with
  | Some (JStr s) => Some s
  | _ => None
  end.

Definition containsKey (key : string) (doc : JsonDocument) : bool :=
  match member key doc with Some _ => true | None => false end.

(** [doc[key].is<int>()] then [doc[key].as<int>()]. *)
Definition asInt (key : string) (doc : JsonDocument) : option Z :=
  match member key doc with
  | Some (JInt z) =>
      if (- 2 ^ 31 <=? z) && (z <? 2 ^ 31) then Some z else None
  | _ => None
  end.

Definition escapeChar (c : ascii) : string :=
  let n := N_of_ascii c in
  if (n =? 34)%N then String "\" (String c EmptyString)
  else if (n =? 92)%N then "\\"
  else if (n =? 8)%N then "\b"
  else if (n =? 12)%N then "\f"
  else if (n =? 10)%N then "\n"
  else if (n =? 13)%N then "\r"
  else if (n =? 9)%N then "\t"
  else String c EmptyString.

Fixpoint escape (s : string) : string :=
  match s with
  | EmptyString => EmptyString
  | String c r => escapeChar c ++ escape r
  end.

Definition quote : string := String (ascii_of_N 34) EmptyString.

Definition quoted (s : string) : string := quote ++ escape s ++ quote.

(** The values the snapshot uses: strings and integers. *)
Definition serializeValue (v : JsonValue) : string :=
  match v with
  | JStr s => quoted s
  | JInt z => pretty z
  | JBool true => "true"
  | JBool false => "false"
  | _ => "null"
  end.

Fixpoint serializeMembers (m : JsonDocument) : string :=
  match m with
  | [] => EmptyString
  | [(k, v)] => quoted k ++ ":" ++ serializeValue v
  | (k, v) :: r => quoted k ++ ":" ++ serializeValue v ++ "," ++ serializeMembers r
  end.

(** [serializeJson(doc, output)] for a flat object. *)
Definition serializeJson (m : JsonDocument) : string :=
  "{" ++ serializeMembers m ++ "}".

(** ** State snapshot publisher *)

Definition modeName (e : Effect) : string :=
  match e with
  | EFFECT_BREATH => "breath"
  | EFFECT_FAVORITE => "favorite"
  | EFFECT_NIGHT => "night"
  | EFFECT_WEATHER => "weather"
  | EFFECT_STATIC => "static"
  | EFFECT_PRIVATE_PULSE => "pulse"
  end.

(** The local [stateDoc] that [getCurrentStateJson] fills (its 200-byte
    capacity is not modelled). *)
Definition stateDoc (s : State) : JsonDocument :=
  [ ("mode", JStr (modeName (currentEffect s)));
    ("brightness",
     JInt (match currentEffect s with
           | EFFECT_BREATH => brightness s
           | EFFECT_STATIC => staticColorBrightness s
           | _ => getBrightness (strip s)
           end)) ]
  ++ match currentEffect s with
     | EFFECT_STATIC =>
         [ ("color",
            JStr (hexColor (Z.land (getPixelColor 0 (strip s)) 16777215))) ]
     | _ => []
     end
  ++ match currentEffect s with
     | EFFECT_WEATHER => [ ("weather", JStr (currentWeatherCondition s)) ]
     | _ => []
     end.

Definition getCurrentStateJson : M string :=
  s <- get ;; ret (serializeJson (stateDoc s)).

Definition broadcastState : M unit :=
  stateJson <- getCurrentStateJson ;; emit (EvBroadcast stateJson).

(** [client->text(getCurrentStateJson())]. *)
Definition clientText : M unit :=
  stateJson <- getCurrentStateJson ;; emit (EvClientText stateJson).

(** ** WebSocket command handler *)

Inductive AwsEventType : Type :=
  | WS_EVT_CONNECT
  | WS_EVT_DISCONNECT
  | WS_EVT_PONG
  | WS_EVT_ERROR
  | WS_EVT_DATA.

Inductive AwsFrameOpcode : Type :=
  | WS_CONTINUATION
  | WS_TEXT
  | WS_BINARY
  | WS_DISCONNECT
  | WS_PING
  | WS_PONG.

Record AwsFrameInfo : Type := mkFrameInfo {
  info_final : bool;
  info_index : Z;
  info_len : Z;
  info_opcode : AwsFrameOpcode
}.

(** What the handler receives with a data event: the frame header, the
    number of bytes, and the outcome of [deserializeJson] on those bytes
    ([None] when it reports an error). *)
Record WsData : Type := mkWsData {
  ws_info : AwsFrameInfo;
  ws_len : Z;
  ws_json : option JsonDocument
}.

Definition isText (o : AwsFrameOpcode) : bool :=
  match o with WS_TEXT => true | _ => false end.

Definition constrain (x lo hi : Z) : Z :=
  if x <? lo then lo else if hi <? x then hi else x.

Definition firstChar (s : string) : option ascii :=
  match s with
  | String c _ => Some c
  | EmptyString => None
  end.

Definition tail (s : string) : string :=
  match s with
  | String _ r => r
  | EmptyString => EmptyString
  end.

Definition isHash (o : option ascii) : bool :=
  match o with
  | Some c => (N_of_ascii c =? 35)%N
  | None => false
  end.

Section Handler.

(** The pre-shared code of [secrets.h], which is not part of the sources. *)
Variable PRIVATE_PULSE_CODE : string.

Definition doSetColor (doc : JsonDocument) : M unit :=
  match cstr "value" doc with
  | Some colorVal =>
      if (Z.of_nat (String.length colorVal) =? 7) && isHash (firstChar colorVal)
      then
        let number := strtol16 (tail colorVal) in
        let r := Z.land (Z.shiftr number 16) 255 in
        let g := Z.land (Z.shiftr number 8) 255 in
        let b := Z.land number 255 in
        modify (set_currentEffect EFFECT_STATIC) ;;
        onStrip (fill (Color r g b) 0 0) ;;
        show ;;
        broadcastState
      else if String.eqb colorVal "off"
      then
        modify (set_currentEffect EFFECT_STATIC) ;;
        onStrip clear ;;
        show ;;
        broadcastState
      else ret tt
  | None => ret tt
  end.

Definition doSetBrightness (doc : JsonDocument) : M unit :=
  match (if containsKey "value" doc then asInt "value" doc else None) with
  | Some value =>
      let brightnessVal := constrain value 0 255 in
      modify (set_staticColorBrightness (u8 brightnessVal)) ;;
      s <- get ;;
      when (bool_decide (currentEffect s = EFFECT_STATIC))
        (let currentColor := getPixelColor 0 (strip s) in
         onStrip (setBrightness (staticColorBrightness s)) ;;
         onStrip (fill currentColor 0 0) ;;
         show ;;
         onStrip (setBrightness 255)) ;;
      broadcastState
  | None => ret tt
  end.

Definition doSetMode (doc : JsonDocument) : M unit :=
  match cstr "value" doc with
  | Some modeVal =>
      let modeStr := toLowerCase modeVal in
      s <- get ;;
      let newEffect :=
        if String.eqb modeStr "breath" then EFFECT_BREATH
        else if String.eqb modeStr "favorite" then EFFECT_FAVORITE
        else if String.eqb modeStr "night" then EFFECT_NIGHT
        else if String.eqb modeStr "weather" then EFFECT_WEATHER
        else currentEffect s in
      when (negb (bool_decide (newEffect = currentEffect s)))
        (modify (set_currentEffect newEffect) ;;
         when (bool_decide (newEffect = EFFECT_BREATH))
           (modify (set_brightness 0) ;;
            modify (set_brightnessStep 5)) ;;
         onStrip clear ;;
         show ;;
         broadcastState)
  | None => ret tt
  end.

Definition doPrivatePulse (doc : JsonDocument) : M unit :=
  match cstr "secret" doc with
  | Some secretVal =>
      when (String.eqb secretVal PRIVATE_PULSE_CODE)
        (modify (set_currentEffect EFFECT_PRIVATE_PULSE) ;;
         modify (set_pulseStep 0) ;;
         broadcastState)
  | None => ret tt
  end.

(** The chain of comparisons on the lower-cased action string. *)
Definition dispatchAction (actionStr : string) (doc : JsonDocument) : M unit :=
  if String.eqb actionStr "setcolor" then doSetColor doc
  else if String.eqb actionStr "setbrightness" then doSetBrightness doc
  else if String.eqb actionStr "setmode" then doSetMode doc
  else if String.eqb actionStr "getstate" then clientText
  else if String.eqb actionStr "privatepulse" then doPrivatePulse doc
  else ret tt.

Definition onWsEvent (type : AwsEventType) (d : WsData) : M unit :=
  match type with
  | WS_EVT_CONNECT => clientText
  | WS_EVT_DATA =>
      let info := ws_info d in
      if info_final info && (info_index info =? 0)
         && (info_len info =? ws_len d) && isText (info_opcode info)
      then
        match ws_json d with
        | None => ret tt
        | Some doc =>
            match cstr "action" doc with
            | Some action => dispatchAction (toLowerCase action) doc
            | None => ret tt
            end
        end
      else ret tt
  | _ => ret tt
  end.

End Handler.

(** A whole text frame carrying the document [doc]. *)
Definition textFrame (doc : JsonDocument) : WsData :=
  mkWsData (mkFrameInfo true 0 0 WS_TEXT) 0 (Some doc).

(** ** Inputs of one loop iteration *)

(** The fields of [struct tm] the sketch reads. *)
Record Tm : Type := mkTm {
  tm_mon : Z;
  tm_mday : Z;
  tm_hour : Z
}.

(** Outcome of the HTTP weather request inside [updateWeather]. *)
Inductive WeatherFetch : Type :=
  | WifiDown
  | HttpFailed
  | JsonFailed
  | Fetched (mainCondition : option string) (temp : option Q).

Record WeatherInput : Type := mkWeatherInput {
  w_now : Z;                      (* millis() *)
  w_fetch : WeatherFetch
}.

(** What a kernel call reads from outside: the clock (twice in
    [privatePulse]), the local hour ([None] when the time is not
    available), the successive raw random numbers, and the library's
    HSV conversion. *)
Record KernelInput : Type := mkKernelInput {
  k_now : Z;
  k_now2 : Z;
  k_hour : option Z;
  k_random : nat -> Z;
  k_ColorHSV : Z -> Z -> Z -> Z
}.

Record TickInput : Type := mkTickInput {
  t_wifi_now : Z;                 (* millis() of the watchdog test *)
  t_wifi_now2 : Z;                (* millis() stored by the watchdog *)
  t_wifi_connected : bool;
  t_messages : list (string * Z); (* feed payload, millis() when handled *)
  t_button : Z;                   (* digitalRead(BUTTON_PIN) *)
  t_weather_button : WeatherInput;
  t_date_now : Z;                 (* millis() of the date-check test *)
  t_date_now2 : Z;                (* millis() stored by the date check *)
  t_localtime : option Tm;        (* getLocalTimeChecked in checkStartDate *)
  t_start_now : Z;                (* millis() in startSpecialEvent *)
  t_weather_check : WeatherInput;
  t_kernel : KernelInput;
  t_expiry_now : Z                (* millis() of the geofence expiry test *)
}.

(** [random(n)]: the [k]-th raw number brought into [[0, n)]. *)
Definition random (ki : KernelInput) (k : nat) (n : Z) : Z :=
  k_random ki k mod n.

(** ** Core logic *)

Definition weatherDue (now : Z) (s : State) : bool :=
  (WEATHER_CHECK_INTERVAL <=? elapsed now (lastWeatherCheck s))
  || (lastWeatherCheck s =? 0).

Definition updateWeather (w : WeatherInput) : M unit :=
  let now := w_now w in
  s <- get ;;
  when (weatherDue now s)
    (modify (set_lastWeatherCheck now) ;;
     match w_fetch w with
     | WifiDown => modify (set_currentWeatherCondition "Offline")
     | HttpFailed => modify (set_currentWeatherCondition "Error")
     | JsonFailed => modify (set_currentWeatherCondition "Error")
     | Fetched mainCondition temp =>
         match mainCondition with
         | Some c => modify (set_currentWeatherCondition c)
         | None => ret tt
         end ;;
         match temp with
         | Some q => modify (set_currentTemperature q)
         | None => ret tt
         end
     end).

Definition startSpecialEvent (index now : Z) : M unit :=
  if (index <? 0) || (numDates <=? index) then ret tt
  else
    emit (EvSpecialStart index) ;;
    modify (set_dateActive true) ;;
    modify (set_activeEventIndex index) ;;
    modify (set_lastAnimMillis now) ;;
    modify (set_animPos 0) ;;
    modify (set_animBrightness 0) ;;
    modify (set_animStep 8) ;;
    broadcastState.

(** The [for] loop of [checkStartDate]: index of the first calendar entry
    on the given month and day. *)
Fixpoint findDate (currentMonth currentDay : Z) (i : Z) (l : list SpecialEvent)
  : option Z :=
  match l with
  | [] => None
  | e :: r =>
      if (currentMonth =? month e) && (currentDay =? day e) then Some i
      else findDate currentMonth currentDay (i + 1) r
  end.

(** [lastPlayedDay[i]]. *)
Definition playedDay (i : Z) (s : State) : Z :=
  default 0 (lastPlayedDay s !! Z.to_nat i).

Definition set_playedDay (i v : Z) (s : State) : State :=
  set_lastPlayedDay (<[Z.to_nat i := v]> (lastPlayedDay s)) s.

Definition checkStartDate (timeinfo : option Tm) (startNow : Z) : M unit :=
  match timeinfo with
  | None => ret tt
  | Some tm =>
      let currentMonth := tm_mon tm + 1 in
      let currentDay := tm_mday tm in
      s <- get ;;
      match findDate currentMonth currentDay 0 dates with
      | Some matchingIndex =>
          if dateActive s && (activeEventIndex s =? matchingIndex) then ret tt
          else
            when (negb (playedDay matchingIndex s =? currentDay))
              (startSpecialEvent matchingIndex startNow ;;
               modify (set_playedDay matchingIndex currentDay))
      | None =>
          when (dateActive s)
            (modify (set_dateActive false) ;;
             modify (set_activeEventIndex (-1)) ;;
             onStrip clear ;;
             show ;;
             broadcastState)
      end
  end.

(** ** Animation kernels *)

Fixpoint forRange (first : Z) (count : nat) (body : Z -> Strip -> Strip)
  (st : Strip) : Strip :=
  match count with
  | O => st
  | S k => forRange (first + 1) k body (body first st)
  end.

Definition red (c : Z) : Z := u8 (Z.shiftr c 16).
Definition green (c : Z) : Z := u8 (Z.shiftr c 8).
Definition blue (c : Z) : Z := u8 c.

Definition fadeStripToBlackBy (fadeAmount : Z) (st : Strip) : Strip :=
  forRange 0 (Z.to_nat (numPixels st))
    (fun i st =>
       let prevColor := getPixelColor i st in
       let r := u8 (Z.shiftr (red prevColor * (256 - u8 fadeAmount)) 8) in
       let g := u8 (Z.shiftr (green prevColor * (256 - u8 fadeAmount)) 8) in
       let b := u8 (Z.shiftr (blue prevColor * (256 - u8 fadeAmount)) 8) in
       setPixelColor i (Color r g b) st)
    st.

Definition setTempIndicator (temperature : Q) (st : Strip) : Strip :=
  let color :=
    if Qle_bool temperature 40 then Color 0 0 150
    else if Qle_bool temperature 70 then Color 0 150 150
    else if Qle_bool temperature 85 then Color 150 150 0
    else Color 200 50 0 in
  forRange (NUM_LEDS - 4) 4 (fun i => setPixelColor i color) st.

(** [None] stands for a failed [getLocalTimeChecked]. *)
Definition getCurrentHour (timeinfo : option Z) : Z :=
  match timeinfo with
  | Some h => h
  | None => -1
  end.

Definition isDayTime (timeinfo : option Z) : bool :=
  let hour := getCurrentHour timeinfo in
  if hour =? -1 then true
  else (DAY_START_HOUR <=? hour) && (hour <? NIGHT_START_HOUR).

Definition ANIMATION_LEDS : Z := NUM_LEDS - 4.

Definition sat8 (x : Z) : Z := u8 (if 255 <? x then 255 else x).

Definition weatherClear (ki : KernelInput) (isDay : bool) : M unit :=
  let baseColor := if isDay then Color 0 50 200 else Color 0 0 80 in
  let sparkleColor := if isDay then Color 255 200 0 else Color 100 100 0 in
  onStrip (forRange 0 (Z.to_nat ANIMATION_LEDS)
             (fun i => setPixelColor i baseColor)) ;;
  when (random ki 0 5 =? 0)
    (let pos := random ki 1 ANIMATION_LEDS in
     onStrip (setPixelColor pos sparkleColor) ;;
     when (0 <? pos) (onStrip (setPixelColor (pos - 1) (Color 30 30 30)))) ;;
  onStrip (forRange 0 (Z.to_nat ANIMATION_LEDS)
             (fun i st =>
                let c := getPixelColor i st in
                let r := u8 (Z.shiftr (red c * 245) 8) in
                let g := u8 (Z.shiftr (green c * 245) 8) in
                let b := u8 (Z.shiftr (blue c * 240) 8) in
                setPixelColor i (Color r g b) st)) ;;
  onStrip (setBrightness (if isDay then 255 else 150)).

Definition cloudPuff (isDay : bool) (pos : Z) (st : Strip) : Strip :=
  let current := getPixelColor pos st in
  let addR := if isDay then 20 else 5 in
  let addG := if isDay then 20 else 5 in
  let addB := if isDay then 20 else 10 in
  setPixelColor pos
    (Color (sat8 (red current + addR)) (sat8 (green current + addG))
           (sat8 (blue current + addB))) st.

Definition weatherClouds (ki : KernelInput) (isDay : bool) : M unit :=
  onStrip (fadeStripToBlackBy 5) ;;
  onStrip (cloudPuff isDay (random ki 0 ANIMATION_LEDS)) ;;
  onStrip (cloudPuff isDay (random ki 1 ANIMATION_LEDS)) ;;
  onStrip (cloudPuff isDay (random ki 2 ANIMATION_LEDS)) ;;
  let baseColor := if isDay then Color 50 50 50 else Color 10 10 20 in
  onStrip (forRange 0 (Z.to_nat ANIMATION_LEDS)
             (fun i st => if getPixelColor i st =? 0
                          then setPixelColor i baseColor st else st)) ;;
  onStrip (setBrightness (if isDay then 200 else 120)).

Definition weatherRain (ki : KernelInput) (isDay : bool) : M unit :=
  let fadeAmount := if isDay then 40 else 20 in
  let rainColor := if isDay then Color 0 50 200 else Color 0 0 100 in
  onStrip (fadeStripToBlackBy fadeAmount) ;;
  onStrip (setPixelColor (random ki 0 ANIMATION_LEDS) rainColor) ;;
  onStrip (setBrightness (if isDay then 200 else 120)).

Definition weatherThunderstorm (ki : KernelInput) (isDay : bool) : M unit :=
  let bgColor := if isDay then Color 20 20 40 else Color 0 0 10 in
  if random ki 0 20 =? 0
  then
    onStrip (fill (Color 255 255 255) 0 ANIMATION_LEDS) ;;
    onStrip (setBrightness 255) ;;
    show ;;
    emit (EvDelay 50) ;;
    onStrip (fill bgColor 0 ANIMATION_LEDS)
  else
    onStrip (fill bgColor 0 ANIMATION_LEDS) ;;
    onStrip (setBrightness (if isDay then 150 else 80)).

Definition weatherSnow (ki : KernelInput) (isDay : bool) : M unit :=
  let fadeAmount := if isDay then 30 else 15 in
  let snowColor := if isDay then Color 200 200 200 else Color 80 80 100 in
  onStrip (fadeStripToBlackBy fadeAmount) ;;
  onStrip (setPixelColor (random ki 0 ANIMATION_LEDS) snowColor) ;;
  onStrip (setBrightness (if isDay then 200 else 150)).

Definition weatherDefault (isDay : bool) : M unit :=
  let defaultColor := if isDay then Color 50 50 50 else Color 10 10 10 in
  onStrip (fill defaultColor 0 ANIMATION_LEDS) ;;
  onStrip (setBrightness (if isDay then 100 else 30)).

Definition runWeatherMode (ki : KernelInput) : M unit :=
  let now := k_now ki in
  s <- get ;;
  if elapsed now (lastWeatherAnimUpdate s) <? 100 then ret tt
  else
    modify (set_lastWeatherAnimUpdate now) ;;
    let isDay := isDayTime (k_hour ki) in
    let condition := toLowerCase (currentWeatherCondition s) in
    modify (set_currentWeatherCondition condition) ;;
    (if String.eqb condition "clear" then weatherClear ki isDay
     else if String.eqb condition "clouds" then weatherClouds ki isDay
     else if String.eqb condition "rain" || String.eqb condition "drizzle"
     then weatherRain ki isDay
     else if String.eqb condition "thunderstorm" then weatherThunderstorm ki isDay
     else if String.eqb condition "snow" then weatherSnow ki isDay
     else weatherDefault isDay) ;;
    onStrip (setTempIndicator (currentTemperature s)) ;;
    show.

Definition favColor (ki : KernelInput) : M unit :=
  onStrip (setBrightness 255) ;;
  let currentMillis := k_now ki in
  s0 <- get ;;
  when (10 <=? elapsed currentMillis (lastColorUpdate s0))
    (modify (set_lastColorUpdate currentMillis) ;;
     modify (fun s => set_brightness (int32 (brightness s + brightnessStep s)) s) ;;
     modify (fun s =>
       if 255 <=? brightness s
       then set_brightnessStep (- Z.abs (brightnessStep s)) (set_brightness 255 s)
       else if brightness s <=? 50
       then set_brightnessStep (Z.abs (brightnessStep s)) (set_brightness 50 s)
       else s)) ;;
  s1 <- get ;;
  when (30 <=? elapsed currentMillis (lastFavColorUpdate s1))
    (modify (set_lastFavColorUpdate currentMillis) ;;
     onStrip (forRange 0 (Z.to_nat NUM_LEDS)
                (fun i =>
                   let totalOffset := u32 (animPos s1 * 700 + i * 1000) in
                   let restrictedOffset :=
                     u16 (totalOffset mod 65536 * 30000 / 65536) in
                   let hue := u16 (30000 + restrictedOffset) in
                   setPixelColor i
                     (k_ColorHSV ki hue 155 (u8 (brightness s1))))) ;;
     show ;;
     modify (fun s => set_animPos (int32 (animPos s + 1)) s) ;;
     onStrip (setBrightness 255)).

Definition privatePulse (ki : KernelInput) : M unit :=
  s <- get ;;
  when (100 <? elapsed (k_now ki) (lastPulseUpdate s))
    (modify (set_lastPulseUpdate (k_now2 ki)) ;;
     let phase := Z.rem (pulseStep s) (NUM_LEDS * 2) in
     (if phase <? NUM_LEDS
      then onStrip (setPixelColor phase (Color 255 105 180))
      else onStrip (setPixelColor (NUM_LEDS * 2 - 1 - phase) (Color 255 0 0))) ;;
     show ;;
     modify (set_pulseStep (int32 (pulseStep s + 1)))).

(** The shared body of [runArrive] and [runLeave]: step the brightness
    cursor and flip the step at either end. *)
Definition stepBrightness : M unit :=
  modify (fun s => set_brightness (int32 (brightness s + brightnessStep s)) s) ;;
  modify (fun s =>
    if (brightness s <=? 0) || (255 <=? brightness s)
    then set_brightnessStep (int32 (- brightnessStep s)) s else s).

Definition fillAll (color : Z) : M unit :=
  onStrip (forRange 0 (Z.to_nat NUM_LEDS) (fun i => setPixelColor i color)).

Definition runArrive (ki : KernelInput) : M unit :=
  let currentMillis := k_now ki in
  s <- get ;;
  when (u32 (effectDelay s) <=? elapsed currentMillis (lastArriveUpdate s))
    (modify (set_lastArriveUpdate currentMillis) ;;
     stepBrightness ;;
     s' <- get ;;
     fillAll (Color 0 (brightness s') 0) ;;
     show).

Definition runSettled : M unit :=
  fillAll (Color 127 100 64) ;;
  show.

Definition runLeave (ki : KernelInput) : M unit :=
  let currentMillis := k_now ki in
  s <- get ;;
  when (u32 (effectDelay s) <=? elapsed currentMillis (lastLeaveUpdate s))
    (modify (set_lastLeaveUpdate currentMillis) ;;
     stepBrightness ;;
     s' <- get ;;
     fillAll (Color 0 0 (brightness s')) ;;
     show).

Definition runDriving (ki : KernelInput) : M unit :=
  let currentMillis := k_now ki in
  s <- get ;;
  when (600 <=? elapsed currentMillis (lastDrivingUpdate s))
    (modify (set_lastDrivingUpdate currentMillis) ;;
     let on := negb (drivingOn s) in
     modify (set_drivingOn on) ;;
     fillAll (if on then Color 255 255 0 else Color 0 0 0) ;;
     show).

Definition runGenerativeSparkle (ki : KernelInput) : M unit :=
  let currentMillis := k_now ki in
  s <- get ;;
  if elapsed currentMillis (lastFavColorUpdate s) <? 40 then ret tt
  else
    modify (set_lastFavColorUpdate currentMillis) ;;
    onStrip (fadeStripToBlackBy 20) ;;
    when (random ki 0 10 =? 0)
      (let pos := random ki 1 NUM_LEDS in
       let randomHue := u16 (random ki 2 65535) in
       onStrip (setPixelColor pos (k_ColorHSV ki randomHue 255 255))) ;;
    show.

Definition runNightMode (ki : KernelInput) : M unit :=
  let currentMillis := k_now ki in
  s <- get ;;
  when (u32 (effectDelay s) <=? elapsed currentMillis (lastNightModeUpdate s))
    (modify (set_lastNightModeUpdate currentMillis) ;;
     onStrip (fill (Color 100 70 20) 0 NUM_LEDS) ;;
     onStrip (setBrightness 30) ;;
     show).

(** *** Date events *)

(** The common shape of the marching-pixel date animations: one pixel at
    [animPos % NUM_LEDS] in [spot], all the others in [background]. *)
Definition marchingPixel (interval spot background : Z) (clearFirst : bool)
  (ki : KernelInput) : M unit :=
  let now := k_now ki in
  s <- get ;;
  if elapsed now (lastAnimMillis s) <? interval then ret tt
  else
    modify (set_lastAnimMillis now) ;;
    let p := Z.rem (animPos s) NUM_LEDS in
    (if clearFirst
     then
       onStrip clear ;;
       onStrip (setPixelColor p spot) ;;
       onStrip (forRange 0 (Z.to_nat NUM_LEDS)
                  (fun i st => if negb (i =? p)
                               then setPixelColor i background st else st))
     else
       fillAll background ;;
       onStrip (setPixelColor p spot)) ;;
    show ;;
    modify (set_animPos (int32 (animPos s + 1))).

Definition animChristmas : KernelInput -> M unit :=
  marchingPixel 120 (Color 0 160 0) (Color 160 0 0) false.

Definition animAnni (ki : KernelInput) : M unit :=
  let now := k_now ki in
  s <- get ;;
  if elapsed now (lastAnimMillis s) <? 40 then ret tt
  else
    modify (set_lastAnimMillis now) ;;
    modify (fun s => set_animBrightness (int32 (animBrightness s + animStep s)) s) ;;
    modify (fun s =>
      if (animBrightness s <=? 0) || (255 <=? animBrightness s)
      then set_animStep (int32 (- animStep s)) s else s) ;;
    s' <- get ;;
    let b := u8 (animBrightness s') in
    let r := u8 (255 * b / 255) in
    let g := u8 (80 * b / 255) in
    let bl := u8 (150 * b / 255) in
    fillAll (Color r g bl) ;;
    show.

Definition animValentines : KernelInput -> M unit :=
  marchingPixel 100 (Color 255 105 180) (Color 255 0 0) true.

Definition animIndependence (ki : KernelInput) : M unit :=
  let now := k_now ki in
  s <- get ;;
  if elapsed now (lastAnimMillis s) <? 200 then ret tt
  else
    modify (set_lastAnimMillis now) ;;
    let cycle := Z.rem (animPos s) 3 in
    (if cycle =? 0 then onStrip (fill (Color 255 0 0) 0 NUM_LEDS)
     else if cycle =? 1 then onStrip (fill (Color 255 255 255) 0 NUM_LEDS)
     else onStrip (fill (Color 0 0 255) 0 NUM_LEDS)) ;;
    show ;;
    modify (set_animPos (int32 (animPos s + 1))).

Definition animHerBirthday : KernelInput -> M unit :=
  marchingPixel 100 (Color 255 105 180) (Color 40 0 80) true.

Definition animHisBirthday : KernelInput -> M unit :=
  marchingPixel 100 (Color 150 150 150) (Color 0 0 255) true.

Definition runActiveSpecialAnimation (ki : KernelInput) : M unit :=
  s <- get ;;
  if negb (dateActive s) || (activeEventIndex s <? 0) then ret tt
  else
    match dates !! Z.to_nat (activeEventIndex s) with
    | None => ret tt              (* index past the table: never stored *)
    | Some ev =>
        let name := name ev in
        if String.eqb name "Christmas" then animChristmas ki
        else if String.eqb name "Valentines" then animValentines ki
        else if String.eqb name "NewYear" then animIndependence ki
        else if String.eqb name "HerBirthday" then animHerBirthday ki
        else if String.eqb name "HisBirthday" then animHisBirthday ki
        else if String.eqb name "Anniversary" then animAnni ki
        else animChristmas ki
    end.

(** ** The control loop *)

(** WiFi watchdog at the head of [loop]; [lastWifiCheck] is its static
    local. *)
Definition wifiWatchdog (inp : TickInput) : M unit :=
  s <- get ;;
  when (30000 <? elapsed (t_wifi_now inp) (lastWifiCheck s))
    (modify (set_lastWifiCheck (t_wifi_now2 inp)) ;;
     when (negb (t_wifi_connected inp)) (emit EvWifiReconnect)).

(** Body of the [while] over the geofence feed for one message. *)
Definition onGeofenceMessage (payload : string) (now : Z) : M unit :=
  let message := toLowerCase payload in
  (if String.eqb message "arrive" then
     modify (set_currentGeoState GEO_ARRIVED) ;;
     modify (set_currentStateStart now) ;;
     modify (set_stateDuration 15000) ;;
     modify (set_brightness 0) ;;
     modify (set_brightnessStep 5)
   else if String.eqb message "settled" then
     modify (set_currentGeoState GEO_SETTLED) ;;
     modify (set_currentStateStart now) ;;
     modify (set_stateDuration 10000)
   else if String.eqb message "leave" then
     modify (set_currentGeoState GEO_LEAVE) ;;
     modify (set_currentStateStart now) ;;
     modify (set_stateDuration 8000) ;;
     modify (set_brightness 0) ;;
     modify (set_brightnessStep 5)
   else if String.eqb message "driving" then
     modify (set_currentGeoState GEO_DRIVING) ;;
     modify (set_currentStateStart now) ;;
     modify (set_stateDuration 10000)
   else if String.eqb message "pulse" || String.eqb message "missyou" then
     modify (set_currentEffect EFFECT_PRIVATE_PULSE) ;;
     modify (set_pulseStep 0) ;;
     broadcastState
   else ret tt) ;;
  broadcastState.

Fixpoint mqttIncoming (msgs : list (string * Z)) : M unit :=
  match msgs with
  | [] => ret tt
  | (payload, now) :: rest => onGeofenceMessage payload now ;; mqttIncoming rest
  end.

(** [dates[i].day]. *)
Definition dateDay (i : Z) : Z :=
  default 0 (day <$> dates !! Z.to_nat i).

Definition buttonLogic (inp : TickInput) : M unit :=
  let currentButtonState := t_button inp in
  s <- get ;;
  when ((lastButtonState s =? HIGH) && (currentButtonState =? LOW))
    (if dateActive s then
       when ((0 <=? activeEventIndex s) && (activeEventIndex s <? numDates))
         (modify (set_playedDay (activeEventIndex s)
                    (dateDay (activeEventIndex s)))) ;;
       modify (set_dateActive false) ;;
       modify (set_activeEventIndex (-1)) ;;
       onStrip clear ;;
       onStrip (setBrightness 255) ;;
       show ;;
       broadcastState
     else if bool_decide (currentEffect s = EFFECT_PRIVATE_PULSE) then
       modify (set_currentEffect EFFECT_BREATH) ;;
       modify (set_brightness 60) ;;
       modify (set_brightnessStep 5) ;;
       onStrip (setBrightness 255) ;;
       onStrip clear ;;
       show ;;
       broadcastState
     else
       let next := Effect_of_Z (Z.rem (Effect_to_Z (currentEffect s) + 1) 4) in
       modify (set_currentEffect next) ;;
       (if bool_decide (next = EFFECT_BREATH) then
          modify (set_brightness 60) ;;
          modify (set_brightnessStep 5) ;;
          onStrip (setBrightness 255)
        else if bool_decide (next = EFFECT_WEATHER) then
          updateWeather (t_weather_button inp)
        else ret tt) ;;
       onStrip clear ;;
       show ;;
       broadcastState) ;;
  modify (set_lastButtonState currentButtonState).

Definition dateCheck (inp : TickInput) : M unit :=
  s <- get ;;
  when (DATE_CHECK_INTERVAL <=? elapsed (t_date_now inp) (lastDateCheck s))
    (modify (set_lastDateCheck (t_date_now2 inp)) ;;
     checkStartDate (t_localtime inp) (t_start_now inp) ;;
     updateWeather (t_weather_check inp)).

(** The [switch] inside the geo override block. *)
Definition geoKernel (g : GeoState) (ki : KernelInput) : M unit :=
  match g with
  | GEO_ARRIVED => emit (EvKernel (DGeo GEO_ARRIVED)) ;; runArrive ki
  | GEO_SETTLED => emit (EvKernel (DGeo GEO_SETTLED)) ;; runSettled
  | GEO_LEAVE => emit (EvKernel (DGeo GEO_LEAVE)) ;; runLeave ki
  | GEO_DRIVING => emit (EvKernel (DGeo GEO_DRIVING)) ;; runDriving ki
  | GEO_NONE => ret tt
  end.

(** The [switch] of the main effects loop. *)
Definition baselineKernel (e : Effect) (ki : KernelInput) : M unit :=
  match e with
  | EFFECT_BREATH => emit (EvKernel (DBaseline EFFECT_BREATH)) ;; favColor ki
  | EFFECT_FAVORITE =>
      emit (EvKernel (DBaseline EFFECT_FAVORITE)) ;; runGenerativeSparkle ki
  | EFFECT_NIGHT => emit (EvKernel (DBaseline EFFECT_NIGHT)) ;; runNightMode ki
  | EFFECT_WEATHER => emit (EvKernel (DBaseline EFFECT_WEATHER)) ;; runWeatherMode ki
  | _ => ret tt
  end.

(** The tail of [loop]: from [if (dateActive)] to the end. *)
Definition arbiter (inp : TickInput) : M unit :=
  let ki := t_kernel inp in
  s <- get ;;
  if dateActive s then
    emit (EvKernel DSpecial) ;; runActiveSpecialAnimation ki
  else if negb (bool_decide (currentGeoState s = GEO_NONE)) then
    geoKernel (currentGeoState s) ki ;;
    s' <- get ;;
    when (u32 (stateDuration s')
            <=? elapsed (t_expiry_now inp) (currentStateStart s'))
      (modify (set_currentGeoState GEO_NONE) ;;
       onStrip clear ;;
       show ;;
       broadcastState)
  else if bool_decide (currentEffect s = EFFECT_PRIVATE_PULSE) then
    emit (EvKernel DPulse) ;; privatePulse ki
  else
    baselineKernel (currentEffect s) ki ;;
    emit (EvDelayMicroseconds 500).

(** The part of [loop] before the arbiter. *)
Definition housekeeping (inp : TickInput) : M unit :=
  wifiWatchdog inp ;;
  mqttIncoming (t_messages inp) ;;
  buttonLogic inp ;;
  dateCheck inp.

(** One iteration of [loop], with the MQTT session up. *)
Definition loop (inp : TickInput) : M unit :=
  housekeeping inp ;;
  arbiter inp.

(** ** Runs of the system *)

Inductive Step : Type :=
  | Tick (inp : TickInput)
  | Ws (type : AwsEventType) (d : WsData).

Definition step (code : string) (st : Step) : M unit :=
  match st with
  | Tick inp => loop inp
  | Ws type d => onWsEvent code type d
  end.

Fixpoint run (code : string) (steps : list Step) : M unit :=
  match steps with
  | [] => ret tt
  | st :: rest => step code st ;; run code rest
  end.

(** ** Reading traces and states *)

Definition kernelOf (e : Event) : option Driver :=
  match e with
  | EvKernel d => Some d
  | _ => None
  end.

(** The kernels [loop] dispatched to, in order. *)
Definition kernels (t : list Event) : list Driver := omap kernelOf t.

Definition isBroadcast (e : Event) : bool :=
  match e with EvBroadcast _ => true | _ => false end.

Definition isSpecialStart (e : Event) : bool :=
  match e with EvSpecialStart _ => true | _ => false end.

Definition isKernel (e : Event) : bool :=
  match e with EvKernel _ => true | _ => false end.

(** Number of [broadcastState] calls in a trace. *)
Definition broadcasts (t : list Event) : nat :=
  length (List.filter isBroadcast t).

(** The driver that owns the frame buffer in state [s], by the order of the
    tests at the end of [loop]. *)
Definition activeDriver (s : State) : Driver :=
  if dateActive s then DSpecial
  else if negb (bool_decide (currentGeoState s = GEO_NONE))
  then DGeo (currentGeoState s)
  else if bool_decide (currentEffect s = EFFECT_PRIVATE_PULSE) then DPulse
  else DBaseline (currentEffect s).

(** The geofence override: kind, start timestamp, duration. *)
Definition geoOverride (s : State) : GeoState * Z * Z :=
  (currentGeoState s, currentStateStart s, stateDuration s).

(** The sizes of the two arrays of the sketch, [strip] and
    [lastPlayedDay]. *)
Definition sizes (s : State) : nat * nat :=
  (length (pixels (strip s)), length (lastPlayedDay s)).

Definition wellSized (s : State) : Prop :=
  sizes s = (Z.to_nat NUM_LEDS, Z.to_nat numDates).

(** A procedure leaves the observation [f] of the state alone. *)
Definition Preserves {X A : Type} (f : State -> X) (m : M A) : Prop :=
  forall s, f (exec m s) = f s.

(** A procedure emits no event of the class [p]. *)
Definition Without {A : Type} (p : Event -> bool) (m : M A) : Prop :=
  forall s, List.filter p (trace m s) = [].

(** The kernel call [loop] makes for a driver: Static has no kernel of its
    own (its frame was written when the command arrived). *)
Definition dispatched (d : Driver) : list Driver :=
  match d with
  | DBaseline EFFECT_STATIC => []
  | DBaseline EFFECT_PRIVATE_PULSE => []
  | DGeo GEO_NONE => []
  | _ => [d]
  end.

(** The action names [onWsEvent] compares against. *)
Definition recognized (actionStr : string) : bool :=
  String.eqb actionStr "setcolor" || String.eqb actionStr "setbrightness"
  || String.eqb actionStr "setmode" || String.eqb actionStr "getstate"
  || String.eqb actionStr "privatepulse".

(** The whole-text-frame test of [onWsEvent]. *)
Definition wholeText (d : WsData) : bool :=
  info_final (ws_info d) && (info_index (ws_info d) =? 0)
  && (info_len (ws_info d) =? ws_len d) && isText (info_opcode (ws_info d)).

(** The data frames that fail one of the tests of [onWsEvent]: a fragment
    or binary frame, bytes that do not deserialize, a document without an
    action string, an action that matches none of the comparisons, or an
    action whose argument fails the branch's own test (absent, of the
    wrong JSON type, a color that is neither ["off"] nor seven characters
    led by [#], a mode name outside the four, a secret other than the
    pre-shared [code]). *)
Inductive Rejected (code : string) : WsData -> Prop :=
  | NotWholeText d :
      wholeText d = false -> Rejected code d
  | NotJson d :
      ws_json d = None -> Rejected code d
  | NoAction d doc :
      ws_json d = Some doc -> cstr "action" doc = None -> Rejected code d
  | UnknownAction d doc action :
      ws_json d = Some doc -> cstr "action" doc = Some action ->
      recognized (toLowerCase action) = false -> Rejected code d
  | NoColorValue d doc action :
      ws_json d = Some doc -> cstr "action" doc = Some action ->
      toLowerCase action = "setcolor" -> cstr "value" doc = None ->
      Rejected code d
  | NoBrightnessValue d doc action :
      ws_json d = Some doc -> cstr "action" doc = Some action ->
      toLowerCase action = "setbrightness" -> asInt "value" doc = None ->
      Rejected code d
  | NoModeValue d doc action :
      ws_json d = Some doc -> cstr "action" doc = Some action ->
      toLowerCase action = "setmode" -> cstr "value" doc = None ->
      Rejected code d
  | NoSecret d doc action :
      ws_json d = Some doc -> cstr "action" doc = Some action ->
      toLowerCase action = "privatepulse" -> cstr "secret" doc = None ->
      Rejected code d
  | BadColorValue d doc action colorVal :
      ws_json d = Some doc -> cstr "action" doc = Some action ->
      toLowerCase action = "setcolor" -> cstr "value" doc = Some colorVal ->
      (Z.of_nat (String.length colorVal) =? 7) && isHash (firstChar colorVal)
        = false ->
      colorVal <> "off" ->
      Rejected code d
  | UnknownMode d doc action modeVal :
      ws_json d = Some doc -> cstr "action" doc = Some action ->
      toLowerCase action = "setmode" -> cstr "value" doc = Some modeVal ->
      ~ In (toLowerCase modeVal) ["breath"; "favorite"; "night"; "weather"] ->
      Rejected code d
  | WrongSecret d doc action secretVal :
      ws_json d = Some doc -> cstr "action" doc = Some action ->
      toLowerCase action = "privatepulse" ->
      cstr "secret" doc = Some secretVal -> secretVal <> code ->
      Rejected code d.

(** The two commands of the round trip. *)
Definition setcolorFrame : WsData :=
  textFrame [("action", JStr "setcolor"); ("value", JStr "#1A2B3C")].

Definition getstateFrame : WsData :=
  textFrame [("action", JStr "getstate")].

(** The words the geofence feed reacts to. *)
Definition feedWords : list string :=
  ["arrive"; "settled"; "leave"; "driving"; "pulse"; "missyou"].

(** Sample inputs: a kernel input at time zero, and a tick at time zero in
    which nothing arrives while the button is held down. *)
Definition idleKernelInput : KernelInput :=
  mkKernelInput 0 0 None (fun _ => 0) (fun _ _ _ => 0).

Definition pressTick : TickInput :=
  mkTickInput 0 0 true [] LOW (mkWeatherInput 0 WifiDown)
    0 0 None 0 (mkWeatherInput 0 WifiDown) idleKernelInput 0.

(** The part of the state that no animation kernel writes: the mode, the
    geofence override, the special-date bookkeeping and the button
    level. *)
Definition arbitration (s : State)
  : Effect * (GeoState * Z * Z) * bool * Z * list Z * Z :=
  (currentEffect s, geoOverride s, dateActive s, activeEventIndex s,
   lastPlayedDay s, lastButtonState s).

(** The geofence expiry test at the end of the override block. *)
Definition expired (inp : TickInput) (s : State) : bool :=
  u32 (stateDuration s) <=? elapsed (t_expiry_now inp) (currentStateStart s).


(** A tick that takes one message from the feed at time [now]. *)
Definition feedTick (payload : string) (now : Z) : TickInput :=
  mkTickInput now now true [(payload, now)] HIGH (mkWeatherInput now WifiDown)
    now now None now (mkWeatherInput now WifiDown)
    (mkKernelInput now now None (fun _ => 0) (fun _ _ _ => 0)) now.

(** A tick at time [now] in which nothing arrives. *)
Definition laterTick (now : Z) : TickInput :=
  mkTickInput now now true [] HIGH (mkWeatherInput now WifiDown)
    now now None now (mkWeatherInput now WifiDown)
    (mkKernelInput now now None (fun _ => 0) (fun _ _ _ => 0)) now.

(** The wall clock of a tick shows no calendar date (or is not
    available). *)
Definition noDateToday (inp : TickInput) : Prop :=
  match t_localtime inp with
  | None => True
  | Some tm => findDate (tm_mon tm + 1) (tm_mday tm) 0 dates = None
  end.

(** A tick without outside events: nothing on the feed, the button not
    held down, no calendar date. *)
Definition calm (inp : TickInput) : Prop :=
  t_messages inp = [] /\ t_button inp <> LOW /\ noDateToday inp.


(** The special-date bookkeeping together with the stored button level. *)
Definition dateBook (s : State) : bool * Z * list Z * Z :=
  (dateActive s, activeEventIndex s, lastPlayedDay s, lastButtonState s).

(** Number of [startSpecialEvent] calls that took effect in a trace. *)
Definition specialStarts (t : list Event) : nat :=
  length (List.filter isSpecialStart t).

(** A step that happens on the calendar day [m]/[d]: whenever a tick
    obtains the local time, it is that month and day. *)
Definition onDay (m d : Z) (st : Step) : Prop :=
  match st with
  | Tick inp =>
      match t_localtime inp with
      | Some tm => tm_mon tm + 1 = m /\ tm_mday tm = d
      | None => True
      end
  | Ws _ _ => True
  end.

(** A tick at time [now] with the given button level and local time. *)
Definition clockTick (now button : Z) (timeinfo : option Tm) : TickInput :=
  mkTickInput now now true [] button (mkWeatherInput now WifiDown)
    now now timeinfo now (mkWeatherInput now WifiDown)
    (mkKernelInput now now None (fun _ => 0) (fun _ _ _ => 0)) now.

(** 25 December, ten in the morning. *)
Definition christmasMorning : Tm := mkTm 11 25 10.

(** ** Further vocabulary for the properties of single functions *)

(** A whole text frame with a [setcolor] command. *)
Definition setcolorCommand (value : string) : WsData :=
  textFrame [("action", JStr "setcolor"); ("value", JStr value)].

(** A whole text frame with a [setbrightness] command. *)
Definition setbrightnessCommand (value : Z) : WsData :=
  textFrame [("action", JStr "setbrightness"); ("value", JInt value)].

(** A whole text frame with a [setmode] command. *)
Definition setmodeCommand (value : string) : WsData :=
  textFrame [("action", JStr "setmode"); ("value", JStr value)].

(** A whole text frame with a [privatepulse] command. *)
Definition privatepulseCommand (secret : string) : WsData :=
  textFrame [("action", JStr "privatepulse"); ("secret", JStr secret)].

Definition showOf (e : Event) : option Strip :=
  match e with
  | EvShow frame => Some frame
  | _ => None
  end.

(** The frames pushed to the hardware, in order. *)
Definition shows (t : list Event) : list Strip := omap showOf t.

(** A strip of 19 pixels that all have the color [c]. *)
Definition uniform (c : Z) (st : Strip) : Prop :=
  pixels st = replicate (Z.to_nat NUM_LEDS) c.

(** The mode a button press leads to when no special date is active. *)
Definition afterPress (e : Effect) : Effect :=
  match e with
  | EFFECT_BREATH => EFFECT_FAVORITE
  | EFFECT_FAVORITE => EFFECT_NIGHT
  | EFFECT_NIGHT => EFFECT_WEATHER
  | EFFECT_WEATHER => EFFECT_BREATH
  | EFFECT_STATIC => EFFECT_FAVORITE
  | EFFECT_PRIVATE_PULSE => EFFECT_BREATH
  end.

(** The color [setTempIndicator] picks for a temperature. *)
Definition tempColor (temperature : Q) : Z :=
  if Qle_bool temperature 40 then Color 0 0 150
  else if Qle_bool temperature 70 then Color 0 150 150
  else if Qle_bool temperature 85 then Color 150 150 0
  else Color 200 50 0.

(** The last frame of a trace, if it pushed any. *)
Definition lastShown (t : list Event) : option Strip := last (shows t).

(** A procedure maintains the invariant [I]. *)
Definition Keeps {A : Type} (I : State -> Prop) (m : M A) : Prop :=
  forall s, I s -> I (exec m s).

(** The fade cursor shared by [favColor], [runArrive] and [runLeave]:
    a multiple of 5 in 0..255 that moves by 5 and points inward at both
    ends. *)
Definition cursorOK (s : State) : Prop :=
  0 <= brightness s <= 255 /\ brightness s mod 5 = 0 /\
  (brightnessStep s = 5 \/ brightnessStep s = -5) /\
  (brightness s = 0 -> brightnessStep s = 5) /\
  (brightness s = 255 -> brightnessStep s = -5).

Definition cursor (s : State) : Z * Z := (brightness s, brightnessStep s).

(** What one breath update of [favColor] does to the cursor. *)
Definition breathCursor (c : Z * Z) : Z * Z :=
  let b := int32 (fst c + snd c) in
  if 255 <=? b then (255, - Z.abs (snd c))
  else if b <=? 50 then (50, Z.abs (snd c))
  else (b, snd c).

(** The fade cursor of [animAnni]: a multiple of 8 in 0..256 that moves
    by 8 and points inward at both ends. *)
Definition anniOK (s : State) : Prop :=
  0 <= animBrightness s <= 256 /\ animBrightness s mod 8 = 0 /\
  (animStep s = 8 \/ animStep s = -8) /\
  (animBrightness s = 0 -> animStep s = 8) /\
  (animBrightness s = 256 -> animStep s = -8).

Definition anni (s : State) : Z * Z := (animBrightness s, animStep s).

(** An active special date points into the calendar. *)
Definition dateOK (s : State) : Prop :=
  dateActive s = true -> 0 <= activeEventIndex s < numDates.

(** The color [animAnni] paints for the narrowed cursor [b]. *)
Definition anniColor (b : Z) : Z :=
  Color (u8 (255 * b / 255)) (u8 (80 * b / 255)) (u8 (150 * b / 255)).

(** ** Start-up *)

(** How a call of [MQTT_connect] ends: it returns after sleeping [slept]
    milliseconds, or it spins in [while (1)] until the watchdog resets
    the board. *)
Inductive ConnectResult : Type :=
  | Connected (slept : Z)
  | Halted (slept : Z).

(** The [while] loop of [MQTT_connect]: [connect k] is what the [k]-th
    call of [mqtt.connect()] returns, [retries] the attempts left. *)
Fixpoint connectLoop (connect : nat -> Z) (k retries : nat) (slept : Z)
  : ConnectResult :=
  match retries with
  | O => Halted slept
  | S r =>
      if connect k =? 0 then Connected slept
      else if Z.of_nat r =? 0 then Halted (slept + 5000)
      else connectLoop connect (S k) r (slept + 5000)
  end.

Definition MQTT_connect (connected : bool) (connect : nat -> Z)
  : ConnectResult :=
  if connected then Connected 0 else connectLoop connect 0 3 0.

(** The globals as their initializers leave them, before [setup] runs:
    [lastPlayedDay] is zero-initialized. *)
Definition bootState : State :=
  set_lastPlayedDay (replicate (Z.to_nat numDates) 0) initialState.

(** [setup], for the parts that touch the globals: [mounted] is the
    result of [LittleFS.begin], the other two arguments feed the closing
    [checkStartDate].  The wait for WiFi is taken to end. *)
Definition setup (mounted : bool) (timeinfo : option Tm) (startNow : Z)
  : M unit :=
  show ;;
  emit (EvDelay 100) ;;
  if negb mounted then ret tt
  else
    modify (fun s =>
      set_lastPlayedDay
        (foldl (fun l i => <[i := -1]> l) (lastPlayedDay s)
           (seq 0 (Z.to_nat numDates))) s) ;;
    checkStartDate timeinfo startNow.

(** The global brightness of the strip. *)
Definition level (s : State) : Z := stripBrightness (strip s).

(** A procedure that leaves the global brightness at [b] and pushes
    frames at that level only. *)
Definition AtLevel {A : Type} (b : Z) (m : M A) : Prop :=
  forall s, level s = b ->
    level (exec m s) = b /\
    Forall (fun f => stripBrightness f = b) (shows (trace m s)).

(** ** The command vocabulary of the interface *)

(** Only hexadecimal digits. *)
Fixpoint allHex (s : string) : bool :=
  match s with
  | EmptyString => true
  | String c r =>
      match hexval c with
      | Some _ => allHex r
      | None => false
      end
  end.

(** A color as the interface writes it, [#RRGGBB]: a [#] and six
    hexadecimal digits. *)
Definition isColorText (v : string) : bool :=
  match v with
  | String "#" r => Nat.eqb (String.length r) 6 && allHex r
  | _ => false
  end.

(** A command of the interface's table: one of the five actions with
    the value the table gives for it ([#RRGGBB] or [off]; an integer;
    one of the four mode names; nothing; the pre-shared secret).  Names
    count in any letter case, and every integer counts for
    [setbrightness], 0 and 255 being the bounds it is clamped to. *)
Definition wellFormed (code : string) (doc : JsonDocument) : bool :=
  match cstr "action" doc with
  | None => false
  | Some action =>
      let name := toLowerCase action in
      if String.eqb name "setcolor" then
        match cstr "value" doc with
        | Some v => isColorText v || String.eqb v "off"
        | None => false
        end
      else if String.eqb name "setbrightness" then
        match member "value" doc with
        | Some (JInt _) => true
        | _ => false
        end
      else if String.eqb name "setmode" then
        match cstr "value" doc with
        | Some v =>
            bool_decide
              (In (toLowerCase v) ["breath"; "favorite"; "night"; "weather"])
        | None => false
        end
      else if String.eqb name "getstate" then true
      else if String.eqb name "privatepulse" then
        match cstr "secret" doc with
        | Some secret => String.eqb secret code
        | None => false
        end
      else false
  end.

(** A malformed or unrecognized command payload: a data frame that is
    not one whole text frame, or does not deserialize, or holds no
    command of the table. *)
Definition Malformed (code : string) (d : WsData) : Prop :=
  wholeText d = false \/
  match ws_json d with
  | None => True
  | Some doc => wellFormed code doc = false
  end.

(** The only test [onWsEvent] makes of a [setcolor] value before it
    parses it: seven characters, the first of them [#]. *)
Definition takenAsColor (d : WsData) : bool :=
  match ws_json d with
  | Some doc =>
      match cstr "action" doc, cstr "value" doc with
      | Some action, Some colorVal =>
          String.eqb (toLowerCase action) "setcolor"
          && ((Z.of_nat (String.length colorVal) =? 7)
              && isHash (firstChar colorVal))
      | _, _ => false
      end
  | None => false
  end.

(** * Proofs *)

(** ** The model on concrete inputs *)

Example strtol16_sample : strtol16 "1A2B3C" = 1715004.
Proof. reflexivity. Qed.

Example strtol16_stops_at_junk : strtol16 "12zz" = 18.
Proof. reflexivity. Qed.

Example hexColor_sample : hexColor 1715004 = "#1A2B3C".
Proof. reflexivity. Qed.

Example toLowerCase_sample : toLowerCase "MissYou" = "missyou".
Proof. reflexivity. Qed.

Example Color_narrows : Color 0 260 0 = Color 0 4 0.
Proof. reflexivity. Qed.

Example elapsed_wraps : elapsed 5 (2 ^ 32 - 10) = 15.
Proof. reflexivity. Qed.

Example first_tick_renders_breath :
  kernels (trace (loop (laterTick 1000)) initialState)
  = [DBaseline EFFECT_BREATH].
Proof. vm_compute. reflexivity. Qed.

Example power_on_snapshot :
  fst (fst (getCurrentStateJson initialState))
  = serializeJson [("mode", JStr "breath"); ("brightness", JInt 50)].
Proof. vm_compute. reflexivity. Qed.

Example static_mode_has_no_kernel :
  kernels (trace (loop (laterTick 1000))
             (set_currentEffect EFFECT_STATIC initialState)) = [].
Proof. vm_compute. reflexivity. Qed.

(** ** The procedure combinators *)

Lemma exec_bind {A B : Type} (m : M A) (k : A -> M B) s :
  exec (bind m k) s = exec (k (fst (fst (m s)))) (exec m s).
Proof. reflexivity. Qed.

Lemma trace_bind {A B : Type} (m : M A) (k : A -> M B) s :
  trace (bind m k) s = trace m s ++ trace (k (fst (fst (m s)))) (exec m s).
Proof. reflexivity. Qed.

Lemma exec_when b (m : M unit) s :
  exec (when b m) s = if b then exec m s else s.
Proof. destruct b; reflexivity. Qed.

Lemma trace_when b (m : M unit) s :
  trace (when b m) s = if b then trace m s else [].
Proof. destruct b; reflexivity. Qed.

Section Closure.

Context {X : Type} (f : State -> X) (p : Event -> bool).

Lemma Preserves_ret {A : Type} (a : A) : Preserves f (ret a).
Proof. intros s; reflexivity. Qed.

Lemma Preserves_get : Preserves f get.
Proof. intros s; reflexivity. Qed.

Lemma Preserves_emit e : Preserves f (emit e).
Proof. intros s; reflexivity. Qed.

Lemma Preserves_modify g : (forall s, f (g s) = f s) -> Preserves f (modify g).
Proof. intros H s; apply H. Qed.

Lemma Preserves_bind {A B : Type} (m : M A) (k : A -> M B) :
  Preserves f m -> (forall a, Preserves f (k a)) -> Preserves f (bind m k).
Proof.
  intros Hm Hk s. rewrite exec_bind, Hk. apply Hm.
Qed.

Lemma Preserves_when b (m : M unit) : Preserves f m -> Preserves f (when b m).
Proof. intros H; destruct b; [exact H | apply Preserves_ret]. Qed.

Lemma Without_ret {A : Type} (a : A) : Without p (ret a).
Proof. intros s; reflexivity. Qed.

Lemma Without_get : Without p get.
Proof. intros s; reflexivity. Qed.

Lemma Without_modify g : Without p (modify g).
Proof. intros s; reflexivity. Qed.

Lemma Without_emit e : p e = false -> Without p (emit e).
Proof. intros H s. unfold trace, emit; simpl. rewrite H. reflexivity. Qed.

Lemma Without_bind {A B : Type} (m : M A) (k : A -> M B) :
  Without p m -> (forall a, Without p (k a)) -> Without p (bind m k).
Proof.
  intros Hm Hk s. rewrite trace_bind, List.filter_app, Hm, Hk. reflexivity.
Qed.

Lemma Without_when b (m : M unit) : Without p m -> Without p (when b m).
Proof. intros H; destruct b; [exact H | apply Without_ret]. Qed.

End Closure.

Ltac head_of t :=
  lazymatch t with
  | ?g _ => head_of g
  | _ => t
  end.

Ltac unfold_call m :=
  let h := head_of m in
  lazymatch h with
  | @bind => fail
  | @modify => fail
  | @emit => fail
  | _ => unfold h
  end.

(** Walks through a procedure body, one combinator at a time. *)
Ltac preserved :=
  repeat first
    [ apply Preserves_ret
    | apply Preserves_get
    | apply Preserves_emit
    | apply Preserves_when
    | apply Preserves_bind; [| intros ?]
    | apply Preserves_modify; intros ?; repeat case_match; reflexivity
    | match goal with
      | |- Preserves _ (let _ := _ in _) => cbv zeta
      | |- Preserves _ (if ?b then _ else _) => destruct b
      | |- Preserves _ (match ?x with _ => _ end) => destruct x
      | |- Preserves _ ?m => unfold_call m
      end ].

Ltac silent :=
  repeat first
    [ apply Without_ret
    | apply Without_get
    | apply Without_modify
    | apply Without_emit; reflexivity
    | apply Without_when
    | apply Without_bind; [| intros ?]
    | match goal with
      | |- Without _ (let _ := _ in _) => cbv zeta
      | |- Without _ (if ?b then _ else _) => destruct b
      | |- Without _ (match ?x with _ => _ end) => destruct x
      | |- Without _ ?m => unfold_call m
      end ].

Lemma Without_kernels {A : Type} (m : M A) s :
  Without isKernel m -> kernels (trace m s) = [].
Proof.
  intros H. specialize (H s). unfold kernels.
  induction (trace m s) as [|e t IH]; [reflexivity|].
  destruct e; simpl in *; try discriminate; auto.
Qed.

Lemma kernels_app t1 t2 : kernels (t1 ++ t2) = kernels t1 ++ kernels t2.
Proof. apply omap_app. Qed.

(** Projections of updated states. *)
Ltac fields :=
  cbn [currentEffect currentGeoState currentWeatherCondition 
       currentTemperature lastWeatherCheck lastDateCheck lastAnimMillis 
       currentStateStart lastColorUpdate lastFavColorUpdate 
       lastNightModeUpdate lastPulseUpdate lastArriveUpdate lastLeaveUpdate 
       lastDrivingUpdate lastWeatherAnimUpdate animPos animBrightness 
       animStep pulseStep brightnessStep brightness stateDuration 
       lastButtonState effectDelay staticColorBrightness lastPlayedDay 
       dateActive activeEventIndex strip lastWifiCheck drivingOn 
       set_currentEffect set_currentGeoState set_currentWeatherCondition 
       set_currentTemperature set_lastWeatherCheck set_lastDateCheck 
       set_lastAnimMillis set_currentStateStart set_lastColorUpdate 
       set_lastFavColorUpdate set_lastNightModeUpdate set_lastPulseUpdate 
       set_lastArriveUpdate set_lastLeaveUpdate set_lastDrivingUpdate 
       set_lastWeatherAnimUpdate set_animPos set_animBrightness 
       set_animStep set_pulseStep set_brightnessStep set_brightness 
       set_stateDuration set_lastButtonState set_staticColorBrightness 
       set_lastPlayedDay set_dateActive set_activeEventIndex set_strip 
       set_lastWifiCheck set_drivingOn set_playedDay] in *.

Lemma exec_ret {A : Type} (a : A) s : exec (ret a) s = s.
Proof. reflexivity. Qed.

Lemma exec_modify g s : exec (modify g) s = g s.
Proof. reflexivity. Qed.

Lemma exec_emit e s : exec (emit e) s = s.
Proof. reflexivity. Qed.

Lemma exec_onStrip g s : exec (onStrip g) s = set_strip (g (strip s)) s.
Proof. reflexivity. Qed.

Lemma exec_show s : exec show s = s.
Proof. reflexivity. Qed.

Lemma exec_broadcastState s : exec broadcastState s = s.
Proof. reflexivity. Qed.

Lemma exec_clientText s : exec clientText s = s.
Proof. reflexivity. Qed.

Lemma exec_get_bind {B : Type} (k : State -> M B) s :
  exec (bind get k) s = exec (k s) s.
Proof. reflexivity. Qed.

Ltac run_exec :=
  repeat first
    [ rewrite exec_get_bind
    | rewrite exec_bind
    | rewrite exec_when
    | rewrite exec_ret
    | rewrite exec_modify
    | rewrite exec_emit
    | rewrite exec_onStrip
    | rewrite exec_show
    | rewrite exec_broadcastState
    | rewrite exec_clientText ].

Lemma trace_get_bind {B : Type} (k : State -> M B) s :
  trace (bind get k) s = trace (k s) s.
Proof. reflexivity. Qed.

Lemma wellSized_fields s :
  wellSized s ->
  length (pixels (strip s)) = Z.to_nat NUM_LEDS /\
  length (lastPlayedDay s) = Z.to_nat numDates.
Proof. unfold wellSized, sizes. intros H. injection H. auto. Qed.

(** ** Priority arbiter *)

Lemma housekeeping_no_kernel inp : Without isKernel (housekeeping inp).
Proof.
  unfold housekeeping.
  apply Without_bind; [silent|intros _].
  apply Without_bind; [|intros _].
  { induction (t_messages inp) as [|[payload now] r IH]; simpl; [silent|].
    apply Without_bind; [silent|intros _; exact IH]. }
  silent.
Qed.

Lemma special_no_kernel ki : Without isKernel (runActiveSpecialAnimation ki).
Proof. silent. Qed.

Lemma privatePulse_no_kernel ki : Without isKernel (privatePulse ki).
Proof. silent. Qed.

Lemma favColor_no_kernel ki : Without isKernel (favColor ki).
Proof. silent. Qed.

Lemma sparkle_no_kernel ki : Without isKernel (runGenerativeSparkle ki).
Proof. silent. Qed.

Lemma night_no_kernel ki : Without isKernel (runNightMode ki).
Proof. silent. Qed.

Lemma weather_no_kernel ki : Without isKernel (runWeatherMode ki).
Proof. silent. Qed.

Lemma geo_bodies_no_kernel (ki : KernelInput) :
  Without isKernel (runArrive ki) /\ Without isKernel runSettled /\
  Without isKernel (runLeave ki) /\ Without isKernel (runDriving ki).
Proof. repeat split; silent. Qed.

Lemma kernels_bind {A B : Type} (m : M A) (k : A -> M B) s :
  kernels (trace (bind m k) s)
  = kernels (trace m s) ++ kernels (trace (k (fst (fst (m s)))) (exec m s)).
Proof. rewrite trace_bind. apply kernels_app. Qed.

Lemma expiry_no_kernel inp : Without isKernel
  (s' <- get ;;
   when (u32 (stateDuration s')
           <=? elapsed (t_expiry_now inp) (currentStateStart s'))
     (modify (set_currentGeoState GEO_NONE) ;;
      onStrip clear ;; show ;; broadcastState)).
Proof. silent. Qed.

Lemma arbiter_kernels inp s :
  kernels (trace (arbiter inp) s) = dispatched (activeDriver s).
Proof.
  pose proof (geo_bodies_no_kernel (t_kernel inp)) as (Ha & Hs & Hl & Hd).
  unfold arbiter, activeDriver.
  rewrite kernels_bind. simpl (kernels (trace get s)). simpl (exec get s).
  simpl (fst (fst (get s))). cbv beta zeta.
  destruct (dateActive s).
  { rewrite kernels_bind.
    rewrite (Without_kernels _ _ (special_no_kernel _)). reflexivity. }
  destruct (bool_decide (currentGeoState s = GEO_NONE)) eqn:Hg; simpl negb; cbv iota.
  - destruct (bool_decide (currentEffect s = EFFECT_PRIVATE_PULSE)) eqn:Hp.
    + rewrite kernels_bind.
      rewrite (Without_kernels _ _ (privatePulse_no_kernel _)). reflexivity.
    + rewrite kernels_bind.
      destruct (currentEffect s); simpl baselineKernel;
        try rewrite kernels_bind;
        rewrite ?(Without_kernels _ _ (favColor_no_kernel _)),
                ?(Without_kernels _ _ (sparkle_no_kernel _)),
                ?(Without_kernels _ _ (night_no_kernel _)),
                ?(Without_kernels _ _ (weather_no_kernel _));
        reflexivity.
  - apply bool_decide_eq_false in Hg.
    rewrite kernels_bind.
    rewrite (Without_kernels _ _ (expiry_no_kernel inp)).
    destruct (currentGeoState s); try congruence; simpl geoKernel;
      rewrite kernels_bind;
      rewrite ?(Without_kernels _ _ Ha), ?(Without_kernels _ _ Hs),
              ?(Without_kernels _ _ Hl), ?(Without_kernels _ _ Hd);
      reflexivity.
Qed.

(** C1. In every tick at most one driver among special date, geofence
    override, private pulse and baseline mode has its kernel called by
    [loop], and it is the driver that the strict priority order (special
    date, then geofence, then pulse, then baseline) selects in the state
    the arbiter sees; a lower-priority kernel is never called while a
    higher-priority driver is active. *)
Theorem loop_dispatches_by_priority (inp : TickInput) (s : State) :
  kernels (trace (loop inp) s)
    = dispatched (activeDriver (exec (housekeeping inp) s))
  /\ (length (kernels (trace (loop inp) s)) <= 1)%nat.
Proof.
  assert (H : kernels (trace (loop inp) s)
              = dispatched (activeDriver (exec (housekeeping inp) s))).
  { unfold loop. rewrite kernels_bind.
    rewrite (Without_kernels _ _ (housekeeping_no_kernel inp)).
    apply arbiter_kernels. }
  split; [exact H|]. rewrite H.
  destruct (activeDriver _) as [|g| |e]; [| destruct g | | destruct e];
    simpl; lia.
Qed.

(** ** Command handler *)

Lemma asInt_containsKey key doc :
  asInt key doc = None ->
  (if containsKey key doc then asInt key doc else None) = None.
Proof. intros H. rewrite H. destruct (containsKey key doc); reflexivity. Qed.

(** A frame that fails one of the handler's tests leaves the whole state
    exactly as it was and emits nothing, neither to the requester nor as
    a broadcast. *)
Lemma rejected_frame_ignored (code : string) (d : WsData) (s : State) :
  Rejected code d ->
  exec (onWsEvent code WS_EVT_DATA d) s = s /\
  trace (onWsEvent code WS_EVT_DATA d) s = [].
Proof.
  intros H. unfold onWsEvent. fold (wholeText d).
  destruct (wholeText d) eqn:Hw; [| split; reflexivity].
  destruct H as [d Hn|d Hn|d doc Hd Ha|d doc a Hd Ha Hr
                |d doc a Hd Ha Hr Hv|d doc a Hd Ha Hr Hv
                |d doc a Hd Ha Hr Hv|d doc a Hd Ha Hr Hv
                |d doc a v Hd Ha Hr Hv Hc Ho|d doc a v Hd Ha Hr Hv Hm
                |d doc a v Hd Ha Hr Hv Hx].
  - congruence.
  - rewrite Hn. split; reflexivity.
  - rewrite Hd, Ha. split; reflexivity.
  - rewrite Hd, Ha. unfold dispatchAction. unfold recognized in Hr.
    repeat (apply orb_false_elim in Hr; destruct Hr as [Hr ?]).
    repeat match goal with H : String.eqb _ _ = false |- _ => rewrite H; clear H end.
    split; reflexivity.
  - rewrite Hd, Ha, Hr.
    change (dispatchAction code "setcolor" doc) with (doSetColor doc).
    unfold doSetColor. rewrite Hv.
    split; reflexivity.
  - rewrite Hd, Ha, Hr.
    change (dispatchAction code "setbrightness" doc) with (doSetBrightness doc).
    unfold doSetBrightness.
    rewrite (asInt_containsKey _ _ Hv). split; reflexivity.
  - rewrite Hd, Ha, Hr.
    change (dispatchAction code "setmode" doc) with (doSetMode doc).
    unfold doSetMode. rewrite Hv.
    split; reflexivity.
  - rewrite Hd, Ha, Hr.
    change (dispatchAction code "privatepulse" doc) with (doPrivatePulse code doc).
    unfold doPrivatePulse. rewrite Hv.
    split; reflexivity.
  - rewrite Hd, Ha, Hr.
    change (dispatchAction code "setcolor" doc) with (doSetColor doc).
    unfold doSetColor. rewrite Hv, Hc.
    apply String.eqb_neq in Ho. rewrite Ho. split; reflexivity.
  - rewrite Hd, Ha, Hr.
    change (dispatchAction code "setmode" doc) with (doSetMode doc).
    unfold doSetMode. rewrite Hv. cbv zeta.
    rewrite exec_get_bind, trace_get_bind.
    assert (Hn : forall w, In w ["breath"; "favorite"; "night"; "weather"] ->
                           String.eqb (toLowerCase v) w = false).
    { intros w Hin. apply String.eqb_neq. intros E. apply Hm.
      rewrite E. exact Hin. }
    rewrite !Hn by (simpl; tauto).
    rewrite bool_decide_eq_true_2 by reflexivity. split; reflexivity.
  - rewrite Hd, Ha, Hr.
    change (dispatchAction code "privatepulse" doc) with (doPrivatePulse code doc).
    unfold doPrivatePulse. rewrite Hv.
    apply String.eqb_neq in Hx. rewrite Hx. split; reflexivity.
Qed.

Example unknown_action_rejected :
  Rejected "1234" (textFrame [("action", JStr "dance")]).
Proof. eapply UnknownAction; reflexivity. Qed.

Lemma getstate_exec code d doc action s :
  wholeText d = true -> ws_json d = Some doc ->
  cstr "action" doc = Some action -> toLowerCase action = "getstate" ->
  exec (onWsEvent code WS_EVT_DATA d) s = s /\
  trace (onWsEvent code WS_EVT_DATA d) s
    = [EvClientText (fst (fst (getCurrentStateJson s)))].
Proof.
  intros Hw Hd Ha Hg. unfold onWsEvent. fold (wholeText d).
  rewrite Hw, Hd, Ha, Hg. split; reflexivity.
Qed.

(** C5. Building a snapshot changes nothing and emits nothing.  A
    [getstate] command, in whatever letter case and with whatever other
    fields, leaves the state as it was, and two of them in a row with
    nothing in between send the requester the same snapshot text
    twice. *)
Theorem getstate_idempotent (code : string) (d : WsData)
  (doc : JsonDocument) (action : string) (s : State) :
  wholeText d = true ->
  ws_json d = Some doc ->
  cstr "action" doc = Some action ->
  toLowerCase action = "getstate" ->
  exec getCurrentStateJson s = s /\
  trace getCurrentStateJson s = [] /\
  exec (onWsEvent code WS_EVT_DATA d) s = s /\
  trace (run code [Ws WS_EVT_DATA d; Ws WS_EVT_DATA d]) s
    = [EvClientText (fst (fst (getCurrentStateJson s)));
       EvClientText (fst (fst (getCurrentStateJson s)))] /\
  exec (run code [Ws WS_EVT_DATA d; Ws WS_EVT_DATA d]) s = s.
Proof.
  intros Hw Hd Ha Hg.
  destruct (getstate_exec code d doc action s Hw Hd Ha Hg) as [E T].
  split; [reflexivity|]. split; [reflexivity|]. split; [exact E|].
  split.
  - change (trace (run code [Ws WS_EVT_DATA d; Ws WS_EVT_DATA d]) s)
      with (trace (onWsEvent code WS_EVT_DATA d) s
            ++ trace (onWsEvent code WS_EVT_DATA d)
                 (exec (onWsEvent code WS_EVT_DATA d) s) ++ []).
    rewrite E, T. reflexivity.
  - change (exec (run code [Ws WS_EVT_DATA d; Ws WS_EVT_DATA d]) s)
      with (exec (onWsEvent code WS_EVT_DATA d)
              (exec (onWsEvent code WS_EVT_DATA d) s)).
    rewrite E, E. reflexivity.
Qed.

Lemma getstate_idempotent_witness :
  let d := textFrame [("action", JStr "GetState"); ("value", JInt 7)] in
  exec (onWsEvent "1234" WS_EVT_DATA d) initialState = initialState /\
  trace (run "1234" [Ws WS_EVT_DATA d; Ws WS_EVT_DATA d]) initialState
    = [EvClientText (fst (fst (getCurrentStateJson initialState)));
       EvClientText (fst (fst (getCurrentStateJson initialState)))].
Proof.
  intros d.
  destruct (getstate_idempotent "1234" d
              [("action", JStr "GetState"); ("value", JInt 7)] "GetState"
              initialState eq_refl eq_refl eq_refl eq_refl)
    as (_ & _ & H3 & H4 & _).
  exact (conj H3 H4).
Defined.

Lemma nineteen_pixels (l : list Z) :
  length l = Z.to_nat NUM_LEDS ->
  exists x0 x1 x2 x3 x4 x5 x6 x7 x8 x9 x10 x11 x12 x13 x14 x15 x16 x17 x18,
    l = [x0; x1; x2; x3; x4; x5; x6; x7; x8; x9; x10; x11; x12; x13; x14;
         x15; x16; x17; x18].
Proof.
  intros H. change (Z.to_nat NUM_LEDS) with 19%nat in H.
  repeat (destruct l as [|? l]; [discriminate H|]).
  destruct l; [|discriminate H].
  repeat eexists.
Qed.

Lemma exec_setcolor code s :
  exec (onWsEvent code WS_EVT_DATA setcolorFrame) s
  = set_strip (fill (Color 26 43 60) 0 0 (strip s))
      (set_currentEffect EFFECT_STATIC s).
Proof. reflexivity. Qed.

Lemma fill_first (c : Z) (st : Strip) :
  length (pixels st) = Z.to_nat NUM_LEDS ->
  getPixelColor 0 (fill c 0 0 st) = Z.land c 16777215.
Proof.
  intros H. destruct (nineteen_pixels _ H) as
      (x0&x1&x2&x3&x4&x5&x6&x7&x8&x9&x10&x11&x12&x13&x14&x15&x16&x17&x18&Hl).
  destruct st as [l b]. simpl in Hl. subst l. reflexivity.
Qed.

(** C4. A [setcolor] command with value ["#1A2B3C"] followed by a
    [getstate] command sends the requester a snapshot whose mode is
    ["static"] and whose color is ["#1A2B3C"]. *)
Theorem setcolor_getstate_roundtrip (code : string) (s : State) :
  wellSized s ->
  let s1 := exec (onWsEvent code WS_EVT_DATA setcolorFrame) s in
  member "mode" (stateDoc s1) = Some (JStr "static") /\
  member "color" (stateDoc s1) = Some (JStr "#1A2B3C") /\
  trace (onWsEvent code WS_EVT_DATA getstateFrame) s1
    = [EvClientText
         (serializeJson [("mode", JStr "static");
                         ("brightness", JInt (staticColorBrightness s));
                         ("color", JStr "#1A2B3C")])].
Proof.
  intros Hs s1. destruct (wellSized_fields s Hs) as [H _].
  assert (Hdoc : stateDoc s1 = [("mode", JStr "static");
                                ("brightness", JInt (staticColorBrightness s));
                                ("color", JStr "#1A2B3C")]).
  { subst s1. rewrite exec_setcolor. unfold stateDoc.
    cbn [currentEffect staticColorBrightness strip set_strip
         set_currentEffect].
    rewrite (fill_first _ _ H). reflexivity. }
  split; [rewrite Hdoc; reflexivity|].
  split; [rewrite Hdoc; reflexivity|].
  change (trace (onWsEvent code WS_EVT_DATA getstateFrame) s1)
    with [EvClientText (serializeJson (stateDoc s1))].
  rewrite Hdoc. reflexivity.
Qed.

Lemma setcolor_getstate_roundtrip_witness :
  trace (onWsEvent "1234" WS_EVT_DATA getstateFrame)
        (exec (onWsEvent "1234" WS_EVT_DATA setcolorFrame) initialState)
    = [EvClientText
         (serializeJson [("mode", JStr "static");
                         ("brightness", JInt 255);
                         ("color", JStr "#1A2B3C")])].
Proof.
  exact (proj2 (proj2 (setcolor_getstate_roundtrip "1234" initialState
                         eq_refl))).
Defined.

(** ** Geofence feed *)

Lemma broadcasts_app t1 t2 :
  broadcasts (t1 ++ t2) = (broadcasts t1 + broadcasts t2)%nat.
Proof. unfold broadcasts. rewrite List.filter_app. apply length_app. Qed.

Lemma broadcasts_bind {A B : Type} (m : M A) (k : A -> M B) s :
  broadcasts (trace (bind m k) s)
  = (broadcasts (trace m s)
     + broadcasts (trace (k (fst (fst (m s)))) (exec m s)))%nat.
Proof. rewrite trace_bind. apply broadcasts_app. Qed.

Lemma message_broadcasts (payload : string) (now : Z) (s : State) :
  broadcasts (trace (onGeofenceMessage payload now) s)
  = if String.eqb (toLowerCase payload) "pulse"
       || String.eqb (toLowerCase payload) "missyou"
    then 2%nat else 1%nat.
Proof.
  unfold onGeofenceMessage. generalize (toLowerCase payload) as message.
  intros message.
  destruct (String.eqb_spec message "arrive") as [->|_]; [reflexivity|].
  destruct (String.eqb_spec message "settled") as [->|_]; [reflexivity|].
  destruct (String.eqb_spec message "leave") as [->|_]; [reflexivity|].
  destruct (String.eqb_spec message "driving") as [->|_]; [reflexivity|].
  destruct (String.eqb message "pulse" || String.eqb message "missyou");
    reflexivity.
Qed.

Lemma mqttIncoming_broadcasts msgs s :
  (length msgs <= broadcasts (trace (mqttIncoming msgs) s))%nat.
Proof.
  revert s. induction msgs as [|[payload now] r IH]; intros s; simpl.
  - lia.
  - rewrite broadcasts_bind, message_broadcasts.
    specialize (IH (exec (onGeofenceMessage payload now) s)).
    destruct (_ || _); lia.
Qed.

Lemma unknown_word_no_match (message : string) :
  ~ In message feedWords ->
  String.eqb message "arrive" = false /\ String.eqb message "settled" = false /\
  String.eqb message "leave" = false /\ String.eqb message "driving" = false /\
  String.eqb message "pulse" = false /\ String.eqb message "missyou" = false.
Proof.
  intros H. repeat split; apply String.eqb_neq; intros ->; apply H;
    simpl; tauto.
Qed.

(** C10. Every message taken from the geofence feed triggers at least one
    snapshot broadcast: exactly one for each message other than
    pulse/missyou, an unrecognized word included, which changes nothing
    in the state, and exactly two for a pulse or missyou message; a tick
    therefore broadcasts at least once per message it ingests. *)
Theorem feed_message_broadcasts (payload other : string) (now : Z)
  (s : State) (inp : TickInput) :
  ~ In (toLowerCase other) feedWords ->
  broadcasts (trace (onGeofenceMessage payload now) s)
    = (if String.eqb (toLowerCase payload) "pulse"
          || String.eqb (toLowerCase payload) "missyou"
       then 2%nat else 1%nat) /\
  exec (onGeofenceMessage other now) s = s /\
  broadcasts (trace (onGeofenceMessage other now) s) = 1%nat /\
  (length (t_messages inp) <= broadcasts (trace (loop inp) s))%nat.
Proof.
  intros H. split; [apply message_broadcasts|].
  destruct (unknown_word_no_match _ H) as (H1 & H2 & H3 & H4 & H5 & H6).
  split; [|split].
  - unfold onGeofenceMessage. rewrite H1, H2, H3, H4, H5, H6. reflexivity.
  - rewrite message_broadcasts, H5, H6. reflexivity.
  - unfold loop, housekeeping.
    rewrite !broadcasts_bind.
    pose proof (mqttIncoming_broadcasts (t_messages inp)
                  (exec (wifiWatchdog inp) s)).
    lia.
Qed.

Lemma feed_message_broadcasts_witness :
  broadcasts (trace (onGeofenceMessage "MissYou" 5000) initialState) = 2%nat /\
  exec (onGeofenceMessage "hello" 5000) initialState = initialState /\
  broadcasts (trace (onGeofenceMessage "hello" 5000) initialState) = 1%nat.
Proof.
  assert (H : ~ In (toLowerCase "hello") feedWords).
  { simpl. intros H. repeat (destruct H as [H|H]; [discriminate H|]).
    exact H. }
  pose proof (feed_message_broadcasts "MissYou" "hello" 5000 initialState
                (mkTickInput 0 0 true [] HIGH (mkWeatherInput 0 WifiDown)
                   0 0 None 0 (mkWeatherInput 0 WifiDown)
                   (mkKernelInput 0 0 None (fun _ => 0) (fun _ _ _ => 0)) 0)
                H) as (H1 & H2 & H3 & _).
  exact (conj H1 (conj H2 H3)).
Defined.

(** ** Entering Breath *)

Lemma ws_into_breath (code : string) (type : AwsEventType) (d : WsData)
  (s : State) :
  currentEffect s <> EFFECT_BREATH ->
  currentEffect (exec (onWsEvent code type d) s) = EFFECT_BREATH ->
  brightness (exec (onWsEvent code type d) s) = 0 /\
  brightnessStep (exec (onWsEvent code type d) s) = 5.
Proof.
  intros Hs. unfold onWsEvent.
  destruct type; try (intros H; rewrite ?exec_clientText, ?exec_ret in H;
                      congruence).
  destruct (_ && _); [| intros H; rewrite exec_ret in H; congruence].
  destruct (ws_json d) as [doc|]; [| intros H; rewrite exec_ret in H; congruence].
  destruct (cstr "action" doc) as [action|];
    [| intros H; rewrite exec_ret in H; congruence].
  unfold dispatchAction.
  destruct (String.eqb _ "setcolor").
  { unfold doSetColor. intros H. exfalso.
    repeat case_match; run_exec; revert H; run_exec; fields; congruence. }
  destruct (String.eqb _ "setbrightness").
  { unfold doSetBrightness. intros H. exfalso.
    repeat case_match; revert H; run_exec; fields;
      repeat case_match; run_exec; fields; congruence. }
  destruct (String.eqb _ "setmode").
  { unfold doSetMode.
    destruct (cstr "value" doc) as [modeVal|];
      [| intros H; rewrite exec_ret in H; congruence].
    cbv zeta. rewrite exec_get_bind.
    set (newEffect := if String.eqb _ "breath" then _ else _).
    rewrite exec_when.
    destruct (bool_decide (newEffect = currentEffect s)) eqn:E; simpl negb;
      cbv iota; [congruence|].
    run_exec. fields.
    destruct (bool_decide (newEffect = EFFECT_BREATH)) eqn:E'; fields;
      intros H; [split; reflexivity|].
    apply bool_decide_eq_false in E'. contradiction. }
  destruct (String.eqb _ "getstate").
  { rewrite exec_clientText. congruence. }
  destruct (String.eqb _ "privatepulse").
  { unfold doPrivatePulse. intros H. exfalso.
    repeat case_match; revert H; run_exec; fields;
      repeat case_match; run_exec; fields; congruence. }
  rewrite exec_ret. congruence.
Qed.

Lemma updateWeather_keeps_cursor w :
  Preserves (fun s => (currentEffect s, brightness s, brightnessStep s))
    (updateWeather w).
Proof. preserved. Qed.

Lemma button_into_breath (inp : TickInput) (s : State) :
  currentEffect s <> EFFECT_BREATH ->
  currentEffect (exec (buttonLogic inp) s) = EFFECT_BREATH ->
  brightness (exec (buttonLogic inp) s) = 60 /\
  brightnessStep (exec (buttonLogic inp) s) = 5.
Proof.
  intros Hs. unfold buttonLogic. cbv zeta.
  rewrite exec_get_bind, exec_bind, exec_modify, exec_when.
  destruct (_ && _); fields; [| congruence].
  destruct (dateActive s).
  { run_exec. fields. case_match; run_exec; fields; congruence. }
  destruct (bool_decide (currentEffect s = EFFECT_PRIVATE_PULSE)).
  { run_exec. fields. intros _. split; reflexivity. }
  rewrite exec_bind, exec_modify.
  set (next := Effect_of_Z _).
  rewrite exec_bind.
  destruct (bool_decide (next = EFFECT_BREATH)) eqn:E.
  { run_exec. fields. intros _. split; reflexivity. }
  apply bool_decide_eq_false in E.
  destruct (bool_decide (next = EFFECT_WEATHER)).
  - run_exec. fields.
    pose proof (updateWeather_keeps_cursor (t_weather_button inp)
                  (set_currentEffect next s)) as Hw.
    fields. injection Hw as Hw1 Hw2 Hw3. rewrite Hw1. contradiction.
  - run_exec. fields. contradiction.
Qed.

(** C3 (as amended). Every transition into Breath sets the brightness
    step to 5; a transition made by a command ([setmode]) resets the
    brightness cursor to 0, and a transition made by the local button
    (from Pulse, or from Weather by rotation) sets the cursor to 60. *)
Theorem breath_entry_cursor (code : string) (type : AwsEventType)
  (d : WsData) (inp : TickInput) (s1 s2 : State) :
  currentEffect s1 <> EFFECT_BREATH ->
  currentEffect (exec (onWsEvent code type d) s1) = EFFECT_BREATH ->
  currentEffect s2 <> EFFECT_BREATH ->
  currentEffect (exec (buttonLogic inp) s2) = EFFECT_BREATH ->
  (brightness (exec (onWsEvent code type d) s1) = 0 /\
   brightnessStep (exec (onWsEvent code type d) s1) = 5) /\
  (brightness (exec (buttonLogic inp) s2) = 60 /\
   brightnessStep (exec (buttonLogic inp) s2) = 5).
Proof.
  intros H1 H2 H3 H4. split.
  - apply ws_into_breath; assumption.
  - apply button_into_breath; assumption.
Qed.

Lemma breath_entry_cursor_witness :
  let s := set_currentEffect EFFECT_WEATHER initialState in
  let cmd := textFrame [("action", JStr "setmode"); ("value", JStr "Breath")] in
  (brightness (exec (onWsEvent "1234" WS_EVT_DATA cmd) s) = 0 /\
   brightnessStep (exec (onWsEvent "1234" WS_EVT_DATA cmd) s) = 5) /\
  (brightness (exec (buttonLogic pressTick) s) = 60 /\
   brightnessStep (exec (buttonLogic pressTick) s) = 5).
Proof.
  intros s cmd.
  apply (breath_entry_cursor "1234" WS_EVT_DATA cmd pressTick s s).
  - discriminate.
  - reflexivity.
  - discriminate.
  - reflexivity.
Defined.

(** C3, the claim as stated fails: a button press in Weather mode enters
    Breath with the brightness cursor at 60, not 0. *)
Lemma button_breath_counterexample :
  let s := set_currentEffect EFFECT_WEATHER initialState in
  currentEffect s <> EFFECT_BREATH /\
  currentEffect (exec (buttonLogic pressTick) s) = EFFECT_BREATH /\
  brightness (exec (buttonLogic pressTick) s) <> 0 /\
  brightness (exec (loop pressTick) s) <> 0.
Proof.
  vm_compute. repeat split; discriminate.
Qed.

(** ** What the kernels leave alone *)

Lemma special_frame ki : Preserves arbitration (runActiveSpecialAnimation ki).
Proof. preserved. Qed.


Lemma privatePulse_frame ki : Preserves arbitration (privatePulse ki).
Proof. preserved. Qed.

Lemma baselineKernel_frame e ki : Preserves arbitration (baselineKernel e ki).
Proof. preserved. Qed.


(** ** Geofence override and its expiry *)










(** ** Housekeeping in a calm tick *)


Lemma wifiWatchdog_no_broadcast inp : Without isBroadcast (wifiWatchdog inp).
Proof. silent. Qed.


Lemma updateWeather_no_broadcast w : Without isBroadcast (updateWeather w).
Proof. silent. Qed.

Lemma no_edge b1 b2 : b2 <> LOW -> (b1 =? HIGH) && (b2 =? LOW) = false.
Proof.
  intros H. apply andb_false_iff. right. apply Z.eqb_neq. exact H.
Qed.

Lemma buttonLogic_released inp s :
  t_button inp <> LOW ->
  exec (buttonLogic inp) s = set_lastButtonState (t_button inp) s /\
  trace (buttonLogic inp) s = [].
Proof.
  intros H. unfold buttonLogic. cbv zeta.
  rewrite exec_get_bind, trace_get_bind, exec_bind, trace_bind.
  rewrite exec_when, trace_when, (no_edge _ _ H). split; reflexivity.
Qed.


Lemma housekeeping_exec inp s :
  exec (housekeeping inp) s
  = exec (dateCheck inp)
      (exec (buttonLogic inp)
         (exec (mqttIncoming (t_messages inp)) (exec (wifiWatchdog inp) s))).
Proof. reflexivity. Qed.



Lemma loop_exec inp s :
  exec (loop inp) s = exec (arbiter inp) (exec (housekeeping inp) s).
Proof. reflexivity. Qed.









(** ** Special dates over a geofence override *)

Lemma loop_kernels inp s :
  kernels (trace (loop inp) s)
  = dispatched (activeDriver (exec (housekeeping inp) s)).
Proof.
  unfold loop. rewrite kernels_bind.
  rewrite (Without_kernels _ _ (housekeeping_no_kernel inp)).
  apply arbiter_kernels.
Qed.

Lemma wifiWatchdog_geo inp : Preserves geoOverride (wifiWatchdog inp).
Proof. preserved. Qed.

Lemma buttonLogic_geo inp : Preserves geoOverride (buttonLogic inp).
Proof. preserved. Qed.

Lemma dateCheck_geo inp : Preserves geoOverride (dateCheck inp).
Proof. preserved. Qed.

Lemma special_geo ki : Preserves geoOverride (runActiveSpecialAnimation ki).
Proof. preserved. Qed.

Lemma onGeofenceMessage_dateBook payload now :
  Preserves dateBook (onGeofenceMessage payload now).
Proof. preserved. Qed.

Lemma mqttIncoming_dateBook msgs : Preserves dateBook (mqttIncoming msgs).
Proof.
  induction msgs as [|[payload now] r IH]; simpl.
  - apply Preserves_ret.
  - apply Preserves_bind; [apply onGeofenceMessage_dateBook|intros _; exact IH].
Qed.

Lemma wifiWatchdog_dateBook inp : Preserves dateBook (wifiWatchdog inp).
Proof. preserved. Qed.

(** What a feed message does to the override depends on the override
    alone, and it never removes one. *)
Lemma onGeofenceMessage_geo payload now s s' :
  geoOverride s = geoOverride s' ->
  geoOverride (exec (onGeofenceMessage payload now) s)
  = geoOverride (exec (onGeofenceMessage payload now) s').
Proof.
  intros H. unfold onGeofenceMessage. cbv zeta.
  rewrite !exec_bind, !exec_broadcastState.
  repeat case_match; run_exec; unfold geoOverride; fields; auto.
Qed.

Lemma onGeofenceMessage_keeps payload now s :
  currentGeoState s <> GEO_NONE ->
  currentGeoState (exec (onGeofenceMessage payload now) s) <> GEO_NONE.
Proof.
  intros H. unfold onGeofenceMessage. cbv zeta.
  rewrite !exec_bind, !exec_broadcastState.
  repeat case_match; run_exec; fields; auto; discriminate.
Qed.

Lemma mqttIncoming_geo msgs s s' :
  geoOverride s = geoOverride s' ->
  geoOverride (exec (mqttIncoming msgs) s)
  = geoOverride (exec (mqttIncoming msgs) s').
Proof.
  revert s s'. induction msgs as [|[payload now] r IH]; intros s s' H; simpl.
  - exact H.
  - rewrite !exec_bind. apply IH, onGeofenceMessage_geo, H.
Qed.

Lemma mqttIncoming_keeps msgs s :
  currentGeoState s <> GEO_NONE ->
  currentGeoState (exec (mqttIncoming msgs) s) <> GEO_NONE.
Proof.
  revert s. induction msgs as [|[payload now] r IH]; intros s H; simpl.
  - exact H.
  - rewrite exec_bind. apply IH, onGeofenceMessage_keeps, H.
Qed.

(** The override the arbiter sees is the one the feed left. *)
Lemma housekeeping_geo inp s :
  geoOverride (exec (housekeeping inp) s)
  = geoOverride (exec (mqttIncoming (t_messages inp)) s).
Proof.
  rewrite housekeeping_exec, dateCheck_geo, buttonLogic_geo.
  apply mqttIncoming_geo, wifiWatchdog_geo.
Qed.

Lemma geoOverride_kind s s' :
  geoOverride s = geoOverride s' -> currentGeoState s = currentGeoState s'.
Proof. unfold geoOverride. intros H. injection H. auto. Qed.

Lemma housekeeping_keeps inp s :
  currentGeoState s <> GEO_NONE ->
  currentGeoState (exec (housekeeping inp) s) <> GEO_NONE.
Proof.
  intros H. rewrite (geoOverride_kind _ _ (housekeeping_geo inp s)).
  apply mqttIncoming_keeps, H.
Qed.

(** ** The calendar *)

Lemma findDate_spec m d idx :
  findDate m d 0 dates = Some idx ->
  0 <= idx < numDates /\ dateDay idx = d.
Proof.
  unfold dates. cbn [findDate month day]. intros H.
  repeat case_match; try discriminate H; injection H as <-;
    match goal with
    | Hc : _ && _ = true |- _ =>
        apply andb_true_iff in Hc; destruct Hc as [_ Hd];
        apply Z.eqb_eq in Hd; subst d
    end;
    (split; [vm_compute; split; congruence | reflexivity]).
Qed.

Lemma specialStarts_app t1 t2 :
  specialStarts (t1 ++ t2) = (specialStarts t1 + specialStarts t2)%nat.
Proof. unfold specialStarts. rewrite List.filter_app. apply length_app. Qed.

Lemma specialStarts_bind {A B : Type} (m : M A) (k : A -> M B) s :
  specialStarts (trace (bind m k) s)
  = (specialStarts (trace m s)
     + specialStarts (trace (k (fst (fst (m s)))) (exec m s)))%nat.
Proof. rewrite trace_bind. apply specialStarts_app. Qed.

Lemma Without_starts {A : Type} (m : M A) s :
  Without isSpecialStart m -> specialStarts (trace m s) = 0%nat.
Proof. intros H. unfold specialStarts. rewrite H. reflexivity. Qed.

Lemma updateWeather_no_start w : Without isSpecialStart (updateWeather w).
Proof. silent. Qed.

Lemma updateWeather_played w : Preserves lastPlayedDay (updateWeather w).
Proof. preserved. Qed.

Lemma updateWeather_dateBook w : Preserves dateBook (updateWeather w).
Proof. preserved. Qed.

(** [checkStartDate] either leaves the played days alone and starts
    nothing, or starts the entry of today's date, which was not marked
    played for today, and marks it. *)
Lemma checkStartDate_cases timeinfo startNow s :
  (lastPlayedDay (exec (checkStartDate timeinfo startNow) s) = lastPlayedDay s /\
   specialStarts (trace (checkStartDate timeinfo startNow) s) = 0%nat) \/
  (exists tm k,
     timeinfo = Some tm /\
     findDate (tm_mon tm + 1) (tm_mday tm) 0 dates = Some k /\
     playedDay k s <> tm_mday tm /\
     dateActive (exec (checkStartDate timeinfo startNow) s) = true /\
     lastPlayedDay (exec (checkStartDate timeinfo startNow) s)
       = <[Z.to_nat k := tm_mday tm]> (lastPlayedDay s) /\
     specialStarts (trace (checkStartDate timeinfo startNow) s) = 1%nat).
Proof.
  unfold checkStartDate.
  destruct timeinfo as [tm|]; [|left; split; reflexivity].
  cbv zeta. rewrite exec_get_bind, trace_get_bind.
  destruct (findDate _ _ 0 dates) as [k|] eqn:Hf.
  - destruct (dateActive s && (activeEventIndex s =? k));
      [left; split; reflexivity|].
    rewrite exec_when, trace_when.
    destruct (Z.eqb_spec (playedDay k s) (tm_mday tm)) as [E|E]; simpl negb;
      cbv iota; [left; split; reflexivity|].
    right. exists tm, k.
    destruct (findDate_spec _ _ _ Hf) as [[Hk1 Hk2] _].
    unfold startSpecialEvent.
    assert (G : (k <? 0) || (numDates <=? k) = false).
    { apply orb_false_iff. split; [apply Z.ltb_ge|apply Z.leb_gt]; lia. }
    rewrite G. run_exec. fields. repeat split; auto.
  - rewrite exec_when, trace_when.
    destruct (dateActive s); [|left; split; reflexivity].
    left. run_exec. fields. split; reflexivity.
Qed.

Lemma dateCheck_cases inp s :
  (lastPlayedDay (exec (dateCheck inp) s) = lastPlayedDay s /\
   specialStarts (trace (dateCheck inp) s) = 0%nat) \/
  (exists tm k,
     t_localtime inp = Some tm /\
     findDate (tm_mon tm + 1) (tm_mday tm) 0 dates = Some k /\
     playedDay k s <> tm_mday tm /\
     dateActive (exec (dateCheck inp) s) = true /\
     lastPlayedDay (exec (dateCheck inp) s)
       = <[Z.to_nat k := tm_mday tm]> (lastPlayedDay s) /\
     specialStarts (trace (dateCheck inp) s) = 1%nat).
Proof.
  unfold dateCheck. rewrite exec_get_bind, trace_get_bind, exec_when, trace_when.
  destruct (DATE_CHECK_INTERVAL <=? _); [|left; split; reflexivity].
  rewrite !exec_bind, !specialStarts_bind, exec_modify.
  rewrite (Without_starts _ _ (updateWeather_no_start _)).
  pose proof (updateWeather_dateBook (t_weather_check inp)
                (exec (checkStartDate (t_localtime inp) (t_start_now inp))
                   (set_lastDateCheck (t_date_now2 inp) s))) as Hw.
  unfold dateBook in Hw. injection Hw as W1 W2 W3 _.
  rewrite W1, W3.
  destruct (checkStartDate_cases (t_localtime inp) (t_start_now inp)
              (set_lastDateCheck (t_date_now2 inp) s))
    as [[C1 C2]|(tm & k & C1 & C2 & C3 & C4 & C5 & C6)].
  - left. rewrite C1, C2. split; reflexivity.
  - right. exists tm, k. rewrite C4, C5, C6. repeat split; auto.
Qed.

Lemma buttonLogic_no_start inp : Without isSpecialStart (buttonLogic inp).
Proof. silent. Qed.

Lemma buttonLogic_cases inp s :
  lastPlayedDay (exec (buttonLogic inp) s) = lastPlayedDay s \/
  (lastButtonState s = HIGH /\ t_button inp = LOW /\ dateActive s = true /\
   0 <= activeEventIndex s < numDates /\
   dateActive (exec (buttonLogic inp) s) = false /\
   lastPlayedDay (exec (buttonLogic inp) s)
     = <[Z.to_nat (activeEventIndex s) := dateDay (activeEventIndex s)]>
         (lastPlayedDay s)).
Proof.
  unfold buttonLogic. cbv zeta.
  rewrite exec_get_bind, exec_bind, exec_modify, exec_when.
  destruct ((lastButtonState s =? HIGH) && (t_button inp =? LOW)) eqn:Edge;
    fields; [|left; reflexivity].
  apply andb_true_iff in Edge. destruct Edge as [E1 E2].
  apply Z.eqb_eq in E1, E2.
  destruct (dateActive s) eqn:Hd.
  - rewrite exec_bind, exec_when.
    destruct ((0 <=? activeEventIndex s) && (activeEventIndex s <? numDates))
      eqn:Hr.
    + right. apply andb_true_iff in Hr. destruct Hr as [R1 R2].
      apply Z.leb_le in R1. apply Z.ltb_lt in R2.
      run_exec. fields. repeat split; auto.
    + left. run_exec. fields. reflexivity.
  - left. destruct (bool_decide _).
    + run_exec. fields. reflexivity.
    + rewrite !exec_bind, exec_modify.
      set (next := Effect_of_Z _).
      rewrite exec_broadcastState, exec_show, exec_onStrip. fields.
      destruct (bool_decide (next = EFFECT_BREATH)).
      * run_exec. fields. reflexivity.
      * destruct (bool_decide (next = EFFECT_WEATHER)).
        -- rewrite updateWeather_played. reflexivity.
        -- rewrite exec_ret. reflexivity.
Qed.

Lemma onGeofenceMessage_no_start payload now :
  Without isSpecialStart (onGeofenceMessage payload now).
Proof. silent. Qed.

Lemma mqttIncoming_no_start msgs : Without isSpecialStart (mqttIncoming msgs).
Proof.
  induction msgs as [|[payload now] r IH]; simpl.
  - apply Without_ret.
  - apply Without_bind; [apply onGeofenceMessage_no_start|intros _; exact IH].
Qed.

Lemma wifiWatchdog_no_start inp : Without isSpecialStart (wifiWatchdog inp).
Proof. silent. Qed.

Lemma arbiter_no_start inp : Without isSpecialStart (arbiter inp).
Proof. silent. Qed.

Lemma arbiter_dateBook inp : Preserves dateBook (arbiter inp).
Proof. preserved. Qed.

Lemma onWsEvent_no_start code type d :
  Without isSpecialStart (onWsEvent code type d).
Proof. silent. Qed.

Lemma onWsEvent_dateBook code type d : Preserves dateBook (onWsEvent code type d).
Proof. preserved. Qed.

Lemma dateBook_fields s s' :
  dateBook s = dateBook s' ->
  dateActive s = dateActive s' /\ activeEventIndex s = activeEventIndex s' /\
  lastPlayedDay s = lastPlayedDay s' /\ lastButtonState s = lastButtonState s'.
Proof. unfold dateBook. intros H. injection H. auto. Qed.

(** The state in which [loop] reaches its button logic has the date
    bookkeeping of the start of the tick. *)
Lemma fed_dateBook inp s :
  dateBook (exec (mqttIncoming (t_messages inp)) (exec (wifiWatchdog inp) s))
  = dateBook s.
Proof. rewrite mqttIncoming_dateBook. apply wifiWatchdog_dateBook. Qed.

Lemma loop_starts inp s :
  specialStarts (trace (loop inp) s)
  = specialStarts
      (trace (dateCheck inp)
         (exec (buttonLogic inp)
            (exec (mqttIncoming (t_messages inp)) (exec (wifiWatchdog inp) s)))).
Proof.
  unfold loop, housekeeping. rewrite !specialStarts_bind.
  rewrite (Without_starts _ _ (wifiWatchdog_no_start _)).
  rewrite (Without_starts _ _ (mqttIncoming_no_start _)).
  rewrite (Without_starts _ _ (buttonLogic_no_start _)).
  rewrite (Without_starts _ _ (arbiter_no_start _)).
  simpl. lia.
Qed.

Lemma loop_played inp s :
  lastPlayedDay (exec (loop inp) s)
  = lastPlayedDay
      (exec (dateCheck inp)
         (exec (buttonLogic inp)
            (exec (mqttIncoming (t_messages inp)) (exec (wifiWatchdog inp) s)))).
Proof.
  rewrite loop_exec, housekeeping_exec.
  apply (dateBook_fields _ _ (arbiter_dateBook inp _)).
Qed.

(** ** Once per day *)

Lemma buttonLogic_played inp s :
  lastPlayedDay (exec (buttonLogic inp) s)
  = if (lastButtonState s =? HIGH) && (t_button inp =? LOW) && dateActive s
       && ((0 <=? activeEventIndex s) && (activeEventIndex s <? numDates))
    then <[Z.to_nat (activeEventIndex s) := dateDay (activeEventIndex s)]>
           (lastPlayedDay s)
    else lastPlayedDay s.
Proof.
  destruct (buttonLogic_cases inp s) as [H|(E1 & E2 & Hd & [R1 R2] & _ & H)].
  - rewrite H. case_match; [|reflexivity].
    unfold buttonLogic in H. cbv zeta in H.
    rewrite exec_get_bind, exec_bind, exec_modify, exec_when in H.
    repeat match goal with
    | Hc : _ && _ = true |- _ => apply andb_true_iff in Hc; destruct Hc
    end.
    replace ((lastButtonState s =? HIGH) && (t_button inp =? LOW)) with true
      in H by (symmetry; apply andb_true_iff; split; assumption).
    replace (dateActive s) with true in H by (symmetry; assumption).
    rewrite exec_bind, exec_when in H.
    replace ((0 <=? activeEventIndex s) && (activeEventIndex s <? numDates))
      with true in H by (symmetry; apply andb_true_iff; split; assumption).
    revert H. run_exec. fields. intros H. symmetry. exact H.
  - rewrite H, E1, E2, Hd.
    replace (0 <=? activeEventIndex s) with true
      by (symmetry; apply Z.leb_le; exact R1).
    replace (activeEventIndex s <? numDates) with true
      by (symmetry; apply Z.ltb_lt; exact R2).
    reflexivity.
Qed.

Lemma played_after_insert (l : list Z) (j idx v d : Z) :
  0 <= j -> 0 <= idx -> (Z.to_nat idx < length l)%nat ->
  (j = idx -> v = d) ->
  default 0 (l !! Z.to_nat idx) = d ->
  default 0 (<[Z.to_nat j := v]> l !! Z.to_nat idx) = d.
Proof.
  intros Hj Hi Hlen Hv Hd.
  destruct (Z.eq_dec j idx) as [->|Hne].
  - rewrite list_lookup_insert_eq by exact Hlen. simpl. auto.
  - rewrite list_lookup_insert_ne by lia. exact Hd.
Qed.

(** One tick on the day of calendar entry [idx]. *)
Lemma tick_day m d idx inp s :
  findDate m d 0 dates = Some idx ->
  onDay m d (Tick inp) ->
  length (lastPlayedDay s) = Z.to_nat numDates ->
  length (lastPlayedDay (exec (loop inp) s)) = Z.to_nat numDates /\
  (specialStarts (trace (loop inp) s) = 0%nat \/
   playedDay idx (exec (loop inp) s) = d) /\
  (playedDay idx s = d ->
   specialStarts (trace (loop inp) s) = 0%nat /\
   playedDay idx (exec (loop inp) s) = d) /\
  (lastButtonState s = HIGH -> t_button inp = LOW -> dateActive s = true ->
   activeEventIndex s = idx ->
   specialStarts (trace (loop inp) s) = 0%nat /\
   playedDay idx (exec (loop inp) s) = d).
Proof.
  intros Hf Hday Hlen.
  destruct (findDate_spec _ _ _ Hf) as [[Hi1 Hi2] Hdd].
  assert (Hidx : (Z.to_nat idx < length (lastPlayedDay s))%nat).
  { rewrite Hlen. lia. }
  unfold playedDay. rewrite loop_starts, loop_played.
  set (fed := exec (mqttIncoming (t_messages inp)) (exec (wifiWatchdog inp) s)).
  destruct (dateBook_fields _ _ (fed_dateBook inp s)) as (B1 & B2 & B3 & B4).
  fold fed in B1, B2, B3, B4.
  pose proof (buttonLogic_played inp fed) as Hb.
  rewrite B1, B2, B3, B4 in Hb.
  set (sc := exec (buttonLogic inp) fed) in *.
  assert (Hlc : length (lastPlayedDay sc) = Z.to_nat numDates).
  { rewrite Hb. case_match; [rewrite length_insert|]; exact Hlen. }
  assert (Hkeep : default 0 (lastPlayedDay s !! Z.to_nat idx) = d ->
                  default 0 (lastPlayedDay sc !! Z.to_nat idx) = d).
  { intros Hp. rewrite Hb. case_match; [|exact Hp].
    repeat match goal with
    | Hc : _ && _ = true |- _ => apply andb_true_iff in Hc; destruct Hc
    end.
    apply played_after_insert; auto; [apply Z.leb_le; assumption|].
    intros ->. exact Hdd. }
  assert (Hcancel : lastButtonState s = HIGH -> t_button inp = LOW ->
                    dateActive s = true -> activeEventIndex s = idx ->
                    default 0 (lastPlayedDay sc !! Z.to_nat idx) = d).
  { intros E1 E2 E3 E4. rewrite Hb, E1, E2, E3, E4.
    replace (0 <=? idx) with true by (symmetry; apply Z.leb_le; exact Hi1).
    replace (idx <? numDates) with true by (symmetry; apply Z.ltb_lt; exact Hi2).
    simpl. rewrite list_lookup_insert_eq by exact Hidx. exact Hdd. }
  destruct (dateCheck_cases inp sc)
    as [[C1 C2]|(tm & k & C1 & C2 & C3 & C4 & C5 & C6)].
  - rewrite C1, C2. repeat split; auto.
  - simpl in Hday. rewrite C1 in Hday. destruct Hday as [Hm Hd'].
    rewrite Hm, Hd' in C2. rewrite Hf in C2. injection C2 as <-.
    rewrite Hd' in C3, C5. unfold playedDay in C3.
    rewrite C5, C6, length_insert.
    assert (Hnew : default 0 (<[Z.to_nat idx := d]> (lastPlayedDay sc)
                                !! Z.to_nat idx) = d).
    { rewrite list_lookup_insert_eq by (rewrite Hlc; lia). reflexivity. }
    repeat split; auto; exfalso; apply C3; auto.
Qed.

Lemma step_day code m d idx st s :
  findDate m d 0 dates = Some idx ->
  onDay m d st ->
  length (lastPlayedDay s) = Z.to_nat numDates ->
  length (lastPlayedDay (exec (step code st) s)) = Z.to_nat numDates /\
  (specialStarts (trace (step code st) s) = 0%nat \/
   playedDay idx (exec (step code st) s) = d) /\
  (playedDay idx s = d ->
   specialStarts (trace (step code st) s) = 0%nat /\
   playedDay idx (exec (step code st) s) = d).
Proof.
  intros Hf Hday Hlen. destruct st as [inp|type wd]; simpl step.
  - destruct (tick_day m d idx inp s Hf Hday Hlen) as (H1 & H2 & H3 & _).
    auto.
  - rewrite (Without_starts _ _ (onWsEvent_no_start code type wd)).
    destruct (dateBook_fields _ _ (onWsEvent_dateBook code type wd s))
      as (_ & _ & B3 & _).
    unfold playedDay. rewrite B3. auto.
Qed.

Lemma run_cons code st rest s :
  exec (run code (st :: rest)) s = exec (run code rest) (exec (step code st) s).
Proof. reflexivity. Qed.

Lemma run_starts_cons code st rest s :
  specialStarts (trace (run code (st :: rest)) s)
  = (specialStarts (trace (step code st) s)
     + specialStarts (trace (run code rest) (exec (step code st) s)))%nat.
Proof. simpl run. apply specialStarts_bind. Qed.

(** A run within the day of entry [idx]: once the entry is marked played
    nothing starts, and a run in which something started ends with the
    entry marked played. *)
Lemma run_day code m d idx steps :
  findDate m d 0 dates = Some idx ->
  Forall (onDay m d) steps ->
  forall s,
    length (lastPlayedDay s) = Z.to_nat numDates ->
    length (lastPlayedDay (exec (run code steps) s)) = Z.to_nat numDates /\
    (specialStarts (trace (run code steps) s) = 0%nat \/
     playedDay idx (exec (run code steps) s) = d) /\
    (playedDay idx s = d ->
     specialStarts (trace (run code steps) s) = 0%nat /\
     playedDay idx (exec (run code steps) s) = d).
Proof.
  intros Hf HF. induction HF as [|st rest Hst _ IH]; intros s Hlen.
  - simpl. auto.
  - rewrite run_cons, run_starts_cons.
    destruct (step_day code m d idx st s Hf Hst Hlen) as (S1 & S2 & S3).
    destruct (IH _ S1) as (R1 & R2 & R3).
    split; [exact R1|]. split.
    + destruct S2 as [S2|S2].
      * rewrite S2. destruct R2 as [R2|R2]; [left; rewrite R2; reflexivity|].
        right. exact R2.
      * right. apply R3, S2.
    + intros Hp. destruct (S3 Hp) as [S3a S3b].
      destruct (R3 S3b) as [R3a R3b]. rewrite S3a, R3a. auto.
Qed.

(** C8. Within one day a calendar entry plays at most once.  On the day
    of an entry, if a run has started a special-date animation, no later
    date check of that day starts one again; and if a button press
    cancels the active entry (which marks it played), neither the rest of
    that tick nor any later step of that day starts it again, although
    the date still matches. *)
Theorem special_date_once_per_day (code : string) (m d idx : Z)
  (before after : list Step) (s0 : State)
  (inp : TickInput) (rest : list Step) (s : State) :
  findDate m d 0 dates = Some idx ->
  wellSized s0 ->
  Forall (onDay m d) (before ++ after) ->
  (0 < specialStarts (trace (run code before) s0))%nat ->
  wellSized s ->
  Forall (onDay m d) (Tick inp :: rest) ->
  dateActive s = true -> activeEventIndex s = idx ->
  lastButtonState s = HIGH -> t_button inp = LOW ->
  specialStarts (trace (run code after) (exec (run code before) s0)) = 0%nat /\
  specialStarts (trace (run code (Tick inp :: rest)) s) = 0%nat.
Proof.
  intros Hf Hs0 HF Hstart Hs HF' Hd Ha Hb Hp.
  destruct (wellSized_fields s0 Hs0) as [_ Hl0].
  destruct (wellSized_fields s Hs) as [_ Hl].
  apply Forall_app in HF. destruct HF as [HFb HFa]. split.
  - destruct (run_day code m d idx before Hf HFb s0 Hl0) as (B1 & B2 & _).
    destruct B2 as [B2|B2]; [lia|].
    destruct (run_day code m d idx after Hf HFa _ B1) as (_ & _ & A3).
    apply A3, B2.
  - apply Forall_cons in HF'. destruct HF' as [Ht Hr].
    rewrite run_starts_cons. simpl step.
    destruct (tick_day m d idx inp s Hf Ht Hl) as (T1 & _ & _ & T4).
    destruct (T4 Hb Hp Hd Ha) as [T4a T4b].
    destruct (run_day code m d idx rest Hf Hr _ T1) as (_ & _ & R3).
    destruct (R3 T4b) as [R3a _]. rewrite T4a, R3a. reflexivity.
Qed.

Lemma special_date_once_per_day_witness :
  let morning := Tick (clockTick 60000 HIGH (Some christmasMorning)) in
  let later := Tick (clockTick 120000 HIGH (Some christmasMorning)) in
  let press := clockTick 180000 LOW (Some christmasMorning) in
  let s := exec (run "1234" [morning]) initialState in
  specialStarts (trace (run "1234" [morning]) initialState) = 1%nat /\
  specialStarts (trace (run "1234" [later; later]) s) = 0%nat /\
  specialStarts (trace (run "1234" [Tick press; later]) s) = 0%nat.
Proof.
  intros morning later press s.
  split; [vm_compute; reflexivity|].
  apply (special_date_once_per_day "1234" 12 25 5 [morning] [later; later]
           initialState press [later] s).
  - reflexivity.
  - reflexivity.
  - repeat constructor.
  - vm_compute. lia.
  - vm_compute. reflexivity.
  - repeat constructor.
  - vm_compute. reflexivity.
  - vm_compute. reflexivity.
  - vm_compute. reflexivity.
  - reflexivity.
Defined.

(** ** Special date over an override: the claim *)

Lemma arbiter_special_exec inp s :
  dateActive s = true ->
  exec (arbiter inp) s = exec (runActiveSpecialAnimation (t_kernel inp)) s.
Proof.
  intros Hd. unfold arbiter. cbv zeta. rewrite exec_get_bind, Hd.
  rewrite exec_bind, exec_emit. reflexivity.
Qed.

Lemma dispatched_geo g : g <> GEO_NONE -> dispatched (DGeo g) = [DGeo g].
Proof. destruct g; [contradiction|reflexivity..]. Qed.

(** C7. While a special-date event is active an existing geofence
    override is suppressed but not cleared.  In every tick in which the
    special-date kernel renders, no other kernel runs and the override
    (kind, start timestamp, duration) comes out as the feed left it:
    unchanged when the tick takes no message from the feed, and never
    removed.  In the tick in which the date stops being active the
    override is the driver again and its kernel runs; when the date was
    cancelled with the button, it is marked played for its day. *)
Theorem special_date_keeps_override (inp1 : TickInput) (s1 : State)
  (inp2 : TickInput) (s2 : State) :
  dateActive (exec (housekeeping inp1) s1) = true ->
  dateActive s2 = true ->
  currentGeoState s2 <> GEO_NONE ->
  dateActive (exec (housekeeping inp2) s2) = false ->
  wellSized s2 ->
  (kernels (trace (loop inp1) s1) = [DSpecial] /\
   geoOverride (exec (loop inp1) s1)
     = geoOverride (exec (mqttIncoming (t_messages inp1)) s1) /\
   (t_messages inp1 = [] -> geoOverride (exec (loop inp1) s1) = geoOverride s1) /\
   (currentGeoState s1 <> GEO_NONE ->
    currentGeoState (exec (loop inp1) s1) <> GEO_NONE)) /\
  (currentGeoState (exec (housekeeping inp2) s2) <> GEO_NONE /\
   kernels (trace (loop inp2) s2)
     = [DGeo (currentGeoState (exec (housekeeping inp2) s2))] /\
   (t_messages inp2 = [] ->
    geoOverride (exec (housekeeping inp2) s2) = geoOverride s2) /\
   (lastButtonState s2 = HIGH -> t_button inp2 = LOW ->
    0 <= activeEventIndex s2 < numDates ->
    playedDay (activeEventIndex s2) (exec (loop inp2) s2)
      = dateDay (activeEventIndex s2))).
Proof.
  intros Hd1 Hd2 Hg2 Hend Hs2.
  destruct (wellSized_fields s2 Hs2) as [_ Hlen]. split.
  - assert (Hgeo : geoOverride (exec (loop inp1) s1)
                   = geoOverride (exec (mqttIncoming (t_messages inp1)) s1)).
    { rewrite loop_exec, (arbiter_special_exec _ _ Hd1), special_geo.
      apply housekeeping_geo. }
    split; [|split; [exact Hgeo|split]].
    + rewrite loop_kernels. unfold activeDriver. rewrite Hd1. reflexivity.
    + intros Hm. rewrite Hgeo, Hm. reflexivity.
    + intros Hg1. rewrite (geoOverride_kind _ _ Hgeo).
      apply mqttIncoming_keeps, Hg1.
  - pose proof (housekeeping_keeps inp2 s2 Hg2) as Hk.
    split; [exact Hk|]. split; [|split].
    + rewrite loop_kernels. unfold activeDriver. rewrite Hend.
      rewrite bool_decide_eq_false_2 by exact Hk. simpl negb. cbv iota.
      apply dispatched_geo, Hk.
    + intros Hm. rewrite housekeeping_geo, Hm. reflexivity.
    + intros Hb Hp [R1 R2]. unfold playedDay. rewrite loop_played.
      rewrite housekeeping_exec in Hend.
      set (fed := exec (mqttIncoming (t_messages inp2))
                    (exec (wifiWatchdog inp2) s2)) in *.
      destruct (dateBook_fields _ _ (fed_dateBook inp2 s2))
        as (B1 & B2 & B3 & B4).
      fold fed in B1, B2, B3, B4.
      pose proof (buttonLogic_played inp2 fed) as Hbl.
      rewrite B1, B2, B3, B4, Hb, Hp, Hd2 in Hbl.
      replace (0 <=? activeEventIndex s2) with true in Hbl
        by (symmetry; apply Z.leb_le; exact R1).
      replace (activeEventIndex s2 <? numDates) with true in Hbl
        by (symmetry; apply Z.ltb_lt; exact R2).
      rewrite !Z.eqb_refl in Hbl. cbn [andb] in Hbl.
      destruct (dateCheck_cases inp2 (exec (buttonLogic inp2) fed))
        as [[C1 _]|(tm & k & _ & _ & _ & C4 & _)]; [|congruence].
      rewrite C1, Hbl, list_lookup_insert_eq by (rewrite Hlen; lia).
      reflexivity.
Qed.

Lemma special_date_keeps_override_witness :
  let arrived := exec (onGeofenceMessage "arrive" 59000) initialState in
  let s1 := exec (loop (clockTick 60000 HIGH (Some christmasMorning))) arrived in
  let inp1 := clockTick 61000 HIGH (Some christmasMorning) in
  let s2 := exec (loop inp1) s1 in
  let inp2 := clockTick 200000 LOW (Some christmasMorning) in
  kernels (trace (loop inp1) s1) = [DSpecial] /\
  geoOverride s2 = (GEO_ARRIVED, 59000, 15000) /\
  kernels (trace (loop inp2) s2) = [DGeo GEO_ARRIVED] /\
  playedDay 5 (exec (loop inp2) s2) = 25.
Proof.
  intros arrived s1 inp1 s2 inp2.
  assert (H1 : dateActive (exec (housekeeping inp1) s1) = true)
    by (vm_compute; reflexivity).
  assert (H2 : dateActive s2 = true) by (vm_compute; reflexivity).
  assert (H3 : currentGeoState s2 <> GEO_NONE)
    by (vm_compute; intros H; discriminate H).
  assert (H4 : dateActive (exec (housekeeping inp2) s2) = false)
    by (vm_compute; reflexivity).
  assert (H5 : wellSized s2) by (vm_compute; reflexivity).
  assert (E1 : geoOverride s1 = (GEO_ARRIVED, 59000, 15000))
    by (vm_compute; reflexivity).
  assert (E2 : currentGeoState (exec (housekeeping inp2) s2) = GEO_ARRIVED)
    by (vm_compute; reflexivity).
  assert (E3 : activeEventIndex s2 = 5) by (vm_compute; reflexivity).
  assert (E4 : lastButtonState s2 = HIGH) by (vm_compute; reflexivity).
  assert (R : 0 <= activeEventIndex s2 < numDates)
    by (rewrite E3; vm_compute; split; [intros H; discriminate H|reflexivity]).
  destruct (special_date_keeps_override inp1 s1 inp2 s2 H1 H2 H3 H4 H5)
    as ((K1 & _ & K3 & _) & (_ & K6 & _ & K8)).
  split; [exact K1|].
  split; [rewrite <- E1; exact (K3 eq_refl)|].
  split; [rewrite <- E2; exact K6|].
  pose proof (K8 E4 eq_refl R) as K. rewrite E3 in K. exact K.
Defined.

(** ** The array sizes are invariant *)

Lemma setPixelColor_size n c st :
  length (pixels (setPixelColor n c st)) = length (pixels st).
Proof.
  unfold setPixelColor. case_match; [apply length_insert|reflexivity].
Qed.

Lemma forRange_size body :
  (forall i st, length (pixels (body i st)) = length (pixels st)) ->
  forall count first st,
    length (pixels (forRange first count body st)) = length (pixels st).
Proof.
  intros Hb. induction count as [|k IH]; intros first st; simpl.
  - reflexivity.
  - rewrite IH. apply Hb.
Qed.

Lemma setPixels_size count : forall first c st,
  length (pixels (setPixels first count c st)) = length (pixels st).
Proof.
  induction count as [|k IH]; intros first c st; simpl.
  - reflexivity.
  - rewrite IH. apply setPixelColor_size.
Qed.

Lemma fill_size c first count st :
  length (pixels (fill c first count st)) = length (pixels st).
Proof. unfold fill. case_match; [reflexivity|apply setPixels_size]. Qed.

Lemma clear_size st : length (pixels (clear st)) = length (pixels st).
Proof. apply length_replicate. Qed.

Ltac sized :=
  repeat first
    [ reflexivity
    | rewrite setPixelColor_size
    | rewrite fill_size
    | rewrite clear_size
    | rewrite length_insert
    | rewrite forRange_size; [| intros ? ?]
    | case_match
    | progress cbn [pixels setBrightness strip set_strip]
    | progress unfold fadeStripToBlackBy, setTempIndicator, cloudPuff, numPixels ].

(** Like [preserved], for the two array lengths. *)
Ltac same_size :=
  repeat first
    [ apply Preserves_ret
    | apply Preserves_get
    | apply Preserves_emit
    | apply Preserves_when
    | apply Preserves_bind; [| intros ?]
    | match goal with
      | |- Preserves _ (modify _) =>
          apply Preserves_modify; intros ?; fields; f_equal; sized; fail
      | |- Preserves _ (let _ := _ in _) => cbv zeta
      | |- Preserves _ (if ?b then _ else _) => destruct b
      | |- Preserves _ (match ?x with _ => _ end) => destruct x
      | |- Preserves _ ?m => unfold_call m
      end ].

Lemma onWsEvent_sizes code type d : Preserves sizes (onWsEvent code type d).
Proof. unfold sizes. same_size. Qed.

Lemma onGeofenceMessage_sizes payload now :
  Preserves sizes (onGeofenceMessage payload now).
Proof. unfold sizes. same_size. Qed.

Lemma mqttIncoming_sizes msgs : Preserves sizes (mqttIncoming msgs).
Proof.
  induction msgs as [|[payload now] r IH]; simpl.
  - apply Preserves_ret.
  - apply Preserves_bind; [apply onGeofenceMessage_sizes|intros _; exact IH].
Qed.

Lemma wifiWatchdog_sizes inp : Preserves sizes (wifiWatchdog inp).
Proof. unfold sizes. same_size. Qed.

Lemma buttonLogic_sizes inp : Preserves sizes (buttonLogic inp).
Proof. unfold sizes. same_size. Qed.

Lemma dateCheck_sizes inp : Preserves sizes (dateCheck inp).
Proof. unfold sizes. same_size. Qed.

Lemma arbiter_sizes inp : Preserves sizes (arbiter inp).
Proof. unfold sizes. same_size. Qed.

Lemma loop_sizes inp : Preserves sizes (loop inp).
Proof.
  unfold loop, housekeeping.
  repeat (apply Preserves_bind; [|intros _]);
    auto using wifiWatchdog_sizes, mqttIncoming_sizes, buttonLogic_sizes,
               dateCheck_sizes, arbiter_sizes.
Qed.

(** Every state reached from power-on has the 19 pixels and the 6 played
    days that the theorems about single steps assume. *)
Lemma wellSized_run code steps s :
  wellSized s -> wellSized (exec (run code steps) s).
Proof.
  unfold wellSized. revert s.
  induction steps as [|st rest IH]; intros s H; [exact H|].
  rewrite run_cons. apply IH. rewrite <- H.
  destruct st; [apply loop_sizes|apply onWsEvent_sizes].
Qed.

Lemma wellSized_initial : wellSized initialState.
Proof. reflexivity. Qed.

(** * Properties of the single functions *)

(** ** Colors, hexadecimal text and clock differences *)

Lemma u8_bound z : 0 <= u8 z < 256.
Proof. unfold u8. apply (Z.mod_pos_bound z (2 ^ 8)). reflexivity. Qed.

Lemma low_bits_disjoint a b k :
  0 <= k -> 0 <= b < 2 ^ k -> Z.land (a * 2 ^ k) b = 0.
Proof.
  intros Hk Hb. apply Z.bits_inj'. intros n Hn.
  rewrite Z.land_spec, Z.bits_0.
  destruct (Z.lt_ge_cases n k).
  - rewrite Z.mul_pow2_bits_low by lia. reflexivity.
  - replace (Z.testbit b n) with false; [apply andb_false_r|].
    symmetry. destruct (Z.eq_dec b 0) as [->|]; [apply Z.bits_0|].
    apply Z.bits_above_log2; [lia|].
    apply Z.log2_lt_pow2; [lia|].
    assert (2 ^ k <= 2 ^ n) by (apply Z.pow_le_mono_r; lia). lia.
Qed.

Lemma Color_sum r g b : Color r g b = u8 r * 65536 + u8 g * 256 + u8 b.
Proof.
  unfold Color.
  pose proof (u8_bound r). pose proof (u8_bound g). pose proof (u8_bound b).
  rewrite !Z.shiftl_mul_pow2 by lia.
  rewrite <- (Z.add_nocarry_lor (u8 g * 2 ^ 8) (u8 b))
    by (apply low_bits_disjoint; [lia|change (2 ^ 8) with 256; lia]).
  rewrite <- Z.add_nocarry_lor
    by (apply low_bits_disjoint;
        [lia|change (2 ^ 16) with 65536; change (2 ^ 8) with 256; lia]).
  change (2 ^ 16) with 65536. change (2 ^ 8) with 256. lia.
Qed.

Lemma Color_unpack (r g b : Z) :
  red (Color r g b) = u8 r /\
  green (Color r g b) = u8 g /\
  blue (Color r g b) = u8 b /\
  0 <= Color r g b < 2 ^ 24.
Proof.
  rewrite Color_sum. unfold red, green, blue.
  rewrite !Z.shiftr_div_pow2 by lia.
  pose proof (u8_bound r). pose proof (u8_bound g). pose proof (u8_bound b).
  set (x := u8 r) in *. set (y := u8 g) in *. set (z := u8 b) in *.
  unfold u8.
  change (2 ^ 16) with 65536. change (2 ^ 8) with 256.
  change (2 ^ 24) with 16777216.
  repeat split; try lia.
  all: Z.to_euclidean_division_equations; lia.
Qed.

(** X1. [Color] packs three channels into [0xRRGGBB] after narrowing each
    to eight bits, and the channel extraction used by the fade kernels
    gives them back; the packed value always fits 24 bits. *)
Theorem Color_channels (r g b : Z) :
  red (Color r g b) = u8 r /\
  green (Color r g b) = u8 g /\
  blue (Color r g b) = u8 b /\
  0 <= Color r g b < 2 ^ 24.
Proof. apply Color_unpack. Qed.

Lemma land_255 x : Z.land x 255 = x mod 256.
Proof. change 255 with (Z.ones 8). rewrite Z.land_ones by lia. reflexivity. Qed.

Lemma land_15 x : Z.land x 15 = x mod 16.
Proof. change 15 with (Z.ones 4). rewrite Z.land_ones by lia. reflexivity. Qed.

Lemma land_24 x : Z.land x 16777215 = x mod 16777216.
Proof.
  change 16777215 with (Z.ones 24). rewrite Z.land_ones by lia. reflexivity.
Qed.

(** The color that the [setcolor] handler builds from the parsed number. *)
Lemma Color_of_number n :
  Color (Z.land (Z.shiftr n 16) 255) (Z.land (Z.shiftr n 8) 255) (Z.land n 255)
  = n mod 16777216.
Proof.
  rewrite Color_sum, !land_255, !Z.shiftr_div_pow2 by lia. unfold u8.
  change (2 ^ 16) with 65536. change (2 ^ 8) with 256.
  Z.to_euclidean_division_equations; lia.
Qed.

(** A property of the sixteen digit values holds of every nibble. *)
Lemma nibble_ind (P : Z -> Prop) :
  Forall P (seqZ 0 16) -> forall n, 0 <= n < 16 -> P n.
Proof.
  intros H n Hn. rewrite Forall_forall in H. apply H, elem_of_seqZ. lia.
Qed.

Ltac each_nibble n H :=
  pattern n; revert n H; apply nibble_ind;
  repeat (apply Forall_cons_2 || apply Forall_nil_2); cbv beta.

Lemma hexval_hexdigit n : 0 <= n < 16 -> hexval (hexdigit n) = Some n.
Proof. intros H. each_nibble n H; reflexivity. Qed.

Lemma strtol16_digits n m r :
  0 <= n < 16 -> 0 <= m < 16 ->
  strtol16 (String (hexdigit n) (String (hexdigit m) r))
  = hexdigits 0 (String (hexdigit n) (String (hexdigit m) r)).
Proof.
  intros Hn Hm. each_nibble n Hn; each_nibble m Hm; reflexivity.
Qed.

Lemma nibble_bound c k : 0 <= Z.land (Z.shiftr c k) 15 < 16.
Proof. rewrite land_15. apply Z.mod_pos_bound. reflexivity. Qed.

Lemma hexColor_parse (c : Z) :
  0 <= c < 2 ^ 24 ->
  strtol16 (tail (hexColor c)) = c.
Proof.
  intros Hc. unfold hexColor. cbn [tail].
  change (Z.land c 15) with (Z.land (Z.shiftr c 0) 15).
  rewrite strtol16_digits by apply nibble_bound.
  cbn [hexdigits]. rewrite !hexval_hexdigit by apply nibble_bound.
  rewrite !land_15, !Z.shiftr_div_pow2 by lia.
  change (2 ^ 24) with 16777216 in Hc.
  change (2 ^ 20) with (16 * (16 * (16 * (16 * 16)))).
  change (2 ^ 16) with (16 * (16 * (16 * 16))).
  change (2 ^ 12) with (16 * (16 * 16)). change (2 ^ 8) with (16 * 16).
  change (2 ^ 4) with 16. change (2 ^ 0) with 1.
  rewrite <- !Z.div_div by lia. rewrite Z.div_1_r.
  set (a1 := c / 16). set (a2 := a1 / 16). set (a3 := a2 / 16).
  set (a4 := a3 / 16). set (a5 := a4 / 16).
  pose proof (Z.div_mod c 16). pose proof (Z.mod_pos_bound c 16).
  pose proof (Z.div_mod a1 16). pose proof (Z.mod_pos_bound a1 16).
  pose proof (Z.div_mod a2 16). pose proof (Z.mod_pos_bound a2 16).
  pose proof (Z.div_mod a3 16). pose proof (Z.mod_pos_bound a3 16).
  pose proof (Z.div_mod a4 16). pose proof (Z.mod_pos_bound a4 16).
  pose proof (Z.div_mod a5 16). pose proof (Z.mod_pos_bound a5 16).
  assert (a5 / 16 = 0).
  { subst a5 a4 a3 a2 a1. rewrite !Z.div_div by lia.
    apply Z.div_small. lia. }
  lia.
Qed.

(** X2. Printing a 24-bit color with [hexColor] and parsing the six
    digits back with [strtol16], as the snapshot builder and the
    [setcolor] handler do, gives the color back. *)
Theorem hexColor_strtol16 (c : Z) :
  0 <= c < 2 ^ 24 ->
  strtol16 (tail (hexColor c)) = c.
Proof. apply hexColor_parse. Qed.

Lemma hexColor_strtol16_witness : strtol16 (tail (hexColor 11259375)) = 11259375.
Proof.
  apply (hexColor_strtol16 11259375). vm_compute.
  split; [intros H; discriminate H|reflexivity].
Defined.

(** ** The command handler, command by command *)

Lemma fill_uniform (c : Z) (st : Strip) :
  length (pixels st) = Z.to_nat NUM_LEDS ->
  pixels (fill c 0 0 st) = replicate (Z.to_nat NUM_LEDS) (Z.land c 16777215).
Proof.
  intros H. destruct (nineteen_pixels _ H) as
      (x0&x1&x2&x3&x4&x5&x6&x7&x8&x9&x10&x11&x12&x13&x14&x15&x16&x17&x18&Hl).
  destruct st as [l b]. simpl in Hl. subst l. reflexivity.
Qed.

Lemma setPixels_brightness count : forall first c st,
  stripBrightness (setPixels first count c st) = stripBrightness st.
Proof.
  induction count as [|k IH]; intros first c st; simpl; [reflexivity|].
  rewrite IH. unfold setPixelColor. case_match; reflexivity.
Qed.

Lemma fill_brightness c first count st :
  stripBrightness (fill c first count st) = stripBrightness st.
Proof. unfold fill. case_match; [reflexivity|apply setPixels_brightness]. Qed.

Lemma shows_app t1 t2 : shows (t1 ++ t2) = shows t1 ++ shows t2.
Proof. apply omap_app. Qed.

(** What a [setcolor] command with a seven-character value led by [#]
    does, whatever the six characters are. *)
Lemma setcolor_hash_exec code v s :
  String.length v = 7%nat -> firstChar v = Some "#"%char ->
  wellSized s ->
  let c := strtol16 (tail v) mod 16777216 in
  let s1 := exec (onWsEvent code WS_EVT_DATA (setcolorCommand v)) s in
  s1 = set_strip (fill c 0 0 (strip s)) (set_currentEffect EFFECT_STATIC s) /\
  uniform c (strip s1) /\
  stateDoc s1 = [("mode", JStr "static");
                 ("brightness", JInt (staticColorBrightness s));
                 ("color", JStr (hexColor c))] /\
  trace (onWsEvent code WS_EVT_DATA (setcolorCommand v)) s
    = [EvShow (strip s1); EvBroadcast (serializeJson (stateDoc s1))].
Proof.
  intros Hlen Hfirst Hs c s1.
  destruct (wellSized_fields s Hs) as [Hpix _].
  assert (Hrun : onWsEvent code WS_EVT_DATA (setcolorCommand v)
                 = (modify (set_currentEffect EFFECT_STATIC) ;;
                    onStrip (fill c 0 0) ;; show ;; broadcastState)).
  { change (onWsEvent code WS_EVT_DATA (setcolorCommand v))
      with (doSetColor [("action", JStr "setcolor"); ("value", JStr v)]).
    unfold doSetColor.
    change (cstr "value" [("action", JStr "setcolor"); ("value", JStr v)])
      with (Some v).
    cbv beta iota. rewrite Hlen, Hfirst. cbn [Z.of_nat Pos.of_succ_nat Pos.succ Z.eqb Pos.eqb
                               isHash andb].
    change (N_of_ascii "#" =? 35)%N with true. cbv iota zeta.
    rewrite Color_of_number. reflexivity. }
  assert (E1 : s1 = set_strip (fill c 0 0 (strip s))
                      (set_currentEffect EFFECT_STATIC s)).
  { subst s1. rewrite Hrun. reflexivity. }
  assert (Hc : Z.land c 16777215 = c).
  { subst c. rewrite land_24. apply Z.mod_mod. lia. }
  assert (U : uniform c (strip s1)).
  { rewrite E1. unfold uniform. fields. rewrite fill_uniform by exact Hpix.
    rewrite Hc. reflexivity. }
  assert (D : stateDoc s1 = [("mode", JStr "static");
                             ("brightness", JInt (staticColorBrightness s));
                             ("color", JStr (hexColor c))]).
  { unfold stateDoc. unfold getPixelColor. unfold uniform in U. rewrite U.
    rewrite E1. fields. simpl. rewrite Hc. reflexivity. }
  repeat split; auto.
  rewrite Hrun. fold s1. subst s1. rewrite Hrun. reflexivity.
Qed.



(** X4. Round trip of colors through the command interface: for every
    24-bit color, a [setcolor] command carrying its [#RRGGBB] text fills
    the strip with exactly that color, and the snapshot reports the same
    text. *)
Theorem setcolor_roundtrip_any_color (code : string) (c : Z) (s : State) :
  0 <= c < 2 ^ 24 ->
  wellSized s ->
  let s1 := exec (onWsEvent code WS_EVT_DATA (setcolorCommand (hexColor c))) s in
  uniform c (strip s1) /\
  member "mode" (stateDoc s1) = Some (JStr "static") /\
  member "color" (stateDoc s1) = Some (JStr (hexColor c)).
Proof.
  intros Hc Hs s1.
  destruct (setcolor_hash_exec code (hexColor c) s eq_refl eq_refl Hs)
    as (_ & U & D & _).
  fold s1 in U, D. rewrite (hexColor_parse c Hc) in U, D.
  change (2 ^ 24) with 16777216 in Hc.
  rewrite Z.mod_small in U, D by exact Hc.
  split; [exact U|]. rewrite D. split; reflexivity.
Qed.

Lemma setcolor_roundtrip_any_color_witness :
  let s1 := exec (onWsEvent "1234" WS_EVT_DATA
                    (setcolorCommand (hexColor 16711935))) initialState in
  uniform 16711935 (strip s1) /\
  member "color" (stateDoc s1) = Some (JStr (hexColor 16711935)).
Proof.
  assert (H : 0 <= 16711935 < 2 ^ 24)
    by (vm_compute; split; [intros H; discriminate H|reflexivity]).
  destruct (setcolor_roundtrip_any_color "1234" 16711935 initialState H eq_refl)
    as (H1 & _ & H3).
  exact (conj H1 H3).
Defined.

Lemma constrain_range x lo hi : lo <= hi -> lo <= constrain x lo hi <= hi.
Proof.
  intros H. unfold constrain.
  destruct (Z.ltb_spec x lo); [lia|]. destruct (Z.ltb_spec hi x); lia.
Qed.

(** X5. A [setbrightness] command with any integer that fits an [int]
    stores it clamped to 0..255 (below 0 gives 0, above 255 gives 255),
    keeps the mode and broadcasts exactly one snapshot.  In Static mode
    it refills the strip with the color of pixel 0, pushes one frame at
    the new brightness and puts the global brightness back to 255; in
    every other mode the strip is untouched and nothing is pushed. *)
Theorem setbrightness_clamps (code : string) (v : Z) (s : State) :
  - 2 ^ 31 <= v < 2 ^ 31 ->
  let cmd := onWsEvent code WS_EVT_DATA (setbrightnessCommand v) in
  let s1 := exec cmd s in
  staticColorBrightness s1 = constrain v 0 255 /\
  0 <= staticColorBrightness s1 <= 255 /\
  currentEffect s1 = currentEffect s /\
  broadcasts (trace cmd s) = 1%nat /\
  map stripBrightness (shows (trace cmd s))
    = (if bool_decide (currentEffect s = EFFECT_STATIC)
       then [constrain v 0 255] else []) /\
  strip s1
    = (if bool_decide (currentEffect s = EFFECT_STATIC)
       then mkStrip (pixels (fill (getPixelColor 0 (strip s)) 0 0 (strip s))) 255
       else strip s).
Proof.
  intros Hv cmd s1.
  pose proof (constrain_range v 0 255 ltac:(lia)) as Hc.
  assert (Hu : u8 (constrain v 0 255) = constrain v 0 255).
  { unfold u8. apply Z.mod_small. change (2 ^ 8) with 256. lia. }
  assert (Hrun : cmd
                 = (modify (set_staticColorBrightness (constrain v 0 255)) ;;
                    s' <- get ;;
                    when (bool_decide (currentEffect s' = EFFECT_STATIC))
                      (onStrip (setBrightness (staticColorBrightness s')) ;;
                       onStrip (fill (getPixelColor 0 (strip s')) 0 0) ;;
                       show ;;
                       onStrip (setBrightness 255)) ;;
                    broadcastState)).
  { subst cmd.
    change (onWsEvent code WS_EVT_DATA (setbrightnessCommand v))
      with (doSetBrightness [("action", JStr "setbrightness"); ("value", JInt v)]).
    unfold doSetBrightness.
    change (containsKey "value"
              [("action", JStr "setbrightness"); ("value", JInt v)]) with true.
    change (asInt "value" [("action", JStr "setbrightness"); ("value", JInt v)])
      with (if (- 2 ^ 31 <=? v) && (v <? 2 ^ 31) then Some v else None).
    replace ((- 2 ^ 31 <=? v) && (v <? 2 ^ 31)) with true
      by (symmetry; apply andb_true_iff; split;
          [apply Z.leb_le|apply Z.ltb_lt]; lia).
    cbv iota beta zeta. rewrite Hu. reflexivity. }
  subst s1. rewrite Hrun.
  rewrite exec_bind, exec_modify, exec_get_bind, exec_bind, exec_when,
    exec_broadcastState.
  rewrite trace_bind, trace_get_bind, trace_bind, trace_when.
  change (exec (modify (set_staticColorBrightness (constrain v 0 255))) s)
    with (set_staticColorBrightness (constrain v 0 255) s).
  fields.
  destruct (bool_decide (currentEffect s = EFFECT_STATIC)).
  - run_exec. fields. unfold setBrightness. cbn [pixels stripBrightness].
    rewrite Hu. repeat split; try lia; reflexivity.
  - run_exec. fields. repeat split; try lia; reflexivity.
Qed.

Lemma setbrightness_clamps_witness :
  staticColorBrightness
    (exec (onWsEvent "1234" WS_EVT_DATA (setbrightnessCommand (-5))) initialState)
    = 0 /\
  staticColorBrightness
    (exec (onWsEvent "1234" WS_EVT_DATA (setbrightnessCommand 999)) initialState)
    = 255.
Proof.
  assert (H1 : - 2 ^ 31 <= -5 < 2 ^ 31)
    by (vm_compute; split; [intros H; discriminate H|reflexivity]).
  assert (H2 : - 2 ^ 31 <= 999 < 2 ^ 31)
    by (vm_compute; split; [intros H; discriminate H|reflexivity]).
  split.
  - exact (proj1 (setbrightness_clamps "1234" (-5) initialState H1)).
  - exact (proj1 (setbrightness_clamps "1234" 999 initialState H2)).
Defined.

(** The four mode names [setmode] accepts. *)
Lemma setmode_exec code v e :
  In e [EFFECT_BREATH; EFFECT_FAVORITE; EFFECT_NIGHT; EFFECT_WEATHER] ->
  toLowerCase v = modeName e ->
  onWsEvent code WS_EVT_DATA (setmodeCommand v)
  = (s' <- get ;;
     when (negb (bool_decide (e = currentEffect s')))
       (modify (set_currentEffect e) ;;
        when (bool_decide (e = EFFECT_BREATH))
          (modify (set_brightness 0) ;; modify (set_brightnessStep 5)) ;;
        onStrip clear ;; show ;; broadcastState)).
Proof.
  intros He Hv.
  change (onWsEvent code WS_EVT_DATA (setmodeCommand v))
    with (doSetMode [("action", JStr "setmode"); ("value", JStr v)]).
  unfold doSetMode.
  change (cstr "value" [("action", JStr "setmode"); ("value", JStr v)])
    with (Some v).
  cbv beta iota zeta. rewrite Hv.
  simpl in He. destruct He as [<-|[<-|[<-|[<-|[]]]]]; reflexivity.
Qed.

(** X6. Round trip of mode names: a [setmode] command naming one of
    breath, favorite, night, weather (in any letter case) makes that the
    mode the snapshot reports.  When the named mode is already the
    current one the command does nothing at all: no state change, no
    frame, no snapshot; otherwise it blanks the strip, pushes one frame
    and broadcasts once. *)
Theorem setmode_roundtrip (code v : string) (e : Effect) (s : State) :
  In e [EFFECT_BREATH; EFFECT_FAVORITE; EFFECT_NIGHT; EFFECT_WEATHER] ->
  toLowerCase v = modeName e ->
  let cmd := onWsEvent code WS_EVT_DATA (setmodeCommand v) in
  let s1 := exec cmd s in
  currentEffect s1 = e /\
  member "mode" (stateDoc s1) = Some (JStr (modeName e)) /\
  (if bool_decide (e = currentEffect s)
   then s1 = s /\ trace cmd s = []
   else strip s1 = clear (strip s) /\
        shows (trace cmd s) = [clear (strip s)] /\
        broadcasts (trace cmd s) = 1%nat).
Proof.
  intros He Hv cmd s1. subst s1 cmd. rewrite (setmode_exec code v e He Hv).
  rewrite exec_get_bind, trace_get_bind, exec_when, trace_when.
  destruct (bool_decide (e = currentEffect s)) eqn:E; simpl negb; cbv iota.
  - apply bool_decide_eq_true in E. rewrite <- E.
    repeat split. unfold stateDoc. rewrite <- E. reflexivity.
  - assert (H : currentEffect
                  (exec (modify (set_currentEffect e) ;;
                         when (bool_decide (e = EFFECT_BREATH))
                           (modify (set_brightness 0) ;;
                            modify (set_brightnessStep 5)) ;;
                         onStrip clear ;; show ;; broadcastState) s) = e).
    { run_exec. destruct (bool_decide (e = EFFECT_BREATH)); reflexivity. }
    split; [exact H|]. split.
    { unfold stateDoc. rewrite H. reflexivity. }
    destruct (bool_decide (e = EFFECT_BREATH)); repeat split.
Qed.

Lemma setmode_roundtrip_witness :
  let cmd := onWsEvent "1234" WS_EVT_DATA (setmodeCommand "Night") in
  currentEffect (exec cmd initialState) = EFFECT_NIGHT /\
  exec cmd (exec cmd initialState) = exec cmd initialState.
Proof.
  intros cmd.
  assert (He : In EFFECT_NIGHT
                 [EFFECT_BREATH; EFFECT_FAVORITE; EFFECT_NIGHT; EFFECT_WEATHER])
    by (simpl; tauto).
  destruct (setmode_roundtrip "1234" "Night" EFFECT_NIGHT initialState
              He eq_refl) as (H1 & _ & _).
  destruct (setmode_roundtrip "1234" "Night" EFFECT_NIGHT (exec cmd initialState)
              He eq_refl) as (_ & _ & H3).
  split; [exact H1|]. exact (proj1 H3).
Defined.

(** ** Feed words and command names *)




(** X8. A pulse or missyou word on the feed and a [privatepulse] command
    with the right secret leave the same state: Pulse mode with its phase
    counter at 0 and everything else, the geofence override included, as
    it was.  Pulse therefore never pre-empts a special date or an
    override; it becomes the driver only when neither is present.  The
    feed word broadcasts twice, the command once. *)
Theorem pulse_by_feed_or_command (code payload : string) (now : Z) (s : State) :
  toLowerCase payload = "pulse" \/ toLowerCase payload = "missyou" ->
  let fed := exec (onGeofenceMessage payload now) s in
  let cmd := onWsEvent code WS_EVT_DATA (privatepulseCommand code) in
  fed = set_pulseStep 0 (set_currentEffect EFFECT_PRIVATE_PULSE s) /\
  exec cmd s = fed /\
  activeDriver fed
    = match activeDriver s with
      | DSpecial => DSpecial
      | DGeo g => DGeo g
      | _ => DPulse
      end /\
  broadcasts (trace (onGeofenceMessage payload now) s) = 2%nat /\
  broadcasts (trace cmd s) = 1%nat.
Proof.
  intros Hp fed cmd.
  assert (Hf : fed = set_pulseStep 0 (set_currentEffect EFFECT_PRIVATE_PULSE s)).
  { subst fed. unfold onGeofenceMessage.
    destruct Hp as [-> | ->]; reflexivity. }
  assert (Hc : cmd = (modify (set_currentEffect EFFECT_PRIVATE_PULSE) ;;
                      modify (set_pulseStep 0) ;; broadcastState)).
  { subst cmd.
    change (onWsEvent code WS_EVT_DATA (privatepulseCommand code))
      with (doPrivatePulse code
              [("action", JStr "privatepulse"); ("secret", JStr code)]).
    unfold doPrivatePulse.
    change (cstr "secret" [("action", JStr "privatepulse"); ("secret", JStr code)])
      with (Some code).
    cbv beta iota. rewrite String.eqb_refl. reflexivity. }
  split; [exact Hf|]. split; [rewrite Hc, Hf; reflexivity|]. split.
  - rewrite Hf. unfold activeDriver. fields.
    destruct (dateActive s); [reflexivity|].
    destruct (bool_decide (currentGeoState s = GEO_NONE)); [|reflexivity].
    simpl. destruct (bool_decide (currentEffect s = EFFECT_PRIVATE_PULSE));
      reflexivity.
  - split.
    + rewrite message_broadcasts.
      destruct Hp as [-> | ->]; reflexivity.
    + rewrite Hc. reflexivity.
Qed.

Lemma pulse_by_feed_or_command_witness :
  exec (onWsEvent "1234" WS_EVT_DATA (privatepulseCommand "1234")) initialState
  = exec (onGeofenceMessage "MissYou" 0) initialState.
Proof.
  exact (proj1 (proj2 (pulse_by_feed_or_command "1234" "MissYou" 0
                         initialState (or_intror eq_refl)))).
Defined.

(** ** The button *)

Lemma clear_uniform st :
  length (pixels st) = Z.to_nat NUM_LEDS -> uniform 0 (clear st).
Proof. intros H. unfold uniform, clear. simpl. rewrite H. reflexivity. Qed.

Lemma updateWeather_strip w : Preserves strip (updateWeather w).
Proof. preserved. Qed.

Lemma updateWeather_mode w : Preserves currentEffect (updateWeather w).
Proof. preserved. Qed.

Lemma updateWeather_button w : Preserves lastButtonState (updateWeather w).
Proof. preserved. Qed.

(** X9. A button press (a HIGH to LOW edge) while no special date is
    active rotates Breath, Favorite, Night, Weather in that order and back
    to Breath; from Static it goes to Favorite and from Pulse to Breath,
    so the button never selects Static or Pulse.  The press blanks the
    strip and broadcasts exactly once. *)
Theorem button_press_rotates (inp : TickInput) (s : State) :
  lastButtonState s = HIGH -> t_button inp = LOW -> dateActive s = false ->
  wellSized s ->
  let s1 := exec (buttonLogic inp) s in
  currentEffect s1 = afterPress (currentEffect s) /\
  currentEffect s1 <> EFFECT_STATIC /\
  currentEffect s1 <> EFFECT_PRIVATE_PULSE /\
  afterPress (afterPress (afterPress (afterPress (currentEffect s1))))
    = currentEffect s1 /\
  uniform 0 (strip s1) /\
  broadcasts (trace (buttonLogic inp) s) = 1%nat.
Proof.
  intros Hb Hp Hd Hs s1. destruct (wellSized_fields s Hs) as [Hpix _].
  subst s1. unfold buttonLogic. cbv zeta.
  rewrite exec_get_bind, trace_get_bind, exec_bind, exec_modify, exec_when.
  rewrite broadcasts_bind, trace_when.
  rewrite Hb, Hp, Hd. simpl (_ && _). cbv iota. fields.
  destruct (currentEffect s) eqn:E; simpl bool_decide; cbv iota.
  1-5: rewrite !exec_bind, !broadcasts_bind.
  1-5: simpl (Effect_of_Z _); simpl bool_decide; cbv iota.
  all: run_exec; fields.
  all: try (rewrite updateWeather_strip, updateWeather_mode; fields).
  all: repeat split; try discriminate; try reflexivity;
    try (apply clear_uniform; simpl; exact Hpix).
  unfold broadcasts. rewrite updateWeather_no_broadcast. reflexivity.
Qed.

Lemma button_press_rotates_witness :
  currentEffect
    (exec (buttonLogic pressTick) (set_currentEffect EFFECT_STATIC initialState))
  = EFFECT_FAVORITE.
Proof.
  exact (proj1 (button_press_rotates pressTick
                  (set_currentEffect EFFECT_STATIC initialState)
                  eq_refl eq_refl eq_refl eq_refl)).
Defined.

(** X10. The button is edge-triggered: while it is held down over
    consecutive ticks only the first tick acts; the later ones change
    nothing and emit nothing. *)
Theorem button_held_acts_once (inp1 inp2 : TickInput) (s : State) :
  t_button inp1 = LOW -> t_button inp2 = LOW ->
  exec (buttonLogic inp2) (exec (buttonLogic inp1) s)
    = exec (buttonLogic inp1) s /\
  trace (buttonLogic inp2) (exec (buttonLogic inp1) s) = [].
Proof.
  intros H1 H2.
  assert (Hl : exists s', exec (buttonLogic inp1) s = set_lastButtonState LOW s').
  { unfold buttonLogic. cbv zeta. rewrite exec_get_bind, exec_bind, exec_modify.
    rewrite H1. eauto. }
  destruct Hl as [s' Hl]. rewrite Hl.
  unfold buttonLogic. cbv zeta.
  rewrite exec_get_bind, trace_get_bind, exec_bind, trace_bind, exec_modify,
    exec_when, trace_when.
  fields. rewrite H2. split; reflexivity.
Qed.

Lemma button_held_acts_once_witness :
  exec (buttonLogic pressTick) (exec (buttonLogic pressTick) initialState)
  = exec (buttonLogic pressTick) initialState.
Proof.
  exact (proj1 (button_held_acts_once pressTick pressTick initialState
                  eq_refl eq_refl)).
Defined.

(** ** What a tick does without outside input *)

Lemma buttonLogic_no_edge inp s :
  lastButtonState s <> HIGH \/ t_button inp <> LOW ->
  exec (buttonLogic inp) s = set_lastButtonState (t_button inp) s /\
  trace (buttonLogic inp) s = [].
Proof.
  intros H. unfold buttonLogic. cbv zeta.
  rewrite exec_get_bind, trace_get_bind, exec_bind, trace_bind.
  rewrite exec_when, trace_when.
  replace ((lastButtonState s =? HIGH) && (t_button inp =? LOW)) with false.
  - split; reflexivity.
  - symmetry. apply andb_false_iff.
    destruct H as [H|H]; [left|right]; apply Z.eqb_neq; exact H.
Qed.

Lemma wifiWatchdog_mode inp : Preserves currentEffect (wifiWatchdog inp).
Proof. preserved. Qed.

Lemma dateCheck_mode inp : Preserves currentEffect (dateCheck inp).
Proof. preserved. Qed.

Lemma arbiter_mode inp : Preserves currentEffect (arbiter inp).
Proof. preserved. Qed.

(** X11. The mode is changed by explicit input only: a tick that takes no
    message from the feed and sees no button press leaves the mode as it
    was, whatever the clocks read and whether or not a special date
    starts or ends or an override expires in it. *)
Theorem tick_without_input_keeps_mode (inp : TickInput) (s : State) :
  t_messages inp = [] ->
  lastButtonState s <> HIGH \/ t_button inp <> LOW ->
  currentEffect (exec (loop inp) s) = currentEffect s.
Proof.
  intros Hm Hb.
  rewrite loop_exec, arbiter_mode, housekeeping_exec, dateCheck_mode, Hm.
  simpl mqttIncoming. rewrite exec_ret.
  assert (Hw : lastButtonState (exec (wifiWatchdog inp) s) = lastButtonState s).
  { apply (dateBook_fields _ _ (wifiWatchdog_dateBook inp s)). }
  destruct (buttonLogic_no_edge inp (exec (wifiWatchdog inp) s)) as [E _].
  { rewrite Hw. exact Hb. }
  rewrite E. fields. apply wifiWatchdog_mode.
Qed.

Lemma tick_without_input_keeps_mode_witness :
  currentEffect (exec (loop (laterTick 1000000))
                   (set_currentEffect EFFECT_PRIVATE_PULSE initialState))
  = currentEffect (set_currentEffect EFFECT_PRIVATE_PULSE initialState).
Proof.
  apply tick_without_input_keeps_mode.
  - reflexivity.
  - right. intros H. discriminate H.
Defined.

Lemma updateWeather_trace w s : trace (updateWeather w) s = [].
Proof.
  unfold updateWeather. cbv zeta. rewrite trace_get_bind, trace_when.
  destruct (weatherDue _ _); [|reflexivity].
  destruct (w_fetch w) as [| | |[c|] [q|]]; reflexivity.
Qed.

Lemma wifiWatchdog_strip inp : Preserves strip (wifiWatchdog inp).
Proof. preserved. Qed.

Lemma wifiWatchdog_shows inp s : shows (trace (wifiWatchdog inp) s) = [].
Proof.
  unfold wifiWatchdog. rewrite trace_get_bind, trace_when.
  destruct (30000 <? _); [|reflexivity].
  destruct (t_wifi_connected inp); reflexivity.
Qed.

Lemma dateCheck_calm_silent inp s :
  noDateToday inp -> dateActive s = false ->
  strip (exec (dateCheck inp) s) = strip s /\ trace (dateCheck inp) s = [].
Proof.
  intros Hn Hd. unfold dateCheck.
  rewrite exec_get_bind, trace_get_bind, exec_when, trace_when.
  destruct (DATE_CHECK_INTERVAL <=? _); [|split; reflexivity].
  rewrite !exec_bind, !trace_bind, exec_modify, updateWeather_strip,
    updateWeather_trace.
  unfold noDateToday in Hn. unfold checkStartDate.
  destruct (t_localtime inp) as [tm|]; [|split; reflexivity].
  cbv zeta. rewrite exec_get_bind, trace_get_bind, Hn.
  fields. rewrite Hd. split; reflexivity.
Qed.


(** ** Single pixels *)

Lemma u16_small i : 0 <= i < NUM_LEDS -> u16 i = i.
Proof.
  intros H. unfold u16. apply Z.mod_small.
  unfold NUM_LEDS in H. change (2 ^ 16) with 65536. lia.
Qed.

Lemma u8_small x : 0 <= x < 256 -> u8 x = x.
Proof. intros H. unfold u8. apply Z.mod_small. change (2 ^ 8) with 256. lia. Qed.

Lemma getPixelColor_same i c st :
  length (pixels st) = Z.to_nat NUM_LEDS -> 0 <= i < NUM_LEDS ->
  getPixelColor i (setPixelColor i c st) = Z.land c 16777215.
Proof.
  intros Hl Hi. unfold getPixelColor, setPixelColor.
  rewrite (u16_small i Hi).
  replace (i <? NUM_LEDS) with true by (symmetry; apply Z.ltb_lt; lia).
  cbn [pixels]. rewrite list_lookup_insert_eq by (rewrite Hl; lia).
  reflexivity.
Qed.

Lemma getPixelColor_other i j c st :
  0 <= i < NUM_LEDS -> 0 <= j < NUM_LEDS -> i <> j ->
  getPixelColor j (setPixelColor i c st) = getPixelColor j st.
Proof.
  intros Hi Hj Hne. unfold getPixelColor, setPixelColor.
  rewrite (u16_small i Hi), (u16_small j Hj).
  replace (i <? NUM_LEDS) with true by (symmetry; apply Z.ltb_lt; lia).
  replace (j <? NUM_LEDS) with true by (symmetry; apply Z.ltb_lt; lia).
  cbn [pixels]. rewrite list_lookup_insert_ne by lia. reflexivity.
Qed.

(** A [for] loop whose body rewrites pixel [i] from its own old value
    acts on each pixel of its range independently. *)
Lemma forRange_pointwise (g : Z -> Z -> Z) body :
  (forall i st, body i st = setPixelColor i (g i (getPixelColor i st)) st) ->
  forall count first st j,
    length (pixels st) = Z.to_nat NUM_LEDS ->
    0 <= first -> first + Z.of_nat count <= NUM_LEDS -> 0 <= j < NUM_LEDS ->
    getPixelColor j (forRange first count body st)
    = if (first <=? j) && (j <? first + Z.of_nat count)
      then Z.land (g j (getPixelColor j st)) 16777215
      else getPixelColor j st.
Proof.
  intros Hb. induction count as [|k IH]; intros first st j Hl Hf Hc Hj.
  - cbn [forRange]. destruct (first <=? j) eqn:E; [|reflexivity].
    replace (j <? first + Z.of_nat 0) with false
      by (symmetry; apply Z.ltb_ge; lia).
    reflexivity.
  - cbn [forRange]. rewrite IH; try lia.
    2:{ rewrite Hb, setPixelColor_size. exact Hl. }
    rewrite Hb. destruct (Z.eq_dec first j) as [->|Hne].
    + rewrite getPixelColor_same by (assumption || lia).
      replace (j + 1 <=? j) with false by (symmetry; apply Z.leb_gt; lia).
      replace (j <=? j) with true by (symmetry; apply Z.leb_le; lia).
      replace (j <? j + Z.of_nat (S k)) with true
        by (symmetry; apply Z.ltb_lt; lia).
      reflexivity.
    + rewrite getPixelColor_other by lia.
      replace (j <? first + 1 + Z.of_nat k) with (j <? first + Z.of_nat (S k))
        by (f_equal; lia).
      destruct (j <? first + Z.of_nat (S k)); rewrite ?andb_false_r;
        [|reflexivity].
      rewrite !andb_true_r.
      destruct (first + 1 <=? j) eqn:E1, (first <=? j) eqn:E2;
        try reflexivity; lia.
Qed.

Lemma forRange_brightness body :
  (forall i st, stripBrightness (body i st) = stripBrightness st) ->
  forall count first st,
    stripBrightness (forRange first count body st) = stripBrightness st.
Proof.
  intros Hb. induction count as [|k IH]; intros first st; cbn [forRange].
  - reflexivity.
  - rewrite IH. apply Hb.
Qed.

Lemma setPixelColor_brightness n c st :
  stripBrightness (setPixelColor n c st) = stripBrightness st.
Proof. unfold setPixelColor. case_match; reflexivity. Qed.

Lemma Color_24 r g b : Z.land (Color r g b) 16777215 = Color r g b.
Proof.
  rewrite land_24. apply Z.mod_small.
  destruct (Color_unpack r g b) as (_ & _ & _ & H).
  change (2 ^ 24) with 16777216 in H. exact H.
Qed.

Lemma channel_bound c : 0 <= red c < 256 /\ 0 <= green c < 256 /\ 0 <= blue c < 256.
Proof. unfold red, green, blue. repeat split; apply u8_bound. Qed.

(** One channel of a fade: the scaled value still fits a byte. *)
Lemma fade_channel x f :
  0 <= x < 256 ->
  u8 (Z.shiftr (x * (256 - u8 f)) 8) = x * (256 - u8 f) / 256 /\
  0 <= x * (256 - u8 f) / 256 /\
  x * (256 - u8 f) / 256 <= x /\
  (0 < u8 f -> 0 < x -> x * (256 - u8 f) / 256 < x).
Proof.
  intros Hx. pose proof (u8_bound f) as Hf. set (a := u8 f) in *.
  rewrite Z.shiftr_div_pow2 by lia. change (2 ^ 8) with 256.
  assert (H1 : x * (256 - a) / 256 <= x).
  { apply Z.div_le_upper_bound; nia. }
  assert (H0 : 0 <= x * (256 - a) / 256) by (apply Z.div_pos; nia).
  split; [unfold u8; apply Z.mod_small; change (2 ^ 8) with 256; lia|].
  split; [exact H0|]. split; [exact H1|].
  intros Ha Hp. apply Z.div_lt_upper_bound; nia.
Qed.

(** X12. [fadeStripToBlackBy] scales every channel of every pixel by
    [(256 - fadeAmount) / 256], rounding down: no channel ever grows, a
    non-zero channel strictly shrinks when the amount is not 0, black
    stays black, and the global brightness is untouched. *)
Theorem fade_never_brightens (f : Z) (st : Strip) (i : Z) :
  length (pixels st) = Z.to_nat NUM_LEDS -> 0 <= i < NUM_LEDS ->
  let c := getPixelColor i st in
  let c' := getPixelColor i (fadeStripToBlackBy f st) in
  red c' = red c * (256 - u8 f) / 256 /\
  green c' = green c * (256 - u8 f) / 256 /\
  blue c' = blue c * (256 - u8 f) / 256 /\
  red c' <= red c /\ green c' <= green c /\ blue c' <= blue c /\
  (0 < u8 f -> 0 < red c -> red c' < red c) /\
  (0 < u8 f -> 0 < green c -> green c' < green c) /\
  (0 < u8 f -> 0 < blue c -> blue c' < blue c) /\
  (c = 0 -> c' = 0) /\
  stripBrightness (fadeStripToBlackBy f st) = stripBrightness st.
Proof.
  intros Hl Hi c c'.
  assert (E : c' = Color (red c * (256 - u8 f) / 256)
                         (green c * (256 - u8 f) / 256)
                         (blue c * (256 - u8 f) / 256)).
  { subst c c'. unfold fadeStripToBlackBy, numPixels.
    rewrite (forRange_pointwise
               (fun _ p =>
                  Color (u8 (Z.shiftr (red p * (256 - u8 f)) 8))
                        (u8 (Z.shiftr (green p * (256 - u8 f)) 8))
                        (u8 (Z.shiftr (blue p * (256 - u8 f)) 8))));
      [|reflexivity|exact Hl|lia|unfold NUM_LEDS; simpl; lia|exact Hi].
    replace (0 <=? i) with true by (symmetry; apply Z.leb_le; lia).
    replace (i <? 0 + Z.of_nat (Z.to_nat NUM_LEDS)) with true
      by (symmetry; apply Z.ltb_lt; unfold NUM_LEDS in *; simpl; lia).
    cbn [andb]. rewrite Color_24.
    destruct (channel_bound (getPixelColor i st)) as (Hr & Hg & Hb).
    destruct (fade_channel _ f Hr) as (-> & _).
    destruct (fade_channel _ f Hg) as (-> & _).
    destruct (fade_channel _ f Hb) as (-> & _).
    reflexivity. }
  destruct (channel_bound c) as (Hr & Hg & Hb).
  destruct (fade_channel _ f Hr) as (_ & Pr & Lr & Sr).
  destruct (fade_channel _ f Hg) as (_ & Pg & Lg & Sg).
  destruct (fade_channel _ f Hb) as (_ & Pb & Lb & Sb).
  destruct (Color_unpack (red c * (256 - u8 f) / 256)
              (green c * (256 - u8 f) / 256)
              (blue c * (256 - u8 f) / 256)) as (Cr & Cg & Cb & _).
  rewrite <- E in Cr, Cg, Cb.
  rewrite (u8_small (red c * (256 - u8 f) / 256)) in Cr by lia.
  rewrite (u8_small (green c * (256 - u8 f) / 256)) in Cg by lia.
  rewrite (u8_small (blue c * (256 - u8 f) / 256)) in Cb by lia.
  split; [exact Cr|]. split; [exact Cg|]. split; [exact Cb|].
  split; [lia|]. split; [lia|]. split; [lia|].
  split; [intros; lia|]. split; [intros; lia|]. split; [intros; lia|].
  split.
  - intros H0. rewrite E, H0. reflexivity.
  - unfold fadeStripToBlackBy. apply forRange_brightness.
    intros. apply setPixelColor_brightness.
Qed.

Lemma fade_never_brightens_witness :
  let st := mkStrip (replicate 19 (Color 200 100 50)) 255 in
  red (getPixelColor 3 (fadeStripToBlackBy 20 st)) = 200 * (256 - u8 20) / 256.
Proof.
  intros st.
  apply (fade_never_brightens 20 st 3); [reflexivity|].
  split; [intros H; discriminate H|reflexivity].
Defined.

(** ** The weather kernel *)

Lemma setTempIndicator_pixels t st j :
  length (pixels st) = Z.to_nat NUM_LEDS -> 0 <= j < NUM_LEDS ->
  getPixelColor j (setTempIndicator t st)
  = if NUM_LEDS - 4 <=? j then tempColor t else getPixelColor j st.
Proof.
  intros Hl Hj. unfold setTempIndicator. cbv zeta.
  rewrite (forRange_pointwise (fun _ _ => tempColor t));
    [|reflexivity|exact Hl|unfold NUM_LEDS; lia|unfold NUM_LEDS; simpl; lia
     |exact Hj].
  replace (j <? NUM_LEDS - 4 + Z.of_nat 4) with true
    by (symmetry; apply Z.ltb_lt; unfold NUM_LEDS in *; simpl; lia).
  rewrite andb_true_r. destruct (NUM_LEDS - 4 <=? j); [|reflexivity].
  unfold tempColor. repeat case_match; apply Color_24.
Qed.

Lemma trace_show s : trace show s = [EvShow (strip s)].
Proof. reflexivity. Qed.

Lemma trace_modify g s : trace (modify g) s = [].
Proof. reflexivity. Qed.

Lemma trace_onStrip g s : trace (onStrip g) s = [].
Proof. reflexivity. Qed.

Lemma shows_snoc t st : shows (t ++ [EvShow st]) = shows t ++ [st].
Proof. unfold shows. rewrite omap_app. reflexivity. Qed.

(** The animation chosen by the weather condition. *)
Lemma weatherBranch_sizes ki isDay condition :
  Preserves sizes
    (if String.eqb condition "clear" then weatherClear ki isDay
     else if String.eqb condition "clouds" then weatherClouds ki isDay
     else if String.eqb condition "rain" || String.eqb condition "drizzle"
     then weatherRain ki isDay
     else if String.eqb condition "thunderstorm" then weatherThunderstorm ki isDay
     else if String.eqb condition "snow" then weatherSnow ki isDay
     else weatherDefault isDay).
Proof. unfold sizes. same_size. Qed.

Lemma weatherBranch_condition ki isDay condition :
  Preserves (fun s => (currentWeatherCondition s, lastWeatherAnimUpdate s))
    (if String.eqb condition "clear" then weatherClear ki isDay
     else if String.eqb condition "clouds" then weatherClouds ki isDay
     else if String.eqb condition "rain" || String.eqb condition "drizzle"
     then weatherRain ki isDay
     else if String.eqb condition "thunderstorm" then weatherThunderstorm ki isDay
     else if String.eqb condition "snow" then weatherSnow ki isDay
     else weatherDefault isDay).
Proof. preserved. Qed.

(** X13. The weather kernel redraws at most every 100 ms.  When it does,
    the temperature band is painted after the animation of whatever
    condition, so in the frame it pushes last the four top pixels always
    show the band of the stored temperature; the stored condition text is
    lower-cased in place. *)
Theorem weather_indicator_drawn_last (ki : KernelInput) (s : State) (j : Z) :
  wellSized s -> NUM_LEDS - 4 <= j < NUM_LEDS ->
  let s1 := exec (runWeatherMode ki) s in
  if elapsed (k_now ki) (lastWeatherAnimUpdate s) <? 100
  then s1 = s /\ trace (runWeatherMode ki) s = []
  else
    getPixelColor j (strip s1) = tempColor (currentTemperature s) /\
    lastShown (trace (runWeatherMode ki) s) = Some (strip s1) /\
    currentWeatherCondition s1 = toLowerCase (currentWeatherCondition s) /\
    lastWeatherAnimUpdate s1 = k_now ki.
Proof.
  intros Hs Hj s1. subst s1. unfold runWeatherMode. cbv zeta.
  rewrite exec_get_bind, trace_get_bind.
  destruct (elapsed (k_now ki) (lastWeatherAnimUpdate s) <? 100);
    [split; reflexivity|].
  repeat rewrite ?exec_bind, ?trace_bind.
  rewrite ?exec_show, ?exec_onStrip, ?exec_modify, ?trace_show.
  set (s0 := set_currentWeatherCondition _ (set_lastWeatherAnimUpdate _ s)).
  set (branch := if String.eqb _ "clear" then _ else _).
  pose proof (weatherBranch_sizes ki (isDayTime (k_hour ki))
                (toLowerCase (currentWeatherCondition s)) s0) as Hz.
  pose proof (weatherBranch_condition ki (isDayTime (k_hour ki))
                (toLowerCase (currentWeatherCondition s)) s0) as Hc.
  fold branch in Hz, Hc. fields.
  assert (Hl : length (pixels (strip (exec branch s0))) = Z.to_nat NUM_LEDS).
  { unfold sizes in Hz. injection Hz as Hz _. rewrite Hz. subst s0. fields.
    apply (wellSized_fields s Hs). }
  split; [|split; [|split]].
  - rewrite setTempIndicator_pixels by (assumption || unfold NUM_LEDS in *; lia).
    replace (NUM_LEDS - 4 <=? j) with true by (symmetry; apply Z.leb_le; lia).
    reflexivity.
  - unfold lastShown. rewrite !app_assoc, shows_snoc, last_snoc. reflexivity.
  - injection Hc as Hc _. exact Hc.
  - injection Hc as _ Hc. exact Hc.
Qed.

Lemma weather_indicator_drawn_last_witness :
  let ki := mkKernelInput 500 500 (Some 12) (fun _ => 0) (fun _ _ _ => 0) in
  let s := set_currentTemperature 72 (set_currentWeatherCondition "Rain" initialState) in
  getPixelColor 18 (strip (exec (runWeatherMode ki) s)) = Color 150 150 0.
Proof.
  intros ki s.
  pose proof (weather_indicator_drawn_last ki s 18 eq_refl) as H.
  cbv zeta in H.
  change (elapsed (k_now ki) (lastWeatherAnimUpdate s) <? 100) with false in H.
  apply H. split; [intros E; discriminate E|reflexivity].
Defined.

(** ** The pulse kernel *)

(** X14. One step of the pulse animation lights exactly one pixel, and
    always one of the strip: pink at index [phase] on the way up, red at
    [37 - phase] on the way down, where [phase] is the step counter modulo
    38.  No other pixel changes (the kernel never clears), the frame is
    pushed once and the counter advances by one. *)
Theorem pulse_lights_one_pixel (ki : KernelInput) (s : State) :
  wellSized s -> 0 <= pulseStep s < 2 ^ 31 - 1 ->
  100 < elapsed (k_now ki) (lastPulseUpdate s) ->
  let phase := Z.rem (pulseStep s) (NUM_LEDS * 2) in
  let i := if phase <? NUM_LEDS then phase else NUM_LEDS * 2 - 1 - phase in
  let s1 := exec (privatePulse ki) s in
  0 <= i < NUM_LEDS /\
  getPixelColor i (strip s1)
    = (if phase <? NUM_LEDS then Color 255 105 180 else Color 255 0 0) /\
  (forall j, 0 <= j < NUM_LEDS -> j <> i ->
             getPixelColor j (strip s1) = getPixelColor j (strip s)) /\
  shows (trace (privatePulse ki) s) = [strip s1] /\
  pulseStep s1 = pulseStep s + 1 /\
  lastPulseUpdate s1 = k_now2 ki.
Proof.
  intros Hs Hp Hf phase i s1.
  destruct (wellSized_fields s Hs) as [Hl _].
  assert (Hph : 0 <= phase < NUM_LEDS * 2).
  { subst phase. rewrite Z.rem_mod_nonneg by (unfold NUM_LEDS; lia).
    apply Z.mod_pos_bound. reflexivity. }
  assert (Hi : 0 <= i < NUM_LEDS).
  { subst i. unfold NUM_LEDS in *.
    destruct (phase <? 19) eqn:E; [apply Z.ltb_lt in E|apply Z.ltb_ge in E];
      lia. }
  assert (He : strip s1
               = setPixelColor i
                   (if phase <? NUM_LEDS then Color 255 105 180
                    else Color 255 0 0) (strip s) /\
               shows (trace (privatePulse ki) s) = [strip s1] /\
               pulseStep s1 = int32 (pulseStep s + 1) /\
               lastPulseUpdate s1 = k_now2 ki).
  { subst s1. unfold privatePulse.
    rewrite exec_get_bind, trace_get_bind, exec_when, trace_when.
    replace (100 <? elapsed (k_now ki) (lastPulseUpdate s)) with true
      by (symmetry; apply Z.ltb_lt; exact Hf).
    cbv zeta. fold phase. subst i.
    destruct (phase <? NUM_LEDS); repeat split. }
  destruct He as (E1 & E2 & E3 & E4).
  split; [exact Hi|]. split; [|split; [|split; [|split]]].
  - rewrite E1, getPixelColor_same by assumption.
    destruct (phase <? NUM_LEDS); apply Color_24.
  - intros j Hj Hne. rewrite E1. apply getPixelColor_other; auto.
  - exact E2.
  - rewrite E3. unfold int32. change (2 ^ 31) with 2147483648 in *.
    change (2 ^ 32) with 4294967296. rewrite Z.mod_small; lia.
  - exact E4.
Qed.

Lemma pulse_lights_one_pixel_witness :
  let ki := mkKernelInput 1000 1001 None (fun _ => 0) (fun _ _ _ => 0) in
  let s := set_pulseStep 20 initialState in
  getPixelColor 17 (strip (exec (privatePulse ki) s)) = Color 255 0 0.
Proof.
  intros ki s.
  assert (Hp : 0 <= pulseStep s < 2 ^ 31 - 1)
    by (split; [intros H; discriminate H|reflexivity]).
  assert (Hf : 100 < elapsed (k_now ki) (lastPulseUpdate s)) by reflexivity.
  exact (proj1 (proj2 (pulse_lights_one_pixel ki s eq_refl Hp Hf))).
Defined.

(** ** Invariants of the runs *)

Section Invariants.

Context (I : State -> Prop).

Lemma Keeps_ret {A : Type} (a : A) : Keeps I (ret a).
Proof. intros s H; exact H. Qed.

Lemma Keeps_get : Keeps I get.
Proof. intros s H; exact H. Qed.

Lemma Keeps_emit e : Keeps I (emit e).
Proof. intros s H; exact H. Qed.

Lemma Keeps_modify g : (forall s, I s -> I (g s)) -> Keeps I (modify g).
Proof. intros H s; apply H. Qed.

Lemma Keeps_bind {A B : Type} (m : M A) (k : A -> M B) :
  Keeps I m -> (forall a, Keeps I (k a)) -> Keeps I (bind m k).
Proof. intros Hm Hk s H. rewrite exec_bind. apply Hk, Hm, H. Qed.

Lemma Keeps_when b (m : M unit) : Keeps I m -> Keeps I (when b m).
Proof. intros H; destruct b; [exact H|apply Keeps_ret]. Qed.

Lemma Keeps_run code :
  (forall inp, Keeps I (loop inp)) ->
  (forall type d, Keeps I (onWsEvent code type d)) ->
  forall steps, Keeps I (run code steps).
Proof.
  intros Hl Hw. induction steps as [|st rest IH]; intros s H; [exact H|].
  rewrite run_cons. apply IH. destruct st; [apply Hl|apply Hw]; exact H.
Qed.

End Invariants.

Lemma Keeps_observed {X A : Type} (f : State -> X) (P : X -> Prop) (m : M A) :
  Preserves f m -> Keeps (fun s => P (f s)) m.
Proof. intros Hp s H. rewrite Hp. exact H. Qed.

(** *** The fade cursor *)

Lemma cursorOK_cursor s s' : cursor s' = cursor s -> cursorOK s -> cursorOK s'.
Proof.
  unfold cursor, cursorOK. intros E. injection E as -> ->. auto.
Qed.

Lemma Keeps_cursor {A : Type} (m : M A) : Preserves cursor m -> Keeps cursorOK m.
Proof. intros Hp s H. apply (cursorOK_cursor s); [apply Hp|exact H]. Qed.

(** Setting the cursor to a fresh start, as the feed, the button and
    [setmode] do. *)
Lemma cursorOK_reset b (s' : State) :
  brightness s' = b -> brightnessStep s' = 5 ->
  0 <= b < 255 -> b mod 5 = 0 -> cursorOK s'.
Proof.
  intros Hv Hs Hb Hm. unfold cursorOK. rewrite Hs, Hv.
  repeat split; try lia; auto.
Qed.

Ltac cursor_preserved := apply Keeps_cursor; unfold cursor; preserved.

Lemma onGeofenceMessage_cursor payload now :
  Keeps cursorOK (onGeofenceMessage payload now).
Proof.
  intros s H. unfold onGeofenceMessage. cbv zeta.
  repeat case_match; run_exec.
  all: try (apply (cursorOK_reset 0); [reflexivity|reflexivity|lia|reflexivity]).
  all: apply (cursorOK_cursor s); [reflexivity|exact H].
Qed.

Lemma mqttIncoming_cursor msgs : Keeps cursorOK (mqttIncoming msgs).
Proof.
  induction msgs as [|[payload now] r IH]; simpl.
  - apply Keeps_ret.
  - apply Keeps_bind; [apply onGeofenceMessage_cursor|intros _; exact IH].
Qed.

Lemma updateWeather_cursor w : Preserves cursor (updateWeather w).
Proof. unfold cursor. preserved. Qed.

Lemma buttonLogic_cursor inp : Keeps cursorOK (buttonLogic inp).
Proof.
  intros s H. unfold buttonLogic. cbv zeta.
  rewrite exec_get_bind, exec_bind, exec_modify, exec_when.
  match goal with
  | |- cursorOK (set_lastButtonState _ ?x) =>
      apply (cursorOK_cursor x); [reflexivity|]
  end.
  destruct (_ && _); [|exact H].
  destruct (dateActive s).
  { apply (cursorOK_cursor s); [|exact H].
    run_exec. destruct (_ && _); reflexivity. }
  destruct (bool_decide (currentEffect s = EFFECT_PRIVATE_PULSE)).
  { run_exec. apply (cursorOK_reset 60); [reflexivity|reflexivity|lia|reflexivity]. }
  run_exec.
  match goal with
  | |- cursorOK (set_strip _ ?x) => apply (cursorOK_cursor x); [reflexivity|]
  end.
  destruct (bool_decide (_ = EFFECT_BREATH)).
  { run_exec. apply (cursorOK_reset 60); [reflexivity|reflexivity|lia|reflexivity]. }
  destruct (bool_decide (_ = EFFECT_WEATHER)).
  - apply (cursorOK_cursor s); [|exact H]. rewrite updateWeather_cursor. reflexivity.
  - exact H.
Qed.

Lemma wifiWatchdog_cursor inp : Keeps cursorOK (wifiWatchdog inp).
Proof. cursor_preserved. Qed.

Lemma dateCheck_cursor inp : Keeps cursorOK (dateCheck inp).
Proof. cursor_preserved. Qed.

(** The step shared by [runArrive] and [runLeave]. *)
Lemma int32_small z : - 2 ^ 31 <= z < 2 ^ 31 -> int32 z = z.
Proof.
  intros H. unfold int32. change (2 ^ 31) with 2147483648 in *.
  change (2 ^ 32) with 4294967296. rewrite Z.mod_small; lia.
Qed.

Lemma stepBrightness_exec s :
  cursorOK s ->
  let s1 := exec stepBrightness s in
  cursorOK s1 /\ Z.abs (brightness s1 - brightness s) = 5 /\
  forall s', cursor s' = cursor s ->
             cursor (exec stepBrightness s') = cursor s1.
Proof.
  intros (Hr & Hm & Hst & H0 & H255) s1.
  assert (E : forall s', cursor s' = cursor s ->
                cursor (exec stepBrightness s')
                = (brightness s + brightnessStep s,
                   if (brightness s + brightnessStep s <=? 0)
                      || (255 <=? brightness s + brightnessStep s)
                   then - brightnessStep s else brightnessStep s)).
  { intros s' Hc. unfold cursor in Hc. injection Hc as Hb Hs.
    unfold stepBrightness. run_exec. unfold cursor. fields.
    rewrite Hb, Hs, (int32_small (brightness s + brightnessStep s))
      by (change (2 ^ 31) with 2147483648; lia).
    destruct (_ || _); fields; rewrite ?Hb, ?Hs; [|reflexivity].
    rewrite int32_small by (change (2 ^ 31) with 2147483648; lia).
    reflexivity. }
  pose proof (E s eq_refl) as Es. fold s1 in Es.
  unfold cursor in Es. injection Es as Eb Et.
  split; [|split].
  - unfold cursorOK. rewrite Eb, Et.
    assert (Hq : brightness s = 5 * (brightness s / 5))
      by (pose proof (Z.div_mod (brightness s) 5); lia).
    set (q := brightness s / 5) in *.
    destruct Hst as [Hst|Hst]; rewrite Hst in *.
    + assert (brightness s <> 255) by (intros E5; apply H255 in E5; lia).
      assert (Hm' : (brightness s + 5) mod 5 = 0).
      { rewrite Hq. replace (5 * q + 5) with ((q + 1) * 5) by lia.
        apply Z.mod_mul. lia. }
      destruct (brightness s + 5 <=? 0) eqn:E1;
        [apply Z.leb_le in E1; lia|apply Z.leb_gt in E1].
      destruct (255 <=? brightness s + 5) eqn:E2;
        [apply Z.leb_le in E2|apply Z.leb_gt in E2]; cbn [orb];
        repeat split; try lia; auto.
    + assert (brightness s <> 0) by (intros E5; apply H0 in E5; lia).
      assert (Hm' : (brightness s + -5) mod 5 = 0).
      { rewrite Hq. replace (5 * q + -5) with ((q - 1) * 5) by lia.
        apply Z.mod_mul. lia. }
      destruct (255 <=? brightness s + -5) eqn:E2;
        [apply Z.leb_le in E2; lia|apply Z.leb_gt in E2].
      destruct (brightness s + -5 <=? 0) eqn:E1;
        [apply Z.leb_le in E1|apply Z.leb_gt in E1]; cbn [orb];
        repeat split; try lia; auto.
  - rewrite Eb. destruct Hst as [-> | ->]; lia.
  - intros s' Hc. rewrite (E s' Hc). symmetry. exact (E s eq_refl).
Qed.

Lemma stepBrightness_cursor : Keeps cursorOK stepBrightness.
Proof. intros s H. apply (stepBrightness_exec s H). Qed.

Lemma fillAll_cursor c : Keeps cursorOK (fillAll c).
Proof. cursor_preserved. Qed.

Lemma runArrive_cursor ki : Keeps cursorOK (runArrive ki).
Proof.
  unfold runArrive. cbv zeta.
  apply Keeps_bind; [apply Keeps_get|intros s0]. apply Keeps_when.
  apply Keeps_bind; [cursor_preserved|intros _].
  apply Keeps_bind; [apply stepBrightness_cursor|intros _].
  cursor_preserved.
Qed.

Lemma runLeave_cursor ki : Keeps cursorOK (runLeave ki).
Proof.
  unfold runLeave. cbv zeta.
  apply Keeps_bind; [apply Keeps_get|intros s0]. apply Keeps_when.
  apply Keeps_bind; [cursor_preserved|intros _].
  apply Keeps_bind; [apply stepBrightness_cursor|intros _].
  cursor_preserved.
Qed.

Lemma favColor_cursor_exec ki s :
  cursor (exec (favColor ki) s)
  = if 10 <=? elapsed (k_now ki) (lastColorUpdate s)
    then breathCursor (cursor s) else cursor s.
Proof.
  unfold favColor. cbv zeta. run_exec. fields.
  match goal with
  | |- cursor (if ?c then _ else ?x) = _ =>
      transitivity (cursor x); [destruct c; reflexivity|]
  end.
  destruct (10 <=? _); [|reflexivity].
  unfold cursor, breathCursor. fields. cbv zeta. cbn [fst snd].
  destruct (255 <=? _); [reflexivity|].
  destruct (_ <=? 50); reflexivity.
Qed.

Lemma breathCursor_range c :
  50 <= fst (breathCursor c) <= 255 /\
  Z.abs (snd (breathCursor c)) = Z.abs (snd c) /\
  (fst (breathCursor c) = 255 -> snd (breathCursor c) <= 0) /\
  (fst (breathCursor c) = 50 -> 0 <= snd (breathCursor c)).
Proof.
  unfold breathCursor. cbv zeta.
  destruct (255 <=? _) eqn:E1; [apply Z.leb_le in E1|apply Z.leb_gt in E1].
  { cbn [fst snd]. repeat split; lia. }
  destruct (_ <=? 50) eqn:E2; [apply Z.leb_le in E2|apply Z.leb_gt in E2].
  { cbn [fst snd]. repeat split; lia. }
  cbn [fst snd]. repeat split; lia.
Qed.

Lemma favColor_cursor ki : Keeps cursorOK (favColor ki).
Proof.
  intros s (Hr & Hm & Hst & H0 & H255).
  pose proof (favColor_cursor_exec ki s) as E.
  destruct (10 <=? _).
  2:{ apply (cursorOK_cursor s); [exact E|]. unfold cursorOK. auto. }
  unfold cursor, breathCursor in E. cbv zeta in E. cbn [fst snd] in E.
  rewrite (int32_small (brightness s + brightnessStep s)) in E
    by (change (2 ^ 31) with 2147483648; lia).
  assert (Hq : brightness s = 5 * (brightness s / 5))
    by (pose proof (Z.div_mod (brightness s) 5); lia).
  assert (Hm' : (brightness s + brightnessStep s) mod 5 = 0).
  { rewrite Hq. set (q := brightness s / 5).
    destruct Hst as [-> | ->].
    - replace (5 * q + 5) with ((q + 1) * 5) by lia. apply Z.mod_mul. lia.
    - replace (5 * q + -5) with ((q - 1) * 5) by lia. apply Z.mod_mul. lia. }
  unfold cursorOK.
  destruct (255 <=? _) eqn:E1; [apply Z.leb_le in E1|apply Z.leb_gt in E1].
  { injection E as -> ->. repeat split; lia. }
  destruct (_ <=? 50) eqn:E2; [apply Z.leb_le in E2|apply Z.leb_gt in E2].
  { injection E as -> ->. repeat split; lia. }
  injection E as -> ->. repeat split; try lia; auto.
Qed.

Lemma arbiter_cursor inp : Keeps cursorOK (arbiter inp).
Proof.
  unfold arbiter. cbv zeta.
  apply Keeps_bind; [apply Keeps_get|intros s].
  destruct (dateActive s); [cursor_preserved|].
  destruct (negb _).
  { apply Keeps_bind; [|intros _; cursor_preserved].
    destruct (currentGeoState s); cbn [geoKernel].
    - apply Keeps_ret.
    - apply Keeps_bind; [apply Keeps_emit|intros _; apply runArrive_cursor].
    - cursor_preserved.
    - apply Keeps_bind; [apply Keeps_emit|intros _; apply runLeave_cursor].
    - cursor_preserved. }
  destruct (bool_decide _); [cursor_preserved|].
  apply Keeps_bind; [|intros _; apply Keeps_emit].
  destruct (currentEffect s); cbn [baselineKernel].
  - apply Keeps_bind; [apply Keeps_emit|intros _; apply favColor_cursor].
  - cursor_preserved.
  - cursor_preserved.
  - cursor_preserved.
  - apply Keeps_ret.
  - apply Keeps_ret.
Qed.

Lemma loop_cursor inp : Keeps cursorOK (loop inp).
Proof.
  unfold loop, housekeeping.
  repeat (apply Keeps_bind; [|intros _]);
    auto using wifiWatchdog_cursor, mqttIncoming_cursor, buttonLogic_cursor,
               dateCheck_cursor, arbiter_cursor.
Qed.

Lemma doSetMode_cursor doc : Keeps cursorOK (doSetMode doc).
Proof.
  intros s H. unfold doSetMode.
  destruct (cstr "value" doc) as [modeVal|]; [|exact H].
  cbv zeta. rewrite exec_get_bind, exec_when.
  destruct (negb _); [|exact H].
  run_exec.
  match goal with
  | |- cursorOK (set_strip _ ?x) => apply (cursorOK_cursor x); [reflexivity|]
  end.
  destruct (bool_decide _); [|exact H].
  run_exec. apply (cursorOK_reset 0); [reflexivity|reflexivity|lia|reflexivity].
Qed.

Lemma onWsEvent_cursor code type d : Keeps cursorOK (onWsEvent code type d).
Proof.
  unfold onWsEvent. destruct type; try apply Keeps_ret; [cursor_preserved|].
  cbv zeta. destruct (_ && _); [|apply Keeps_ret].
  destruct (ws_json d) as [doc|]; [|apply Keeps_ret].
  destruct (cstr "action" doc) as [action|]; [|apply Keeps_ret].
  unfold dispatchAction.
  destruct (String.eqb _ "setcolor"); [cursor_preserved|].
  destruct (String.eqb _ "setbrightness"); [cursor_preserved|].
  destruct (String.eqb _ "setmode"); [apply doSetMode_cursor|].
  cursor_preserved.
Qed.

Lemma cursorOK_initial : cursorOK initialState.
Proof.
  unfold cursorOK. cbn. repeat split; try lia; try (intros H; discriminate H).
Qed.

Lemma cursorOK_run code steps : Keeps cursorOK (run code steps).
Proof. apply Keeps_run; [apply loop_cursor|apply onWsEvent_cursor]. Qed.

(** X15. In every state reached from power-on, by any sequence of loop
    iterations and dashboard events, the fade cursor shared by
    [favColor], [runArrive] and [runLeave] is a multiple of 5 between 0
    and 255 and its step is 5 or -5: the additions never overflow, and
    the narrowing to a color channel never wraps. *)
Theorem brightness_cursor_in_range (code : string) (steps : list Step) :
  let s := exec (run code steps) initialState in
  0 <= brightness s <= 255 /\ brightness s mod 5 = 0 /\
  (brightnessStep s = 5 \/ brightnessStep s = -5) /\
  u8 (brightness s) = brightness s.
Proof.
  intros s.
  destruct (cursorOK_run code steps initialState cursorOK_initial)
    as (Hr & Hm & Hst & _).
  fold s in Hr, Hm, Hst. repeat split; try lia; auto.
  apply u8_small. lia.
Qed.

(** ** The geofence and Breath kernels *)

Lemma fillAll_uniform (c : Z) (st : Strip) :
  length (pixels st) = Z.to_nat NUM_LEDS ->
  pixels (forRange 0 (Z.to_nat NUM_LEDS) (fun i => setPixelColor i c) st)
  = replicate (Z.to_nat NUM_LEDS) (Z.land c 16777215).
Proof.
  intros H. destruct (nineteen_pixels _ H) as
      (x0&x1&x2&x3&x4&x5&x6&x7&x8&x9&x10&x11&x12&x13&x14&x15&x16&x17&x18&Hl).
  destruct st as [l b]. simpl in Hl. subst l. reflexivity.
Qed.

Lemma exec_fillAll c s :
  exec (fillAll c) s
  = set_strip (forRange 0 (Z.to_nat NUM_LEDS) (fun i => setPixelColor i c)
                 (strip s)) s.
Proof. reflexivity. Qed.

Lemma trace_fillAll c s : trace (fillAll c) s = [].
Proof. reflexivity. Qed.

Lemma stepBrightness_strip : Preserves strip stepBrightness.
Proof. preserved. Qed.

Lemma trace_stepBrightness s : trace stepBrightness s = [].
Proof. reflexivity. Qed.

(** What a fading geofence kernel does when its interval has passed,
    for the color built from the cursor by [paint]. *)
Lemma fading_kernel (paint : Z -> Z) (set_last : Z -> State -> State) now s :
  (forall v x, strip (set_last v x) = strip x) ->
  (forall v x, cursor (set_last v x) = cursor x) ->
  wellSized s -> cursorOK s ->
  let m := modify (set_last now) ;;
           stepBrightness ;;
           s' <- get ;;
           fillAll (paint (brightness s')) ;;
           show in
  let s1 := exec m s in
  uniform (Z.land (paint (brightness s1)) 16777215) (strip s1) /\
  0 <= brightness s1 <= 255 /\
  Z.abs (brightness s1 - brightness s) = 5 /\
  shows (trace m s) = [strip s1].
Proof.
  intros Hst Hcu Hs Hc m s1.
  destruct (wellSized_fields s Hs) as [Hl _].
  destruct (stepBrightness_exec s Hc) as (Hc1 & Hd & Hsame).
  pose proof (Hsame (set_last now s) (Hcu now s)) as E.
  set (s2 := exec stepBrightness (set_last now s)) in *.
  assert (Hs1 : s1 = set_strip
                       (forRange 0 (Z.to_nat NUM_LEDS)
                          (fun i => setPixelColor i (paint (brightness s2)))
                          (strip s2)) s2).
  { reflexivity. }
  assert (Hb : brightness s1 = brightness (exec stepBrightness s)).
  { rewrite Hs1. fields. unfold cursor in E. injection E as E _. exact E. }
  assert (Hl2 : length (pixels (strip s2)) = Z.to_nat NUM_LEDS).
  { unfold s2. rewrite stepBrightness_strip, Hst. exact Hl. }
  split; [|split; [|split]].
  - assert (Hp : strip s1 = forRange 0 (Z.to_nat NUM_LEDS)
                             (fun i => setPixelColor i (paint (brightness s2)))
                             (strip s2)) by (rewrite Hs1; reflexivity).
    assert (Hb2 : brightness s1 = brightness s2) by (rewrite Hs1; reflexivity).
    unfold uniform. rewrite Hp, Hb2. apply fillAll_uniform. exact Hl2.
  - rewrite Hb. apply Hc1.
  - rewrite Hb. exact Hd.
  - rewrite Hs1. reflexivity.
Qed.

(** X16. The two fading geofence kernels: when the interval
    [effectDelay] has passed, [runArrive] moves the cursor by 5 and
    pushes one frame in which every pixel is the pure green whose channel
    value is the cursor itself, and [runLeave] does the same in blue; in
    states reached from power-on the channel never wraps. *)
Theorem fading_kernels_track_cursor (ki : KernelInput) (s : State) :
  wellSized s -> cursorOK s ->
  u32 (effectDelay s) <= elapsed (k_now ki) (lastArriveUpdate s) ->
  u32 (effectDelay s) <= elapsed (k_now ki) (lastLeaveUpdate s) ->
  let a := exec (runArrive ki) s in
  let l := exec (runLeave ki) s in
  (uniform (Color 0 (brightness a) 0) (strip a) /\
   green (Color 0 (brightness a) 0) = brightness a /\
   Z.abs (brightness a - brightness s) = 5 /\
   shows (trace (runArrive ki) s) = [strip a]) /\
  (uniform (Color 0 0 (brightness l)) (strip l) /\
   blue (Color 0 0 (brightness l)) = brightness l /\
   Z.abs (brightness l - brightness s) = 5 /\
   shows (trace (runLeave ki) s) = [strip l]).
Proof.
  intros Hs Hc Ha Hl a l. split.
  - destruct (fading_kernel (fun b => Color 0 b 0) set_lastArriveUpdate
                (k_now ki) s) as (U & R & D & T); auto.
    assert (Ea : a = exec (modify (set_lastArriveUpdate (k_now ki)) ;;
                           stepBrightness ;;
                           s' <- get ;;
                           fillAll (Color 0 (brightness s') 0) ;;
                           show) s).
    { subst a. unfold runArrive. cbv zeta. rewrite exec_get_bind, exec_when.
      replace (u32 (effectDelay s) <=? _) with true
        by (symmetry; apply Z.leb_le; exact Ha).
      reflexivity. }
    rewrite <- Ea in U, R, D, T. rewrite Color_24 in U.
    split; [exact U|]. split; [|split; [exact D|]].
    + destruct (Color_unpack 0 (brightness a) 0) as (_ & -> & _).
      apply u8_small. lia.
    + unfold runArrive. cbv zeta. rewrite trace_get_bind, trace_when.
      replace (u32 (effectDelay s) <=? _) with true
        by (symmetry; apply Z.leb_le; exact Ha).
      exact T.
  - destruct (fading_kernel (fun b => Color 0 0 b) set_lastLeaveUpdate
                (k_now ki) s) as (U & R & D & T); auto.
    assert (El : l = exec (modify (set_lastLeaveUpdate (k_now ki)) ;;
                           stepBrightness ;;
                           s' <- get ;;
                           fillAll (Color 0 0 (brightness s')) ;;
                           show) s).
    { subst l. unfold runLeave. cbv zeta. rewrite exec_get_bind, exec_when.
      replace (u32 (effectDelay s) <=? _) with true
        by (symmetry; apply Z.leb_le; exact Hl).
      reflexivity. }
    rewrite <- El in U, R, D, T. rewrite Color_24 in U.
    split; [exact U|]. split; [|split; [exact D|]].
    + destruct (Color_unpack 0 0 (brightness l)) as (_ & _ & -> & _).
      apply u8_small. lia.
    + unfold runLeave. cbv zeta. rewrite trace_get_bind, trace_when.
      replace (u32 (effectDelay s) <=? _) with true
        by (symmetry; apply Z.leb_le; exact Hl).
      exact T.
Qed.

Lemma fading_kernels_track_cursor_witness :
  let ki := mkKernelInput 1000 1000 None (fun _ => 0) (fun _ _ _ => 0) in
  uniform (Color 0 55 0) (strip (exec (runArrive ki) initialState)).
Proof.
  intros ki.
  assert (Hc : cursorOK initialState)
    by (unfold cursorOK; cbn; repeat split; try lia;
        intros H; discriminate H).
  assert (Ha : u32 (effectDelay initialState)
               <= elapsed (k_now ki) (lastArriveUpdate initialState))
    by (vm_compute; intros H; discriminate H).
  assert (Hl : u32 (effectDelay initialState)
               <= elapsed (k_now ki) (lastLeaveUpdate initialState))
    by (vm_compute; intros H; discriminate H).
  exact (proj1 (proj1 (fading_kernels_track_cursor ki initialState
                         eq_refl Hc Ha Hl))).
Defined.

(** X17. One breath update of [favColor] puts the cursor into 50..255
    whatever it was before (also right after an override left it at 0),
    keeps the size of the step, and at either end the step points back
    inward. *)
Theorem favColor_breath_range (ki : KernelInput) (s : State) :
  10 <= elapsed (k_now ki) (lastColorUpdate s) ->
  let s1 := exec (favColor ki) s in
  50 <= brightness s1 <= 255 /\
  Z.abs (brightnessStep s1) = Z.abs (brightnessStep s) /\
  (brightness s1 = 255 -> brightnessStep s1 <= 0) /\
  (brightness s1 = 50 -> 0 <= brightnessStep s1).
Proof.
  intros Hf s1. pose proof (favColor_cursor_exec ki s) as E. fold s1 in E.
  replace (10 <=? _) with true in E by (symmetry; apply Z.leb_le; exact Hf).
  pose proof (breathCursor_range (cursor s)) as R. rewrite <- E in R.
  exact R.
Qed.

Lemma favColor_breath_range_witness :
  let ki := mkKernelInput 1000 1000 None (fun _ => 0) (fun _ _ _ => 0) in
  let s := set_brightness 0 initialState in
  50 <= brightness (exec (favColor ki) s) <= 255.
Proof.
  intros ki s. apply (favColor_breath_range ki s).
  vm_compute. intros H. discriminate H.
Defined.

(** The hue [favColor] computes for pixel [i] at animation position
    [pos]. *)
Lemma favColor_hue_range pos i :
  let totalOffset := u32 (pos * 700 + i * 1000) in
  let restrictedOffset := u16 (totalOffset mod 65536 * 30000 / 65536) in
  30000 <= u16 (30000 + restrictedOffset) < 60000 /\
  u16 (30000 + restrictedOffset)
  = 30000 + totalOffset mod 65536 * 30000 / 65536.
Proof.
  cbv zeta. set (t := u32 _ mod 65536).
  assert (Ht : 0 <= t < 65536) by (apply Z.mod_pos_bound; reflexivity).
  assert (H0 : 0 <= t * 30000 / 65536) by (apply Z.div_pos; lia).
  assert (H1 : t * 30000 / 65536 < 30000)
    by (apply Z.div_lt_upper_bound; lia).
  unfold u16. change (2 ^ 16) with 65536.
  rewrite (Z.mod_small (t * 30000 / 65536)) by lia.
  rewrite Z.mod_small by lia. lia.
Qed.

(** X18. When the 30 ms flow interval of [favColor] has passed, every
    pixel of the frame it pushes is an HSV color of saturation 155 whose
    hue lies in 30000..59999, whatever the animation position; the value
    is the cursor after this call's breath update. *)
Theorem favColor_hue_band (ki : KernelInput) (s : State) (i : Z) :
  wellSized s -> 0 <= i < NUM_LEDS ->
  30 <= elapsed (k_now ki) (lastFavColorUpdate s) ->
  let s1 := exec (favColor ki) s in
  exists hue,
    30000 <= hue < 60000 /\
    getPixelColor i (strip s1)
    = Z.land (k_ColorHSV ki hue 155 (u8 (brightness s1))) 16777215 /\
    lastShown (trace (favColor ki) s) = Some (strip s1) /\
    animPos s1 = int32 (animPos s + 1).
Proof.
  intros Hs Hi Hf s1. destruct (wellSized_fields s Hs) as [Hl _].
  set (mid := exec (when (10 <=? elapsed (k_now ki) (lastColorUpdate s))
                      (modify (set_lastColorUpdate (k_now ki)) ;;
                       modify (fun s => set_brightness
                                 (int32 (brightness s + brightnessStep s)) s) ;;
                       modify (fun s =>
                         if 255 <=? brightness s
                         then set_brightnessStep (- Z.abs (brightnessStep s))
                                (set_brightness 255 s)
                         else if brightness s <=? 50
                         then set_brightnessStep (Z.abs (brightnessStep s))
                                (set_brightness 50 s)
                         else s)))
                (set_strip (setBrightness 255 (strip s)) s)).
  assert (Hmid : strip mid = setBrightness 255 (strip s) /\
                 animPos mid = animPos s /\
                 lastFavColorUpdate mid = lastFavColorUpdate s).
  { subst mid. rewrite exec_when. destruct (10 <=? _); [|repeat split].
    run_exec. fields. destruct (255 <=? _); [repeat split|].
    destruct (_ <=? 50); repeat split. }
  destruct Hmid as (M1 & M2 & M3).
  set (body := fun i0 : Z =>
         setPixelColor i0
           (k_ColorHSV ki
              (u16 (30000 + u16 (u32 (animPos mid * 700 + i0 * 1000)
                                   mod 65536 * 30000 / 65536)))
              155 (u8 (brightness mid)))).
  assert (E : s1 = set_strip (setBrightness 255
                                (forRange 0 (Z.to_nat NUM_LEDS) body (strip mid)))
                     (set_animPos (int32 (animPos mid + 1))
                        (set_lastFavColorUpdate (k_now ki) mid)) /\
              trace (favColor ki) s
              = [EvShow (forRange 0 (Z.to_nat NUM_LEDS) body (strip mid))]).
  { subst s1. unfold favColor. cbv zeta. split.
    - rewrite exec_bind, exec_onStrip, exec_get_bind, exec_bind.
      cbn [lastColorUpdate set_strip]. fold mid.
      rewrite exec_get_bind, exec_when, M3.
      replace (30 <=? _) with true by (symmetry; apply Z.leb_le; exact Hf).
      reflexivity.
    - rewrite trace_bind, trace_onStrip, exec_onStrip, trace_get_bind,
        trace_bind.
      cbn [lastColorUpdate set_strip]. fold mid.
      rewrite trace_get_bind, trace_when, M3.
      replace (30 <=? _) with true by (symmetry; apply Z.leb_le; exact Hf).
      rewrite trace_when. destruct (10 <=? _); reflexivity. }
  destruct E as [E1 E2].
  destruct (favColor_hue_range (animPos mid) i) as [Hh _].
  cbv zeta in Hh.
  exists (u16 (30000 + u16 (u32 (animPos mid * 700 + i * 1000)
                              mod 65536 * 30000 / 65536))).
  split; [exact Hh|].
  assert (Hb : brightness s1 = brightness mid) by (rewrite E1; reflexivity).
  assert (Hp : strip s1 = setBrightness 255
                 (forRange 0 (Z.to_nat NUM_LEDS) body (strip mid)))
    by (rewrite E1; reflexivity).
  split; [|split].
  - rewrite Hp, Hb.
    change (getPixelColor i (setBrightness 255 ?x)) with (getPixelColor i x).
    rewrite (forRange_pointwise
               (fun i0 _ =>
                  k_ColorHSV ki
                    (u16 (30000 + u16 (u32 (animPos mid * 700 + i0 * 1000)
                                         mod 65536 * 30000 / 65536)))
                    155 (u8 (brightness mid))));
      [|reflexivity|rewrite M1; exact Hl|lia|unfold NUM_LEDS; simpl; lia
       |exact Hi].
    replace (0 <=? i) with true by (symmetry; apply Z.leb_le; lia).
    replace (i <? 0 + Z.of_nat (Z.to_nat NUM_LEDS)) with true
      by (symmetry; apply Z.ltb_lt; unfold NUM_LEDS in *; simpl; lia).
    reflexivity.
  - rewrite E2, Hp. unfold lastShown. cbn [shows omap showOf last].
    f_equal.
    assert (Hbr : stripBrightness
                    (forRange 0 (Z.to_nat NUM_LEDS) body (strip mid)) = u8 255).
    { rewrite forRange_brightness
        by (intros; apply setPixelColor_brightness).
      rewrite M1. reflexivity. }
    destruct (forRange 0 (Z.to_nat NUM_LEDS) body (strip mid)) as [px br].
    cbn [stripBrightness] in Hbr. subst br. reflexivity.
  - rewrite E1. fields. rewrite M2. reflexivity.
Qed.

Lemma favColor_hue_band_witness :
  let ki := mkKernelInput 1000 1000 None (fun _ => 0) (fun _ _ _ => 0) in
  let s1 := exec (favColor ki) initialState in
  exists hue,
    30000 <= hue < 60000 /\
    getPixelColor 4 (strip s1)
    = Z.land (k_ColorHSV ki hue 155 (u8 (brightness s1))) 16777215 /\
    lastShown (trace (favColor ki) initialState) = Some (strip s1) /\
    animPos s1 = int32 (animPos initialState + 1).
Proof.
  intros ki.
  apply (favColor_hue_band ki initialState 4).
  - reflexivity.
  - split; [intros H; discriminate H|reflexivity].
  - vm_compute. intros H. discriminate H.
Defined.

(** *** The anniversary cursor *)

Lemma anniOK_anni s s' : anni s' = anni s -> anniOK s -> anniOK s'.
Proof. unfold anni, anniOK. intros E. injection E as -> ->. auto. Qed.

Lemma Keeps_anni {A : Type} (m : M A) : Preserves anni m -> Keeps anniOK m.
Proof. intros Hp s H. apply (anniOK_anni s); [apply Hp|exact H]. Qed.

Ltac anni_preserved := apply Keeps_anni; unfold anni; preserved.

Lemma startSpecialEvent_anni index now : Keeps anniOK (startSpecialEvent index now).
Proof.
  intros s H. unfold startSpecialEvent.
  destruct (_ || _); [exact H|]. run_exec.
  unfold anniOK. fields. repeat split; try lia; intros E; discriminate E.
Qed.

Lemma checkStartDate_anni timeinfo startNow :
  Keeps anniOK (checkStartDate timeinfo startNow).
Proof.
  unfold checkStartDate. destruct timeinfo as [tm|]; [|apply Keeps_ret].
  cbv zeta. apply Keeps_bind; [apply Keeps_get|intros s].
  destruct (findDate _ _ 0 dates) as [k|].
  - destruct (_ && _); [apply Keeps_ret|]. apply Keeps_when.
    apply Keeps_bind; [apply startSpecialEvent_anni|intros _].
    anni_preserved.
  - anni_preserved.
Qed.

Lemma dateCheck_anni inp : Keeps anniOK (dateCheck inp).
Proof.
  unfold dateCheck. apply Keeps_bind; [apply Keeps_get|intros s].
  apply Keeps_when. apply Keeps_bind; [anni_preserved|intros _].
  apply Keeps_bind; [apply checkStartDate_anni|intros _]. anni_preserved.
Qed.

(** The cursor after one firing step of [animAnni]. *)
Lemma animAnni_exec ki s :
  anniOK s -> 40 <= elapsed (k_now ki) (lastAnimMillis s) ->
  let s1 := exec (animAnni ki) s in
  anniOK s1 /\
  animBrightness s1 = animBrightness s + animStep s /\
  strip s1 = forRange 0 (Z.to_nat NUM_LEDS)
               (fun i => setPixelColor i (anniColor (u8 (animBrightness s1))))
               (strip s) /\
  trace (animAnni ki) s = [EvShow (strip s1)].
Proof.
  intros (Hr & Hm & Hst & H0 & H256) Hf s1.
  assert (Hq : animBrightness s = 8 * (animBrightness s / 8))
    by (pose proof (Z.div_mod (animBrightness s) 8); lia).
  assert (Hm' : (animBrightness s + animStep s) mod 8 = 0).
  { rewrite Hq. set (q := animBrightness s / 8).
    destruct Hst as [-> | ->].
    - replace (8 * q + 8) with ((q + 1) * 8) by lia. apply Z.mod_mul. lia.
    - replace (8 * q + -8) with ((q - 1) * 8) by lia. apply Z.mod_mul. lia. }
  assert (Hb : 0 <= animBrightness s + animStep s <= 256).
  { destruct Hst as [E| E]; rewrite E in *.
    - assert (animBrightness s <> 256) by (intros E5; apply H256 in E5; lia).
      assert (animBrightness s + 8 <> 257 /\ animBrightness s + 8 <> 258 /\
              animBrightness s + 8 <> 259 /\ animBrightness s + 8 <> 260 /\
              animBrightness s + 8 <> 261 /\ animBrightness s + 8 <> 262 /\
              animBrightness s + 8 <> 263); [|lia].
      repeat split; intros E8; rewrite E8 in Hm'; discriminate Hm'.
    - assert (animBrightness s <> 0) by (intros E5; apply H0 in E5; lia).
      assert (animBrightness s + -8 <> -1 /\ animBrightness s + -8 <> -2 /\
              animBrightness s + -8 <> -3 /\ animBrightness s + -8 <> -4 /\
              animBrightness s + -8 <> -5 /\ animBrightness s + -8 <> -6 /\
              animBrightness s + -8 <> -7); [|lia].
      repeat split; intros E8; rewrite E8 in Hm'; discriminate Hm'. }
  assert (E : s1 = exec (modify (set_lastAnimMillis (k_now ki)) ;;
                         modify (fun s => set_animBrightness
                                   (int32 (animBrightness s + animStep s)) s) ;;
                         modify (fun s =>
                           if (animBrightness s <=? 0) || (255 <=? animBrightness s)
                           then set_animStep (int32 (- animStep s)) s else s) ;;
                         s' <- get ;;
                         fillAll (anniColor (u8 (animBrightness s'))) ;;
                         show) s /\
              trace (animAnni ki) s
              = trace (modify (set_lastAnimMillis (k_now ki)) ;;
                       modify (fun s => set_animBrightness
                                 (int32 (animBrightness s + animStep s)) s) ;;
                       modify (fun s =>
                         if (animBrightness s <=? 0) || (255 <=? animBrightness s)
                         then set_animStep (int32 (- animStep s)) s else s) ;;
                       s' <- get ;;
                       fillAll (anniColor (u8 (animBrightness s'))) ;;
                       show) s).
  { subst s1. unfold animAnni. cbv zeta.
    rewrite exec_get_bind, trace_get_bind.
    replace (elapsed (k_now ki) (lastAnimMillis s) <? 40) with false
      by (symmetry; apply Z.ltb_ge; exact Hf).
    split; reflexivity. }
  destruct E as [E1 E2]. rewrite E2. clear E2.
  assert (Eb : animBrightness s1 = animBrightness s + animStep s).
  { rewrite E1. run_exec. fields.
    rewrite int32_small by (change (2 ^ 31) with 2147483648; lia).
    destruct (_ || _); reflexivity. }
  assert (Es : animStep s1
               = if (animBrightness s + animStep s <=? 0)
                    || (255 <=? animBrightness s + animStep s)
                 then - animStep s else animStep s).
  { rewrite E1. run_exec. fields.
    rewrite int32_small by (change (2 ^ 31) with 2147483648; lia).
    destruct (_ || _); fields; [|reflexivity].
    apply int32_small. change (2 ^ 31) with 2147483648. lia. }
  split; [|split; [exact Eb|split]].
  - unfold anniOK. rewrite Eb, Es.
    destruct (animBrightness s + animStep s <=? 0) eqn:E3;
      [apply Z.leb_le in E3|apply Z.leb_gt in E3];
    destruct (255 <=? animBrightness s + animStep s) eqn:E4;
      [apply Z.leb_le in E4|apply Z.leb_gt in E4| apply Z.leb_le in E4
      |apply Z.leb_gt in E4]; cbn [orb]; repeat split; try lia; auto.
    all: intros E5; rewrite E5 in Hm'; try discriminate Hm'.
  - rewrite Eb, E1. run_exec. fields.
    rewrite int32_small by (change (2 ^ 31) with 2147483648; lia).
    destruct (_ || _); reflexivity.
  - rewrite E1. reflexivity.
Qed.

Lemma animAnni_anni ki : Keeps anniOK (animAnni ki).
Proof.
  intros s H.
  destruct (Z.le_gt_cases 40 (elapsed (k_now ki) (lastAnimMillis s))) as [Hf|Hf].
  - apply (animAnni_exec ki s H Hf).
  - unfold animAnni. cbv zeta. rewrite exec_get_bind.
    replace (elapsed (k_now ki) (lastAnimMillis s) <? 40) with true
      by (symmetry; apply Z.ltb_lt; lia).
    exact H.
Qed.

Lemma marchingPixel_anni interval spot background clearFirst ki :
  Keeps anniOK (marchingPixel interval spot background clearFirst ki).
Proof. anni_preserved. Qed.

Lemma special_anni ki : Keeps anniOK (runActiveSpecialAnimation ki).
Proof.
  unfold runActiveSpecialAnimation.
  apply Keeps_bind; [apply Keeps_get|intros s].
  destruct (_ || _); [apply Keeps_ret|].
  destruct (dates !! _) as [ev|]; [|apply Keeps_ret]. cbv zeta.
  destruct (String.eqb _ "Christmas"); [apply marchingPixel_anni|].
  destruct (String.eqb _ "Valentines"); [apply marchingPixel_anni|].
  destruct (String.eqb _ "NewYear"); [anni_preserved|].
  destruct (String.eqb _ "HerBirthday"); [apply marchingPixel_anni|].
  destruct (String.eqb _ "HisBirthday"); [apply marchingPixel_anni|].
  destruct (String.eqb _ "Anniversary"); [apply animAnni_anni|].
  apply marchingPixel_anni.
Qed.

Lemma arbiter_anni inp : Keeps anniOK (arbiter inp).
Proof.
  unfold arbiter. cbv zeta.
  apply Keeps_bind; [apply Keeps_get|intros s].
  destruct (dateActive s).
  { apply Keeps_bind; [apply Keeps_emit|intros _; apply special_anni]. }
  anni_preserved.
Qed.

Lemma loop_anni inp : Keeps anniOK (loop inp).
Proof.
  unfold loop, housekeeping.
  apply Keeps_bind; [|intros _; apply arbiter_anni].
  apply Keeps_bind; [anni_preserved|intros _].
  apply Keeps_bind; [|intros _].
  { apply Keeps_anni. intros s.
    induction (t_messages inp) as [|[payload now] r IH] in s |- *;
      [reflexivity|].
    cbn [mqttIncoming]. rewrite exec_bind, IH.
    assert (P : Preserves anni (onGeofenceMessage payload now))
      by (unfold anni; preserved).
    apply P. }
  apply Keeps_bind; [anni_preserved|intros _]. apply dateCheck_anni.
Qed.

Lemma onWsEvent_anni code type d : Keeps anniOK (onWsEvent code type d).
Proof. anni_preserved. Qed.

Lemma anniOK_initial : anniOK initialState.
Proof.
  unfold anniOK. cbn. repeat split; try lia; intros H; discriminate H.
Qed.

(** X19. In every state reached from power-on the anniversary cursor
    [animBrightness] is a multiple of 8 between 0 and 256 and [animStep]
    is 8 or -8: the ramp turns at 256, not at 255. *)
Theorem anniversary_cursor_in_range (code : string) (steps : list Step) :
  let s := exec (run code steps) initialState in
  0 <= animBrightness s <= 256 /\ animBrightness s mod 8 = 0 /\
  (animStep s = 8 \/ animStep s = -8).
Proof.
  intros s.
  destruct (Keeps_run anniOK code loop_anni (onWsEvent_anni code) steps
              initialState anniOK_initial) as (Hr & Hm & Hst & _).
  fold s in Hr, Hm, Hst. auto.
Qed.

Lemma anniColor_black b : 0 <= b < 256 -> (anniColor b = 0 <-> b = 0).
Proof.
  intros Hb. split; [|intros ->; reflexivity].
  intros E. destruct (Color_unpack (u8 (255 * b / 255)) (u8 (80 * b / 255))
                        (u8 (150 * b / 255))) as (Hr & _).
  fold (anniColor b) in Hr. rewrite E in Hr.
  replace (255 * b / 255) with b in Hr
    by (symmetry; rewrite Z.mul_comm; apply Z.div_mul; lia).
  rewrite !(u8_small b Hb) in Hr. rewrite <- Hr. reflexivity.
Qed.

(** X20. A firing step of [animAnni] pushes one frame of a single color,
    scaled from (255, 80, 150) by the cursor narrowed to a byte.  Because
    the ramp turns at 256 and the narrowing wraps 256 to 0, the frame is
    black at both ends of the ramp: at the bottom and at the very peak,
    one step after the brightest frame. *)
Theorem anniversary_peak_is_black (ki : KernelInput) (s : State) :
  wellSized s -> anniOK s ->
  40 <= elapsed (k_now ki) (lastAnimMillis s) ->
  let s1 := exec (animAnni ki) s in
  uniform (anniColor (u8 (animBrightness s1))) (strip s1) /\
  shows (trace (animAnni ki) s) = [strip s1] /\
  (uniform 0 (strip s1) <-> animBrightness s1 = 0 \/ animBrightness s1 = 256) /\
  (animBrightness s = 248 -> animStep s = 8 -> uniform 0 (strip s1)).
Proof.
  intros Hs Ha Hf s1. destruct (wellSized_fields s Hs) as [Hl _].
  destruct (animAnni_exec ki s Ha Hf) as (Ha1 & Eb & Ep & Et).
  fold s1 in Ha1, Eb, Ep, Et.
  assert (U : uniform (anniColor (u8 (animBrightness s1))) (strip s1)).
  { unfold uniform. rewrite Ep, fillAll_uniform by exact Hl.
    unfold anniColor. rewrite Color_24. reflexivity. }
  destruct Ha1 as (Hr & _).
  assert (Hz : uniform 0 (strip s1)
               <-> animBrightness s1 = 0 \/ animBrightness s1 = 256).
  { unfold uniform in *. rewrite U. split.
    - intros E. assert (E0 : anniColor (u8 (animBrightness s1)) = 0).
      { change (Z.to_nat NUM_LEDS) with 19%nat in E. cbn [replicate] in E.
        injection E as E _. exact E. }
      apply (proj1 (anniColor_black _ (u8_bound _))) in E0.
      unfold u8 in E0. change (2 ^ 8) with 256 in E0.
      pose proof (Z.div_mod (animBrightness s1) 256).
      assert (animBrightness s1 / 256 = 0 \/ animBrightness s1 / 256 = 1).
      { assert (0 <= animBrightness s1 / 256) by (apply Z.div_pos; lia).
        assert (animBrightness s1 / 256 < 2)
          by (apply Z.div_lt_upper_bound; lia).
        lia. }
      lia.
    - intros [E|E]; rewrite E; reflexivity. }
  split; [exact U|]. split; [rewrite Et; reflexivity|]. split; [exact Hz|].
  intros E1 E2. apply Hz. right. rewrite Eb, E1, E2. reflexivity.
Qed.

Lemma anniversary_peak_is_black_witness :
  let ki := mkKernelInput 1000 1000 None (fun _ => 0) (fun _ _ _ => 0) in
  let s := set_animBrightness 248 initialState in
  uniform 0 (strip (exec (animAnni ki) s)).
Proof.
  intros ki s.
  assert (Ha : anniOK s)
    by (unfold anniOK; cbn; repeat split; try lia; intros H; discriminate H).
  assert (Hf : 40 <= elapsed (k_now ki) (lastAnimMillis s))
    by (vm_compute; intros H; discriminate H).
  exact (proj2 (proj2 (proj2 (anniversary_peak_is_black ki s eq_refl Ha Hf)))
           eq_refl eq_refl).
Defined.

(** *** The active special date *)

Lemma Keeps_active {A : Type} (m : M A) :
  Preserves (fun s => (dateActive s, activeEventIndex s)) m -> Keeps dateOK m.
Proof.
  intros Hp s H. unfold dateOK. specialize (Hp s). cbv beta in Hp.
  injection Hp as -> ->. exact H.
Qed.

Ltac active_preserved := apply Keeps_active; preserved.

Lemma startSpecialEvent_dateOK index now : Keeps dateOK (startSpecialEvent index now).
Proof.
  intros s H. unfold startSpecialEvent.
  destruct (_ || _) eqn:G; [exact H|]. run_exec.
  apply orb_false_iff in G. destruct G as [G1 G2].
  apply Z.ltb_ge in G1. apply Z.leb_gt in G2.
  unfold dateOK. fields. intros _. lia.
Qed.

Lemma Keeps_inactive {A : Type} (m : M A) :
  (forall s, dateActive (exec m s) = false) -> Keeps dateOK m.
Proof. intros Hm s _. unfold dateOK. rewrite Hm. intros H. discriminate H. Qed.

Lemma checkStartDate_dateOK timeinfo startNow :
  Keeps dateOK (checkStartDate timeinfo startNow).
Proof.
  unfold checkStartDate. destruct timeinfo as [tm|]; [|apply Keeps_ret].
  cbv zeta. apply Keeps_bind; [apply Keeps_get|intros s].
  destruct (findDate _ _ 0 dates) as [k|].
  - destruct (_ && _); [apply Keeps_ret|]. apply Keeps_when.
    apply Keeps_bind; [apply startSpecialEvent_dateOK|intros _].
    active_preserved.
  - apply Keeps_when. apply Keeps_inactive. intros s0. reflexivity.
Qed.

Lemma dateCheck_dateOK inp : Keeps dateOK (dateCheck inp).
Proof.
  unfold dateCheck. apply Keeps_bind; [apply Keeps_get|intros s].
  apply Keeps_when. apply Keeps_bind; [active_preserved|intros _].
  apply Keeps_bind; [apply checkStartDate_dateOK|intros _]. active_preserved.
Qed.

Lemma buttonLogic_dateOK inp : Keeps dateOK (buttonLogic inp).
Proof.
  unfold buttonLogic. cbv zeta.
  apply Keeps_bind; [apply Keeps_get|intros s].
  apply Keeps_bind; [|intros _; active_preserved].
  apply Keeps_when. destruct (dateActive s); [|active_preserved].
  apply Keeps_inactive. intros s0. run_exec. reflexivity.
Qed.

Lemma loop_dateOK inp : Keeps dateOK (loop inp).
Proof.
  unfold loop, housekeeping.
  apply Keeps_bind; [|intros _; active_preserved].
  apply Keeps_bind; [active_preserved|intros _].
  apply Keeps_bind; [|intros _].
  { apply Keeps_active. intros s.
    destruct (dateBook_fields _ _ (mqttIncoming_dateBook (t_messages inp) s))
      as (-> & -> & _).
    reflexivity. }
  apply Keeps_bind; [apply buttonLogic_dateOK|intros _]. apply dateCheck_dateOK.
Qed.

Lemma onWsEvent_dateOK code type d : Keeps dateOK (onWsEvent code type d).
Proof. active_preserved. Qed.

Lemma dateOK_initial : dateOK initialState.
Proof. intros H. discriminate H. Qed.

(** X21. In every state reached from power-on, an active special date
    has an index inside the calendar: the unguarded reads of
    [dates[activeEventIndex]] in [runActiveSpecialAnimation] and the
    writes of [lastPlayedDay[activeEventIndex]] are always in bounds. *)
Theorem active_index_in_bounds (code : string) (steps : list Step) :
  let s := exec (run code steps) initialState in
  dateActive s = true ->
  0 <= activeEventIndex s < numDates /\
  is_Some (dates !! Z.to_nat (activeEventIndex s)) /\
  is_Some (lastPlayedDay s !! Z.to_nat (activeEventIndex s)).
Proof.
  intros s Hd.
  pose proof (Keeps_run dateOK code loop_dateOK (onWsEvent_dateOK code) steps
                initialState dateOK_initial Hd) as Hi.
  fold s in Hi. split; [exact Hi|].
  destruct (wellSized_fields _ (wellSized_run code steps initialState
                                  wellSized_initial)) as [_ Hl].
  fold s in Hl. unfold numDates in *.
  split; apply lookup_lt_is_Some; [|rewrite Hl]; lia.
Qed.

Lemma active_index_in_bounds_witness :
  let s := exec (run EmptyString
                   [Tick (clockTick 60000 HIGH (Some christmasMorning))])
             initialState in
  0 <= activeEventIndex s < numDates.
Proof.
  intros s.
  exact (proj1 (active_index_in_bounds EmptyString
                  [Tick (clockTick 60000 HIGH (Some christmasMorning))]
                  eq_refl)).
Defined.

(** ** The calendar check, the weather fetch and the clock *)



Lemma u32_small z : 0 <= z < 2 ^ 32 -> u32 z = z.
Proof. intros H. unfold u32. apply Z.mod_small. exact H. Qed.

Lemma elapsed_after last d :
  0 <= last < 2 ^ 32 -> 0 <= d < 2 ^ 32 -> elapsed (u32 (last + d)) last = d.
Proof.
  intros Hl Hd. unfold elapsed, u32.
  rewrite Zminus_mod_idemp_l. replace (last + d - last) with d by lia.
  apply Z.mod_small. exact Hd.
Qed.

(** X23. The weather fetch is throttled: after a fetch attempt at a
    time other than 0, a second call less than 15 minutes later changes
    nothing, whatever it would have fetched.  A failed attempt never
    touches the stored temperature: without WiFi the condition becomes
    [Offline], after an HTTP or parse failure [Error]. *)
Theorem weather_fetch_throttled (w1 w2 : WeatherInput) (s : State) :
  0 < w_now w1 < 2 ^ 32 -> weatherDue (w_now w1) s = true ->
  elapsed (w_now w2) (w_now w1) < WEATHER_CHECK_INTERVAL ->
  let s1 := exec (updateWeather w1) s in
  exec (updateWeather w2) s1 = s1 /\
  lastWeatherCheck s1 = w_now w1 /\
  match w_fetch w1 with
  | WifiDown =>
      currentWeatherCondition s1 = "Offline" /\
      currentTemperature s1 = currentTemperature s
  | HttpFailed | JsonFailed =>
      currentWeatherCondition s1 = "Error" /\
      currentTemperature s1 = currentTemperature s
  | Fetched c t =>
      currentWeatherCondition s1 = default (currentWeatherCondition s) c /\
      currentTemperature s1 = default (currentTemperature s) t
  end.
Proof.
  intros Hn Hdue Hlt s1.
  assert (Hl : lastWeatherCheck s1 = w_now w1).
  { subst s1. unfold updateWeather. cbv zeta.
    rewrite exec_get_bind, exec_when, Hdue, exec_bind, exec_modify.
    destruct (w_fetch w1) as [| | |[c|] [t|]]; reflexivity. }
  split; [|split; [exact Hl|]].
  - unfold updateWeather at 1. cbv zeta. rewrite exec_get_bind, exec_when.
    unfold weatherDue. rewrite Hl.
    replace (WEATHER_CHECK_INTERVAL <=? _) with false
      by (symmetry; apply Z.leb_gt; exact Hlt).
    replace (w_now w1 =? 0) with false by (symmetry; apply Z.eqb_neq; lia).
    reflexivity.
  - subst s1. unfold updateWeather. cbv zeta.
    rewrite exec_get_bind, exec_when, Hdue, exec_bind, exec_modify.
    destruct (w_fetch w1) as [| | |[c|] [t|]]; split; reflexivity.
Qed.

Lemma weather_fetch_throttled_witness :
  let w1 := mkWeatherInput 5000 WifiDown in
  let w2 := mkWeatherInput 6000 (Fetched (Some "Rain") (Some 70%Q)) in
  exec (updateWeather w2) (exec (updateWeather w1) initialState)
  = exec (updateWeather w1) initialState.
Proof.
  intros w1 w2.
  assert (H1 : 0 < w_now w1 < 2 ^ 32) by (split; reflexivity).
  assert (H2 : elapsed (w_now w2) (w_now w1) < WEATHER_CHECK_INTERVAL)
    by reflexivity.
  exact (proj1 (weather_fetch_throttled w1 w2 initialState H1 eq_refl H2)).
Defined.

(** X24. The timers compare unsigned differences, so they are immune to
    the roll-over of [millis()]: an override that started at [start] and
    is tested [d] milliseconds later expires exactly when [d] has reached
    its budget, also when the counter wrapped in between. *)
Theorem expiry_survives_rollover (inp : TickInput) (s : State) (d : Z) :
  0 <= currentStateStart s < 2 ^ 32 -> 0 <= d < 2 ^ 32 ->
  0 <= stateDuration s < 2 ^ 31 ->
  t_expiry_now inp = u32 (currentStateStart s + d) ->
  expired inp s = (stateDuration s <=? d).
Proof.
  intros Hs Hd Hb Hn. unfold expired.
  rewrite Hn, elapsed_after by assumption.
  rewrite u32_small; [reflexivity|].
  change (2 ^ 31) with 2147483648 in Hb. change (2 ^ 32) with 4294967296. lia.
Qed.

Lemma expiry_survives_rollover_witness :
  let s := exec (onGeofenceMessage "arrive" 4294967000) initialState in
  expired (laterTick 14704) s = true.
Proof.
  intros s.
  assert (H1 : 0 <= currentStateStart s < 2 ^ 32)
    by (split; [intros H; discriminate H|reflexivity]).
  assert (H2 : 0 <= 15000 < 2 ^ 32)
    by (split; [intros H; discriminate H|reflexivity]).
  assert (H3 : 0 <= stateDuration s < 2 ^ 31)
    by (split; [intros H; discriminate H|reflexivity]).
  exact (expiry_survives_rollover (laterTick 14704) s 15000 H1 H2 H3 eq_refl).
Defined.

(** ** Static mode *)

Lemma wifiWatchdog_look inp :
  Preserves (fun s => (strip s, staticColorBrightness s, arbitration s))
    (wifiWatchdog inp).
Proof. unfold arbitration, geoOverride. preserved. Qed.

Lemma updateWeather_look w :
  Preserves (fun s => (strip s, staticColorBrightness s, arbitration s))
    (updateWeather w).
Proof. unfold arbitration, geoOverride. preserved. Qed.

Lemma dateCheck_calm_look inp s :
  noDateToday inp -> dateActive s = false ->
  (strip (exec (dateCheck inp) s), staticColorBrightness (exec (dateCheck inp) s),
   currentEffect (exec (dateCheck inp) s),
   currentGeoState (exec (dateCheck inp) s),
   dateActive (exec (dateCheck inp) s))
  = (strip s, staticColorBrightness s, currentEffect s, currentGeoState s,
     dateActive s) /\
  trace (dateCheck inp) s = [].
Proof.
  intros Hn Hd. unfold dateCheck.
  rewrite exec_get_bind, trace_get_bind, exec_when, trace_when.
  destruct (DATE_CHECK_INTERVAL <=? _); [|split; reflexivity].
  rewrite !exec_bind, !trace_bind, exec_modify, updateWeather_trace.
  pose proof (updateWeather_look (t_weather_check inp)
                (exec (checkStartDate (t_localtime inp) (t_start_now inp))
                   (set_lastDateCheck (t_date_now2 inp) s))) as Hw.
  cbv beta in Hw. unfold arbitration, geoOverride in Hw.
  injection Hw as -> -> -> -> _ _ -> _ _ _.
  unfold noDateToday in Hn. unfold checkStartDate.
  destruct (t_localtime inp) as [tm|]; [|split; reflexivity].
  cbv zeta. rewrite exec_get_bind, trace_get_bind, Hn.
  fields. rewrite exec_when, trace_when, Hd. split; [|reflexivity].
  fields. rewrite Hd. reflexivity.
Qed.

(** X25. A Static frame stays put: in Static mode with no special date
    and no override, a tick without outside events neither changes the
    strip nor pushes a frame nor broadcasts, so the color that a command
    set remains what the snapshot reports. *)
Theorem static_frame_is_stable (inp : TickInput) (s : State) :
  currentEffect s = EFFECT_STATIC -> dateActive s = false ->
  currentGeoState s = GEO_NONE -> calm inp ->
  let s1 := exec (loop inp) s in
  strip s1 = strip s /\
  shows (trace (loop inp) s) = [] /\
  broadcasts (trace (loop inp) s) = 0%nat /\
  stateDoc s1 = stateDoc s.
Proof.
  intros He Hd Hg (Hm & Hb & Hn) s1.
  pose proof (wifiWatchdog_look inp s) as Hw. cbv beta in Hw.
  unfold arbitration, geoOverride in Hw.
  injection Hw as W1 W2 W3 W4 _ _ W5 _ _ _.
  set (sw := exec (wifiWatchdog inp) s) in *.
  destruct (buttonLogic_released inp sw Hb) as [Eb Tb].
  set (sb := set_lastButtonState (t_button inp) sw) in *.
  destruct (dateCheck_calm_look inp sb Hn) as [Ed Td].
  { subst sb. fields. congruence. }
  injection Ed as D1 D2 D3 D4 D5. subst sb. fields.
  assert (Hh : exec (housekeeping inp) s
               = exec (dateCheck inp) (set_lastButtonState (t_button inp) sw)).
  { rewrite housekeeping_exec, Hm. simpl mqttIncoming. rewrite exec_ret.
    fold sw. rewrite Eb. reflexivity. }
  assert (Ht : trace (housekeeping inp) s = trace (wifiWatchdog inp) s).
  { unfold housekeeping. rewrite !trace_bind, Hm. simpl mqttIncoming.
    rewrite !exec_ret. fold sw. rewrite Tb, Eb, Td.
    change (trace (ret ()) sw) with (@nil Event).
    rewrite !app_nil_r. reflexivity. }
  set (s0 := exec (housekeeping inp) s) in *.
  assert (Ha : exec (arbiter inp) s0 = s0 /\
               trace (arbiter inp) s0 = [EvDelayMicroseconds 500]).
  { unfold arbiter. cbv zeta. rewrite exec_get_bind, trace_get_bind.
    rewrite Hh, D5, D4, D3, W5, W4, W3, Hd, Hg, He. split; reflexivity. }
  destruct Ha as [Ea Ta].
  assert (E1 : s1 = s0) by (subst s1; rewrite loop_exec; exact Ea).
  assert (Hstrip : strip s0 = strip s) by (rewrite Hh, D1; exact W1).
  assert (Htr : trace (loop inp) s
                = trace (wifiWatchdog inp) s ++ [EvDelayMicroseconds 500]).
  { unfold loop. rewrite trace_bind. fold s0. rewrite Ta, Ht. reflexivity. }
  rewrite E1, Htr. split; [exact Hstrip|]. split; [|split].
  - rewrite shows_app, wifiWatchdog_shows. reflexivity.
  - rewrite broadcasts_app. unfold broadcasts at 1.
    rewrite wifiWatchdog_no_broadcast. reflexivity.
  - unfold stateDoc. rewrite Hstrip.
    replace (currentEffect s0) with (currentEffect s)
      by (rewrite Hh, D3, W3; reflexivity).
    rewrite He.
    replace (staticColorBrightness s0) with (staticColorBrightness s)
      by (rewrite Hh, D2, W2; reflexivity).
    reflexivity.
Qed.

Lemma static_frame_is_stable_witness :
  let s := exec (onWsEvent EmptyString WS_EVT_DATA setcolorFrame) initialState in
  strip (exec (loop (laterTick 1000000)) s) = strip s.
Proof.
  intros s.
  assert (Hc : calm (laterTick 1000000)).
  { split; [reflexivity|]. split; [intros H; discriminate H|exact Logic.I]. }
  exact (proj1 (static_frame_is_stable (laterTick 1000000) s
                  eq_refl eq_refl eq_refl Hc)).
Defined.

(** ** The marker animations of the calendar *)

Lemma index_ind (P : Z -> Prop) :
  Forall P (seqZ 0 NUM_LEDS) -> forall n, 0 <= n < NUM_LEDS -> P n.
Proof.
  intros H n Hn. rewrite Forall_forall in H. apply H, elem_of_seqZ. lia.
Qed.

(** The frame of a marker animation: [spot] at [p], [background]
    elsewhere, whichever of the two ways the kernel paints it. *)
Lemma marker_frame (spot background p : Z) (clearFirst : bool) (st : Strip) :
  length (pixels st) = Z.to_nat NUM_LEDS -> 0 <= p < NUM_LEDS ->
  pixels
    (if clearFirst
     then forRange 0 (Z.to_nat NUM_LEDS)
            (fun i st => if negb (i =? p)
                         then setPixelColor i background st else st)
            (setPixelColor p spot (clear st))
     else setPixelColor p spot
            (forRange 0 (Z.to_nat NUM_LEDS)
               (fun i => setPixelColor i background) st))
  = <[Z.to_nat p := Z.land spot 16777215]>
      (replicate (Z.to_nat NUM_LEDS) (Z.land background 16777215)).
Proof.
  intros H Hp. destruct (nineteen_pixels _ H) as
      (x0&x1&x2&x3&x4&x5&x6&x7&x8&x9&x10&x11&x12&x13&x14&x15&x16&x17&x18&Hl).
  destruct st as [l b]. simpl in Hl. subst l. clear H.
  pattern p. revert p Hp. apply index_ind.
  repeat (apply Forall_cons_2 || apply Forall_nil_2); cbv beta;
    destruct clearFirst; reflexivity.
Qed.

Lemma marchingPixel_exec interval spot background clearFirst ki s :
  wellSized s -> 0 <= animPos s < 2 ^ 31 - 1 ->
  interval <= elapsed (k_now ki) (lastAnimMillis s) ->
  let m := marchingPixel interval spot background clearFirst ki in
  let s1 := exec m s in
  (forall j, 0 <= j < NUM_LEDS ->
             getPixelColor j (strip s1)
             = Z.land (if j =? animPos s mod NUM_LEDS then spot else background)
                 16777215) /\
  shows (trace m s) = [strip s1] /\
  animPos s1 = animPos s + 1 /\ lastAnimMillis s1 = k_now ki.
Proof.
  intros Hs Hp Hf m s1. destruct (wellSized_fields s Hs) as [Hl _].
  set (p := Z.rem (animPos s) NUM_LEDS).
  assert (Ep : p = animPos s mod NUM_LEDS)
    by (apply Z.rem_mod_nonneg; unfold NUM_LEDS; lia).
  assert (Hr : 0 <= p < NUM_LEDS)
    by (rewrite Ep; apply Z.mod_pos_bound; reflexivity).
  set (frame := if clearFirst
                then forRange 0 (Z.to_nat NUM_LEDS)
                       (fun i st => if negb (i =? p)
                                    then setPixelColor i background st else st)
                       (setPixelColor p spot (clear (strip s)))
                else setPixelColor p spot
                       (forRange 0 (Z.to_nat NUM_LEDS)
                          (fun i => setPixelColor i background) (strip s))).
  assert (E : s1 = set_animPos (int32 (animPos s + 1))
                     (set_strip frame (set_lastAnimMillis (k_now ki) s)) /\
              trace m s = [EvShow frame]).
  { subst s1 m frame. unfold marchingPixel. cbv zeta.
    rewrite exec_get_bind, trace_get_bind.
    replace (elapsed (k_now ki) (lastAnimMillis s) <? interval) with false
      by (symmetry; apply Z.ltb_ge; exact Hf).
    fold p. destruct clearFirst; split; reflexivity. }
  destruct E as [E1 E2].
  assert (Hx : pixels (strip s1)
               = <[Z.to_nat p := Z.land spot 16777215]>
                   (replicate (Z.to_nat NUM_LEDS) (Z.land background 16777215))).
  { rewrite E1. fields. apply marker_frame; assumption. }
  split; [|split; [|split]].
  - intros j Hj. unfold getPixelColor. rewrite (u16_small j Hj), Hx.
    replace (j <? NUM_LEDS) with true by (symmetry; apply Z.ltb_lt; lia).
    rewrite <- Ep. destruct (Z.eqb_spec j p) as [->|Hne].
    + rewrite list_lookup_insert_eq; [reflexivity|].
      rewrite length_replicate. lia.
    + rewrite list_lookup_insert_ne by lia.
      rewrite lookup_replicate_2; [reflexivity|lia].
  - rewrite E2, E1. reflexivity.
  - rewrite E1. fields. apply int32_small.
    change (2 ^ 31) with 2147483648 in *. lia.
  - rewrite E1. reflexivity.
Qed.

(** X26. The four marker animations of the calendar (Christmas,
    Valentines and the two birthdays) push, when their interval has
    passed, a frame with exactly one marker pixel at [animPos % 19] on a
    plain background, then advance [animPos]; the marker therefore walks
    the strip once every 19 frames. *)
Theorem date_marker_frames (kernel : KernelInput -> M unit) (spot background : Z)
  (ki : KernelInput) (s : State) :
  In (kernel, spot, background)
     [ (animChristmas, Color 0 160 0, Color 160 0 0);
       (animValentines, Color 255 105 180, Color 255 0 0);
       (animHerBirthday, Color 255 105 180, Color 40 0 80);
       (animHisBirthday, Color 150 150 150, Color 0 0 255) ] ->
  wellSized s -> 0 <= animPos s < 2 ^ 31 - 1 ->
  120 <= elapsed (k_now ki) (lastAnimMillis s) ->
  let s1 := exec (kernel ki) s in
  (forall j, 0 <= j < NUM_LEDS ->
             getPixelColor j (strip s1)
             = if j =? animPos s mod NUM_LEDS then spot else background) /\
  shows (trace (kernel ki) s) = [strip s1] /\
  animPos s1 = animPos s + 1 /\ lastAnimMillis s1 = k_now ki.
Proof.
  intros Hin Hs Hp Hf.
  assert (G : forall interval r g b r' g' b' clearFirst,
            interval <= 120 ->
            let m := marchingPixel interval (Color r g b) (Color r' g' b')
                       clearFirst ki in
            let s1 := exec m s in
            (forall j, 0 <= j < NUM_LEDS ->
                       getPixelColor j (strip s1)
                       = if j =? animPos s mod NUM_LEDS
                         then Color r g b else Color r' g' b') /\
            shows (trace m s) = [strip s1] /\
            animPos s1 = animPos s + 1 /\ lastAnimMillis s1 = k_now ki).
  { intros interval r g b r' g' b' clearFirst Hi m s1.
    destruct (marchingPixel_exec interval (Color r g b) (Color r' g' b')
                clearFirst ki s Hs Hp) as (P1 & P2 & P3 & P4); [lia|].
    split; [|auto]. intros j Hj. fold m s1 in P1. rewrite (P1 j Hj).
    destruct (j =? _); apply Color_24. }
  cbn [In] in Hin.
  destruct Hin as [E|[E|[E|[E|[]]]]]; injection E as <- <- <-.
  - apply (G 120 0 160 0 160 0 0 false). lia.
  - apply (G 100 255 105 180 255 0 0 true). lia.
  - apply (G 100 255 105 180 40 0 80 true). lia.
  - apply (G 100 150 150 150 0 0 255 true). lia.
Qed.

Lemma date_marker_frames_witness :
  let ki := mkKernelInput 1000 1000 None (fun _ => 0) (fun _ _ _ => 0) in
  let s := set_animPos 21 initialState in
  getPixelColor 2 (strip (exec (animValentines ki) s)) = Color 255 105 180.
Proof.
  intros ki s.
  assert (Hin : In (animValentines, Color 255 105 180, Color 255 0 0)
                  [ (animChristmas, Color 0 160 0, Color 160 0 0);
                    (animValentines, Color 255 105 180, Color 255 0 0);
                    (animHerBirthday, Color 255 105 180, Color 40 0 80);
                    (animHisBirthday, Color 150 150 150, Color 0 0 255) ])
    by (right; left; reflexivity).
  assert (Hp : 0 <= animPos s < 2 ^ 31 - 1)
    by (split; [intros H; discriminate H|reflexivity]).
  assert (Hf : 120 <= elapsed (k_now ki) (lastAnimMillis s))
    by (vm_compute; intros H; discriminate H).
  assert (Hj : 0 <= 2 < NUM_LEDS)
    by (split; [intros H; discriminate H|reflexivity]).
  exact (proj1 (date_marker_frames animValentines (Color 255 105 180)
                  (Color 255 0 0) ki s Hin eq_refl Hp Hf) 2 Hj).
Defined.

(** ** Start-up *)

(** X27. [MQTT_connect] returns at once when the session is up.
    Otherwise it tries to connect at most three times, sleeping 5 s after
    each failure: it returns at the first success, having slept 5 s per
    failure before it, and it halts for the watchdog exactly when the
    first three attempts all fail; a fourth attempt is never made. *)
Theorem mqtt_connect_three_attempts (connect : nat -> Z) :
  MQTT_connect true connect = Connected 0 /\
  (MQTT_connect false connect = Halted 15000
   <-> connect 0%nat <> 0 /\ connect 1%nat <> 0 /\ connect 2%nat <> 0) /\
  (connect 0%nat = 0 -> MQTT_connect false connect = Connected 0) /\
  (connect 0%nat <> 0 -> connect 1%nat = 0 ->
   MQTT_connect false connect = Connected 5000) /\
  (connect 0%nat <> 0 -> connect 1%nat <> 0 -> connect 2%nat = 0 ->
   MQTT_connect false connect = Connected 10000) /\
  (forall other, (forall k, (k < 3)%nat -> other k = connect k) ->
                 MQTT_connect false other = MQTT_connect false connect).
Proof.
  unfold MQTT_connect. cbn [connectLoop Nat.pred Z.of_nat Z.eqb].
  split; [reflexivity|].
  split; [|split; [|split; [|split]]].
  - destruct (Z.eqb_spec (connect 0%nat) 0) as [E0|E0].
    { split; [intros H; discriminate H|intros (H & _); contradiction]. }
    destruct (Z.eqb_spec (connect 1%nat) 0) as [E1|E1].
    { split; [intros H; discriminate H|intros (_ & H & _); contradiction]. }
    destruct (Z.eqb_spec (connect 2%nat) 0) as [E2|E2].
    { split; [intros H; discriminate H|intros (_ & _ & H); contradiction]. }
    split; [auto|reflexivity].
  - intros ->. reflexivity.
  - intros E0 ->. destruct (Z.eqb_spec (connect 0%nat) 0); [contradiction|].
    reflexivity.
  - intros E0 E1 ->.
    destruct (Z.eqb_spec (connect 0%nat) 0); [contradiction|].
    destruct (Z.eqb_spec (connect 1%nat) 0); [contradiction|].
    reflexivity.
  - intros other H. rewrite !H by lia. reflexivity.
Qed.

Lemma setup_exec timeinfo startNow :
  exec (setup true timeinfo startNow) bootState
  = exec (checkStartDate timeinfo startNow) initialState.
Proof. reflexivity. Qed.

Lemma checkStartDate_cursor timeinfo startNow :
  Keeps cursorOK (checkStartDate timeinfo startNow).
Proof. cursor_preserved. Qed.

Lemma checkStartDate_sizes timeinfo startNow :
  Preserves sizes (checkStartDate timeinfo startNow).
Proof. unfold sizes. same_size. Qed.

(** X28. [setup] hands [loop] a state that satisfies the invariants of
    the runs, and they then hold for ever: after a start-up with the
    file system mounted, whatever the clock reads, and any sequence of
    loop iterations and dashboard events, both arrays have their sizes,
    the fade cursors are in range and an active special date points into
    the calendar.  With the clock not yet readable, start-up leaves
    exactly the initializers with every played day at -1; when the mount
    fails, [setup] returns before touching any global. *)
Theorem setup_establishes_invariants (timeinfo : option Tm) (startNow : Z)
  (code : string) (steps : list Step) :
  let s := exec (run code steps)
             (exec (setup true timeinfo startNow) bootState) in
  wellSized s /\ cursorOK s /\ anniOK s /\ dateOK s /\
  exec (setup true None startNow) bootState = initialState /\
  exec (setup false timeinfo startNow) bootState = bootState.
Proof.
  intros s. subst s. rewrite setup_exec.
  split; [|split; [|split; [|split; [|split; reflexivity]]]].
  - apply wellSized_run. unfold wellSized.
    rewrite checkStartDate_sizes. reflexivity.
  - apply cursorOK_run, checkStartDate_cursor, cursorOK_initial.
  - apply (Keeps_run anniOK code loop_anni (onWsEvent_anni code)).
    apply checkStartDate_anni, anniOK_initial.
  - apply (Keeps_run dateOK code loop_dateOK (onWsEvent_dateOK code)).
    apply checkStartDate_dateOK, dateOK_initial.
Qed.

(** ** The global brightness *)

Section Level.

Context (b : Z).

Lemma AtLevel_ret {A : Type} (a : A) : AtLevel b (ret a).
Proof. intros s H. split; [exact H|constructor]. Qed.

Lemma AtLevel_get : AtLevel b get.
Proof. intros s H. split; [exact H|constructor]. Qed.

Lemma AtLevel_emit e : showOf e = None -> AtLevel b (emit e).
Proof.
  intros He s H. split; [exact H|].
  unfold trace, emit, shows. simpl. rewrite He. constructor.
Qed.

Lemma AtLevel_show : AtLevel b show.
Proof.
  intros s H. split; [exact H|].
  rewrite trace_show. repeat constructor. exact H.
Qed.

Lemma AtLevel_modify g : (forall s, level (g s) = level s) -> AtLevel b (modify g).
Proof. intros Hg s H. split; [rewrite exec_modify, Hg; exact H|constructor]. Qed.

Lemma AtLevel_onStrip f :
  (forall st, stripBrightness (f st) = stripBrightness st) ->
  AtLevel b (onStrip f).
Proof.
  intros Hf s H. split; [|constructor].
  rewrite exec_onStrip. unfold level in *. cbn [strip set_strip].
  rewrite Hf. exact H.
Qed.

Lemma AtLevel_bind {A B : Type} (m : M A) (k : A -> M B) :
  AtLevel b m -> (forall a, AtLevel b (k a)) -> AtLevel b (bind m k).
Proof.
  intros Hm Hk s H. destruct (Hm s H) as [H1 F1].
  destruct (Hk (fst (fst (m s))) (exec m s) H1) as [H2 F2].
  rewrite exec_bind, trace_bind, shows_app. split; [exact H2|].
  apply Forall_app. split; assumption.
Qed.

Lemma AtLevel_when c (m : M unit) : AtLevel b m -> AtLevel b (when c m).
Proof. intros H; destruct c; [exact H|apply AtLevel_ret]. Qed.

End Level.

Lemma clear_brightness st : stripBrightness (clear st) = stripBrightness st.
Proof. reflexivity. Qed.

Lemma fade_brightness f st :
  stripBrightness (fadeStripToBlackBy f st) = stripBrightness st.
Proof.
  unfold fadeStripToBlackBy. apply forRange_brightness.
  intros. apply setPixelColor_brightness.
Qed.

Ltac level_kept :=
  repeat first
    [ apply AtLevel_ret
    | apply AtLevel_get
    | apply AtLevel_show
    | apply AtLevel_when
    | apply AtLevel_bind; [| intros ?]
    | match goal with
      | |- AtLevel _ (emit _) => apply AtLevel_emit; reflexivity
      | |- AtLevel _ (modify _) =>
          apply AtLevel_modify; intros ?; repeat case_match; reflexivity
      | |- AtLevel _ (onStrip _) =>
          apply AtLevel_onStrip; intros ?;
          first [ apply setPixelColor_brightness
                | apply fade_brightness
                | apply clear_brightness
                | apply fill_brightness
                | apply forRange_brightness; intros ? ?; cbv beta;
                  repeat case_match;
                  first [reflexivity | apply setPixelColor_brightness] ]
      | |- AtLevel _ (let _ := _ in _) => cbv zeta
      | |- AtLevel _ (if ?c then _ else _) => destruct c
      | |- AtLevel _ (match ?x with _ => _ end) => destruct x
      | |- AtLevel _ ?m => unfold_call m
      end ].

Lemma sparkle_level b ki : AtLevel b (runGenerativeSparkle ki).
Proof. level_kept. Qed.

Lemma pulse_level b ki : AtLevel b (privatePulse ki).
Proof. level_kept. Qed.

Lemma arrive_level b ki : AtLevel b (runArrive ki).
Proof. level_kept. Qed.

Lemma leave_level b ki : AtLevel b (runLeave ki).
Proof. level_kept. Qed.

Lemma settled_level b : AtLevel b runSettled.
Proof. level_kept. Qed.

Lemma driving_level b ki : AtLevel b (runDriving ki).
Proof. level_kept. Qed.

Lemma marchingPixel_level b interval spot background clearFirst ki :
  AtLevel b (marchingPixel interval spot background clearFirst ki).
Proof. level_kept. Qed.

Lemma animAnni_level b ki : AtLevel b (animAnni ki).
Proof. level_kept. Qed.

Lemma animIndependence_level b ki : AtLevel b (animIndependence ki).
Proof. level_kept. Qed.

Lemma special_level b ki : AtLevel b (runActiveSpecialAnimation ki).
Proof.
  unfold runActiveSpecialAnimation.
  apply AtLevel_bind; [apply AtLevel_get|intros s].
  destruct (_ || _); [apply AtLevel_ret|].
  destruct (dates !! _) as [ev|]; [|apply AtLevel_ret]. cbv zeta.
  destruct (String.eqb _ "Christmas"); [apply marchingPixel_level|].
  destruct (String.eqb _ "Valentines"); [apply marchingPixel_level|].
  destruct (String.eqb _ "NewYear"); [apply animIndependence_level|].
  destruct (String.eqb _ "HerBirthday"); [apply marchingPixel_level|].
  destruct (String.eqb _ "HisBirthday"); [apply marchingPixel_level|].
  destruct (String.eqb _ "Anniversary"); [apply animAnni_level|].
  apply marchingPixel_level.
Qed.

(** X29. Only [favColor], [runNightMode] and [runWeatherMode] set the
    global brightness.  The Favorite sparkle, the pulse, the four
    geofence kernels and all the special-date animations leave it as
    they find it and push every frame at that level: they render at
    whatever brightness the previous driver left, 30 after Night mode. *)
Theorem kernels_keep_global_brightness (ki : KernelInput) (k : M unit)
  (s : State) :
  In k [ runGenerativeSparkle ki; privatePulse ki; runArrive ki; runLeave ki;
         runSettled; runDriving ki; runActiveSpecialAnimation ki ] ->
  level (exec k s) = level s /\
  Forall (fun f => stripBrightness f = level s) (shows (trace k s)).
Proof.
  cbn [In]. intros [<-|[<-|[<-|[<-|[<-|[<-|[<-|[]]]]]]]].
  - apply sparkle_level. reflexivity.
  - apply pulse_level. reflexivity.
  - apply arrive_level. reflexivity.
  - apply leave_level. reflexivity.
  - apply settled_level. reflexivity.
  - apply driving_level. reflexivity.
  - apply special_level. reflexivity.
Qed.

Lemma kernels_keep_global_brightness_witness :
  let ki := mkKernelInput 1000 1000 None (fun _ => 0) (fun _ _ _ => 0) in
  let s := exec (runNightMode ki) initialState in
  level (exec (runGenerativeSparkle ki) s) = 30.
Proof.
  intros ki s.
  assert (Hin : In (runGenerativeSparkle ki)
                  [ runGenerativeSparkle ki; privatePulse ki; runArrive ki;
                    runLeave ki; runSettled; runDriving ki;
                    runActiveSpecialAnimation ki ])
    by (left; reflexivity).
  exact (proj1 (kernels_keep_global_brightness ki (runGenerativeSparkle ki) s
                  Hin)).
Defined.

(** * Malformed commands and the end of an override *)

(** ** Malformed commands *)

(** The handler's branch for a [setcolor] value that passes its test. *)
Lemma color_taken code d s :
  wholeText d = true -> takenAsColor d = true ->
  let s1 := exec (onWsEvent code WS_EVT_DATA d) s in
  let t := trace (onWsEvent code WS_EVT_DATA d) s in
  currentEffect s1 = EFFECT_STATIC /\ shows t = [strip s1] /\
  broadcasts t = 1%nat.
Proof.
  intros Hw Ht. unfold takenAsColor in Ht.
  destruct (ws_json d) as [doc|] eqn:Hd; [|discriminate Ht].
  destruct (cstr "action" doc) as [action|] eqn:Ha; [|discriminate Ht].
  destruct (cstr "value" doc) as [v|] eqn:Hv; [|discriminate Ht].
  apply andb_true_iff in Ht. destruct Ht as [Hn Hc].
  apply String.eqb_eq in Hn.
  unfold onWsEvent. fold (wholeText d). rewrite Hw, Hd, Ha, Hn.
  change (dispatchAction code "setcolor" doc) with (doSetColor doc).
  unfold doSetColor. rewrite Hv, Hc. cbv zeta.
  split; [reflexivity|]. split; reflexivity.
Qed.

(** Apart from such a value, what the interface counts as malformed is
    what the handler rejects. *)
Lemma malformed_rejected code d :
  Malformed code d -> wholeText d && takenAsColor d = false ->
  Rejected code d.
Proof.
  intros Hm Hn.
  destruct (wholeText d) eqn:Hw; [|apply NotWholeText; exact Hw].
  cbn [andb] in Hn.
  destruct Hm as [Hm|Hm]; [rewrite Hw in Hm; discriminate Hm|].
  unfold takenAsColor in Hn.
  destruct (ws_json d) as [doc|] eqn:Hd; [|apply NotJson; exact Hd].
  unfold wellFormed in Hm.
  destruct (cstr "action" doc) as [action|] eqn:Ha;
    [|eapply NoAction; eassumption].
  cbv zeta in Hm.
  destruct (String.eqb (toLowerCase action) "setcolor") eqn:E1.
  { apply String.eqb_eq in E1.
    destruct (cstr "value" doc) as [v|] eqn:Hv;
      [|eapply NoColorValue; eassumption].
    cbn [andb] in Hn. apply orb_false_iff in Hm. destruct Hm as [_ Ho].
    apply String.eqb_neq in Ho.
    eapply BadColorValue; eassumption. }
  destruct (String.eqb (toLowerCase action) "setbrightness") eqn:E2.
  { apply String.eqb_eq in E2.
    eapply NoBrightnessValue; try eassumption. unfold asInt.
    destruct (member "value" doc) as [[| | | | |]|];
      try reflexivity; discriminate Hm. }
  destruct (String.eqb (toLowerCase action) "setmode") eqn:E3.
  { apply String.eqb_eq in E3.
    destruct (cstr "value" doc) as [v|] eqn:Hv;
      [|eapply NoModeValue; eassumption].
    apply bool_decide_eq_false in Hm.
    eapply UnknownMode; eassumption. }
  destruct (String.eqb (toLowerCase action) "getstate") eqn:E4;
    [discriminate Hm|].
  destruct (String.eqb (toLowerCase action) "privatepulse") eqn:E5.
  { apply String.eqb_eq in E5.
    destruct (cstr "secret" doc) as [v|] eqn:Hv;
      [|eapply NoSecret; eassumption].
    apply String.eqb_neq in Hm.
    eapply WrongSecret; eassumption. }
  eapply UnknownAction; try eassumption.
  unfold recognized. rewrite E1, E2, E3, E4, E5. reflexivity.
Qed.

(** C9. Not every malformed command is ignored.  A command message that
    is malformed by the interface (its action is none of the five, or
    its value is not what the table gives for the action) leaves the
    state as it was and emits nothing, with one exception: a [setcolor]
    whose value has seven characters and starts with [#] is applied
    although its other six characters are no hexadecimal number; the
    mode becomes Static, a frame is pushed and a snapshot is
    broadcast. *)
Theorem malformed_command_handling (code : string) (d : WsData) (s : State) :
  Malformed code d ->
  let s1 := exec (onWsEvent code WS_EVT_DATA d) s in
  let t := trace (onWsEvent code WS_EVT_DATA d) s in
  if wholeText d && takenAsColor d
  then currentEffect s1 = EFFECT_STATIC /\ shows t = [strip s1] /\
       broadcasts t = 1%nat
  else s1 = s /\ t = [].
Proof.
  intros Hm s1 t.
  destruct (wholeText d && takenAsColor d) eqn:E.
  - apply andb_true_iff in E. destruct E as [Hw Ht].
    apply color_taken; assumption.
  - apply rejected_frame_ignored, malformed_rejected; assumption.
Qed.

Lemma malformed_command_handling_witness :
  let d := setcolorCommand "#ZZZZZZ" in
  let s1 := exec (onWsEvent "1234" WS_EVT_DATA d) initialState in
  let t := trace (onWsEvent "1234" WS_EVT_DATA d) initialState in
  Malformed "1234" d /\
  currentEffect initialState = EFFECT_BREATH /\
  currentEffect s1 = EFFECT_STATIC /\ shows t = [strip s1] /\
  broadcasts t = 1%nat.
Proof.
  intros d s1 t.
  assert (Hm : Malformed "1234" d) by (right; reflexivity).
  split; [exact Hm|]. split; [reflexivity|].
  exact (malformed_command_handling "1234" d initialState Hm).
Defined.

Example unknown_action_ignored :
  Malformed "1234" (textFrame [("action", JStr "dance")]) /\
  exec (onWsEvent "1234" WS_EVT_DATA (textFrame [("action", JStr "dance")]))
    initialState = initialState.
Proof. split; [right; reflexivity|reflexivity]. Qed.

(** ** The duration budgets *)



(** C2, the claim as stated fails under a special date as well: with
    Christmas playing, a settled override is still in place an hour
    after its start, and nothing has been broadcast in that tick. *)
Lemma settled_outlasts_budget_under_date :
  let s0 := exec (loop (clockTick 60000 HIGH (Some christmasMorning)))
              initialState in
  let s1 := exec (loop (feedTick "settled" 61000)) s0 in
  let later := clockTick 3661000 HIGH (Some christmasMorning) in
  let s2 := exec (loop later) s1 in
  dateActive s0 = true /\
  geoOverride s1 = (GEO_SETTLED, 61000, 10000) /\
  t_messages later = [] /\
  elapsed (t_expiry_now later) 61000 = 3600000 /\
  geoOverride s2 = (GEO_SETTLED, 61000, 10000) /\
  broadcasts (trace (loop later) s1) = 0%nat.
Proof. vm_compute. repeat split. Qed.

(** ** The end of an arrive override *)







